(** * Workflow orchestration engine: a shallow embedding

    The development follows the Python sources
    [backend/app/agents/base.py] and [backend/app/orchestrator/workflow.py].

    - [Py]       : the fragment of Python's data and exceptions the code uses;
    - [Base]     : [AgentResult], [BaseAgent] ([execute], [add_message],
                   [get_stats], [health_check]) and [AgentCommunicator];
    - [Workflow] : [WorkflowState], the four graph nodes, the routing
                   conditions, the graph of [_build_workflow_graph], and the
                   manager ([start_workflow], [_execute_workflow],
                   [get_workflow_status]) with its registry of state objects
                   and graph outputs;
    - [Snapshot] : a store of mutable objects, on which [WorkflowState.to_dict]
                   and [get_workflow_status] are read with their aliasing. *)

From Stdlib Require Import ZArith List String Bool Lia DecimalString.
From Stdlib Require Import Floats.
From stdpp Require Import gmap strings list fin_maps.

Set Warnings "-register-all".
Local Open Scope string_scope.
Local Open Scope list_scope.
Local Open Scope Z_scope.

(* ===================================================================== *)
(** * Python data and exceptions *)
(* ===================================================================== *)

Module Py.

(** Values of type [Any] as the agents exchange them: JSON-like trees.
    A [dict] keeps its insertion order, keys are strings. *)
Inductive value : Type :=
| VNone
| VBool (b : bool)
| VInt (z : Z)
| VFloat (f : float)
| VStr (s : string)
| VList (xs : list value)
| VDict (kvs : list (string * value)).

Definition dict := list (string * value).

(** [bool(v)]: the truth value Python gives to [v]. *)
Definition truthy (v : value) : bool :=
  match v with
  | VNone => false
  | VBool b => b
  | VInt z => negb (z =? 0)
  | VFloat f => negb (PrimFloat.eqb f 0%float)
  | VStr s => negb (String.eqb s "")
  | VList xs => match xs with [] => false | _ => true end
  | VDict kvs => match kvs with [] => false | _ => true end
  end.

(** [type(v).__name__] *)
Definition type_name (v : value) : string :=
  match v with
  | VNone => "NoneType"
  | VBool _ => "bool"
  | VInt _ => "int"
  | VFloat _ => "float"
  | VStr _ => "str"
  | VList _ => "list"
  | VDict _ => "dict"
  end.

(** [v == s] for a string literal [s]: only a [str] with the same
    characters is equal to it. *)
Definition eq_str (v : value) (s : string) : bool :=
  match v with
  | VStr s' => String.eqb s' s
  | _ => false
  end.

Fixpoint lookup_key (k : string) (d : dict) : option value :=
  match d with
  | [] => None
  | (k', v) :: d' => if String.eqb k' k then Some v else lookup_key k d'
  end.

(** [k in d] *)
Definition contains (k : string) (d : dict) : bool :=
  match lookup_key k d with Some _ => true | None => false end.

(** [d.get(k, default)] on a dict *)
Definition get_or (k : string) (default : value) (d : dict) : value :=
  match lookup_key k d with Some v => v | None => default end.

(** [d[k] = v]: an existing key keeps its place, a new key goes last. *)
Fixpoint set_item (k : string) (v : value) (d : dict) : dict :=
  match d with
  | [] => [(k, v)]
  | (k', v') :: d' =>
      if String.eqb k' k then (k, v) :: d' else (k', v') :: set_item k v d'
  end.

(** Exception classes the code meets. The last two derive from
    [BaseException] only, so [except Exception] lets them through. *)
Inductive exc_class : Type :=
| TimeoutError
| AttributeError
| TypeError
| KeyError
| ValueError
| RuntimeError
| ZeroDivisionError
| GraphRecursionError
| CancelledError
| KeyboardInterrupt.

(** An exception object: its class and [str(e)]. *)
Record exc : Type := Exc { exc_type : exc_class; exc_str : string }.

(** [isinstance(e, Exception)] *)
Definition is_Exception (e : exc) : bool :=
  match exc_type e with
  | CancelledError | KeyboardInterrupt => false
  | _ => true
  end.

(** [isinstance(e, asyncio.TimeoutError)] *)
Definition is_TimeoutError (e : exc) : bool :=
  match exc_type e with
  | TimeoutError => true
  | _ => false
  end.

(** What evaluating an expression or a call yields. *)
Inductive outcome (A : Type) : Type :=
| Returned (a : A)
| Raised (e : exc).
Arguments Returned {A} a.
Arguments Raised {A} e.

Definition no_attribute (v : value) (attr : string) : exc :=
  Exc AttributeError
      ("'" +:+ type_name v +:+ "' object has no attribute '" +:+ attr +:+ "'").

(** [v.get(k, default)] for [v : Any]: only a dict has [get]. *)
Definition get (v : value) (k : string) (default : value) : outcome value :=
  match v with
  | VDict d => Returned (get_or k default d)
  | _ => Raised (no_attribute v "get")
  end.

(** The items [for x in v] runs over. *)
Definition iterate (v : value) : outcome (list value) :=
  match v with
  | VList xs => Returned xs
  | VDict d => Returned (map (fun kv => VStr (fst kv)) d)
  | VStr s => Returned (map (fun c => VStr (String c EmptyString)) (list_ascii_of_string s))
  | _ => Raised (Exc TypeError ("'" +:+ type_name v +:+ "' object is not iterable"))
  end.

(** [len(v)] *)
Definition len (v : value) : outcome Z :=
  match v with
  | VList xs => Returned (Z.of_nat (length xs))
  | VDict d => Returned (Z.of_nat (length d))
  | VStr s => Returned (Z.of_nat (String.length s))
  | _ => Raised (Exc TypeError ("object of type '" +:+ type_name v +:+ "' has no len()"))
  end.

(** [float(n)] for an int [n]: rounding to the nearest binary64 (exact below
    2^53, where the counters of this program live). *)
Definition float_of_int (n : Z) : float :=
  SF2Prim (SpecFloat.binary_normalize prec emax n 0 false).

(** [x / n] with [x : float], [n : int] *)
Definition truediv_float_int (x : float) (n : Z) : outcome float :=
  if n =? 0 then Raised (Exc ZeroDivisionError "float division by zero")
  else Returned (x / float_of_int n)%float.

(** [a / n] with [a, n : int] *)
Definition truediv_int_int (a n : Z) : outcome float :=
  if n =? 0 then Raised (Exc ZeroDivisionError "division by zero")
  else Returned (float_of_int a / float_of_int n)%float.

(** [l[-k:]]: the last [k] items, all of [l] when it is shorter. *)
Definition last_items {A} (k : nat) (l : list A) : list A :=
  skipn (length l - k)%nat l.

(** [f"{n}"] for an int *)
Definition fmt_int (n : Z) : string := NilZero.string_of_int (Z.to_int n).

(** [f"{x}"] for an [Optional[str]] *)
Definition fmt_opt (o : option string) : string :=
  match o with Some s => s | None => "None" end.

End Py.

(* ===================================================================== *)
(** * agents/base.py *)
(* ===================================================================== *)

Module Base.
Import Py.

Inductive AgentStatus : Type := IDLE | PROCESSING | COMPLETED | ERROR | TIMEOUT.

(** [AgentStatus.value] *)
Definition status_value (s : AgentStatus) : string :=
  match s with
  | IDLE => "idle"
  | PROCESSING => "processing"
  | COMPLETED => "completed"
  | ERROR => "error"
  | TIMEOUT => "timeout"
  end.

Record AgentMessage : Type := mkAgentMessage {
  id : string;
  sender : string;
  recipient : string;
  content : value;
  message_type : string;
  timestamp : float;
  msg_metadata : value
}.

Record AgentResult : Type := mkAgentResult {
  success : bool;
  data : value;
  error : option string;
  metadata : value;
  execution_time : float;
  tokens_used : Z
}.

(** [AgentResult(success=False, error=msg, execution_time=t)]: the other
    fields take the dataclass defaults. *)
Definition failure_result (msg : string) (t : float) : AgentResult :=
  mkAgentResult false VNone (Some msg) VNone t 0.

Definition with_execution_time (r : AgentResult) (t : float) : AgentResult :=
  mkAgentResult (success r) (data r) (error r) (metadata r) t (tokens_used r).

(** [self.execution_stats], a dict with these five keys throughout. *)
Record ExecutionStats : Type := mkStats {
  total_executions : Z;
  total_time : float;
  total_tokens : Z;
  success_count : Z;
  error_count : Z
}.

Record BaseAgent : Type := mkAgent {
  name : string;
  status : AgentStatus;
  message_history : list AgentMessage;
  execution_stats : ExecutionStats
}.

(** [BaseAgent.__init__] *)
Definition init (n : string) : BaseAgent :=
  mkAgent n IDLE [] (mkStats 0 0%float 0 0 0).

Definition set_status (a : BaseAgent) (s : AgentStatus) : BaseAgent :=
  mkAgent (name a) s (message_history a) (execution_stats a).

Definition set_stats (a : BaseAgent) (st : ExecutionStats) : BaseAgent :=
  mkAgent (name a) (status a) (message_history a) st.

Definition count_error (st : ExecutionStats) : ExecutionStats :=
  mkStats (total_executions st) (total_time st) (total_tokens st)
          (success_count st) (error_count st + 1).

Definition count_success (st : ExecutionStats) : ExecutionStats :=
  mkStats (total_executions st) (total_time st) (total_tokens st)
          (success_count st + 1) (error_count st).

Definition count_execution (st : ExecutionStats) (t : float) (tokens : Z) : ExecutionStats :=
  mkStats (total_executions st + 1) (total_time st + t)%float
          (total_tokens st + tokens) (success_count st) (error_count st).

(** [BaseAgent.execute]. [proc] is what [await self.process(...)] does on
    this call (the subclass's code); [start_time] and [end_time] are the two
    readings of [time.time()] on the path taken. *)
Definition execute (self : BaseAgent) (start_time : float)
    (proc : outcome AgentResult) (end_time : float)
  : BaseAgent * outcome AgentResult :=
  let self := set_status self PROCESSING in
  match proc with
  | Returned result =>
      let execution_time := (end_time - start_time)%float in
      let result := with_execution_time result execution_time in
      let stats := count_execution (execution_stats self) execution_time (tokens_used result) in
      if success result
      then (set_stats (set_status self COMPLETED) (count_success stats), Returned result)
      else (set_stats (set_status self ERROR) (count_error stats), Returned result)
  | Raised e =>
      if is_TimeoutError e then
        (set_stats (set_status self TIMEOUT) (count_error (execution_stats self)),
         Returned (failure_result "Execution timed out" (end_time - start_time)%float))
      else if is_Exception e then
        (set_stats (set_status self ERROR) (count_error (execution_stats self)),
         Returned (failure_result (exc_str e) (end_time - start_time)%float))
      else (self, Raised e)
  end.

(** [BaseAgent.add_message] on the history *)
Definition add_message (history : list AgentMessage) (message : AgentMessage)
  : list AgentMessage :=
  let history := history ++ [message] in
  if (100 <? length history)%nat then last_items 50 history else history.

Definition add_message_agent (self : BaseAgent) (message : AgentMessage) : BaseAgent :=
  mkAgent (name self) (status self) (add_message (message_history self) message)
          (execution_stats self).

(** The histories an agent goes through under a sequence of [add_message]
    calls, one per call. *)
Fixpoint histories (history : list AgentMessage) (messages : list AgentMessage)
  : list (list AgentMessage) :=
  match messages with
  | [] => []
  | m :: rest => add_message history m :: histories (add_message history m) rest
  end.

(** [BaseAgent.get_stats]. A conditional expression evaluates its test
    first and then only the branch chosen. *)
Definition get_stats (self : BaseAgent) : outcome dict :=
  let stats := execution_stats self in
  match (if 0 <? total_executions stats
         then truediv_float_int (total_time stats) (total_executions stats)
         else Returned 0%float) with
  | Raised e => Raised e
  | Returned average =>
      match (if 0 <? total_executions stats
             then truediv_int_int (success_count stats) (total_executions stats)
             else Returned 0%float) with
      | Raised e => Raised e
      | Returned rate =>
          Returned
            [ ("total_executions", VInt (total_executions stats));
              ("total_time", VFloat (total_time stats));
              ("total_tokens", VInt (total_tokens stats));
              ("success_count", VInt (success_count stats));
              ("error_count", VInt (error_count stats));
              ("name", VStr (name self));
              ("status", VStr (status_value (status self)));
              ("message_count", VInt (Z.of_nat (length (message_history self))));
              ("average_execution_time", VFloat average);
              ("success_rate", VFloat rate) ]
      end
  end.

(** [BaseAgent.reset_stats] *)
Definition reset_stats (self : BaseAgent) : BaseAgent :=
  mkAgent (name self) (status self) [] (mkStats 0 0%float 0 0 0).

(** [BaseAgent.health_check]; [model_available] is
    [self.model_wrapper is not None]. *)
Definition health_check (self : BaseAgent) (model_available : bool) : dict :=
  [ ("name", VStr (name self));
    ("status", VStr (status_value (status self)));
    ("healthy", VBool (match status self with ERROR => false | _ => true end));
    ("model_available", VBool model_available) ].

(** One call of [execute]: the two clock readings and what [process] does. *)
Record call : Type := mkCall {
  call_start : float;
  call_process : outcome AgentResult;
  call_end : float
}.

(** The agent after a sequence of [execute] calls. *)
Definition execute_all (self : BaseAgent) (calls : list call) : BaseAgent :=
  fold_left (fun a c => fst (execute a (call_start c) (call_process c) (call_end c)))
            calls self.

(** The calls in which [process] returned, those in which it returned a
    success, and those counted as errors: a returned failure or a raised
    exception that [execute] catches. *)
Definition returned (c : call) : bool :=
  match call_process c with Returned _ => true | Raised _ => false end.

Definition succeeded (c : call) : bool :=
  match call_process c with Returned r => success r | Raised _ => false end.

Definition errored (c : call) : bool :=
  match call_process c with
  | Returned r => negb (success r)
  | Raised e => is_Exception e
  end.

Definition returned_tokens (c : call) : Z :=
  match call_process c with Returned r => tokens_used r | Raised _ => 0 end.

Definition count (p : call -> bool) (calls : list call) : Z :=
  Z.of_nat (length (List.filter p calls)).

(** The history after a sequence of [add_message] calls. *)
Definition add_messages (history : list AgentMessage) (messages : list AgentMessage)
  : list AgentMessage :=
  fold_left add_message messages history.

(** [AgentCommunicator]. Its subscribers are agent objects, held by
    reference: [agents] maps the identity of each agent object to its state,
    and a topic lists the identities subscribed to it, in order and with
    repetitions. *)
Record AgentCommunicator : Type := mkCommunicator {
  subscribers : gmap string (list nat)
}.

(** [AgentCommunicator.__init__] *)
Definition new_communicator : AgentCommunicator := mkCommunicator ∅.

(** [AgentCommunicator.subscribe] *)
Definition subscribe (self : AgentCommunicator) (topic : string) (agent : nat)
  : AgentCommunicator :=
  let current := match subscribers self !! topic with Some l => l | None => [] end in
  mkCommunicator (<[topic:=current ++ [agent]]> (subscribers self)).

(** [agent.add_message(message)] on the agent object [agent] *)
Definition deliver (message : AgentMessage) (agents : gmap nat BaseAgent) (agent : nat)
  : gmap nat BaseAgent :=
  alter (fun a => add_message_agent a message) agent agents.

(** [AgentCommunicator.publish] *)
Definition publish (self : AgentCommunicator) (topic : string) (message : AgentMessage)
    (agents : gmap nat BaseAgent) : gmap nat BaseAgent :=
  match subscribers self !! topic with
  | Some l => fold_left (deliver message) l agents
  | None => agents
  end.

(** [AgentCommunicator.send_direct] *)
Definition send_direct (message : AgentMessage) (recipient : nat)
    (agents : gmap nat BaseAgent) : gmap nat BaseAgent :=
  deliver message agents recipient.

(** The error message of the result [execute] returns for a call that
    failed: the error of a returned failure as an f-string prints it, or
    what [execute] makes of an exception it catches. *)
Definition failure_message (proc : outcome AgentResult) : option string :=
  match proc with
  | Returned r => if success r then None else Some (fmt_opt (error r))
  | Raised e =>
      if is_TimeoutError e then Some "Execution timed out"
      else if is_Exception e then Some (exc_str e)
      else None
  end.

End Base.

(* ===================================================================== *)
(** * orchestrator/workflow.py *)
(* ===================================================================== *)

Module Workflow.
Import Py.

Inductive WorkflowStatus : Type := PENDING | RUNNING | COMPLETED | FAILED | TIMEOUT.

(** [WorkflowStatus.value] *)
Definition status_value (s : WorkflowStatus) : string :=
  match s with
  | PENDING => "pending"
  | RUNNING => "running"
  | COMPLETED => "completed"
  | FAILED => "failed"
  | TIMEOUT => "timeout"
  end.

Definition is_failed (s : WorkflowStatus) : bool :=
  match s with FAILED => true | _ => false end.

(** The statuses the specification calls terminal. *)
Definition is_terminal (s : WorkflowStatus) : bool :=
  match s with COMPLETED | FAILED | TIMEOUT => true | _ => false end.

(** [WorkflowState] after [__post_init__]: the three data fields hold what
    the agents returned ([Any]); [implementation_data] is only ever written
    through item assignment, so it stays a dict. *)
Record WorkflowState : Type := mkState {
  workflow_id : string;
  user_request : string;
  current_step : string;
  status : WorkflowStatus;
  requirements_data : value;
  plan_data : value;
  implementation_data : dict;
  started_at : float;
  completed_at : option float;
  total_tokens_used : Z;
  errors : list string
}.

(** [WorkflowState(workflow_id=..., user_request=..., current_step="pending",
    status=WorkflowStatus.PENDING)], [now] being the [time.time()] of
    [__post_init__]. *)
Definition new_state (wid request : string) (now : float) : WorkflowState :=
  mkState wid request "pending" PENDING (VDict []) (VDict []) [] now None 0 [].

Definition set_current_step (step : string) (s : WorkflowState) : WorkflowState :=
  mkState (workflow_id s) (user_request s) step (status s) (requirements_data s)
          (plan_data s) (implementation_data s) (started_at s) (completed_at s)
          (total_tokens_used s) (errors s).

Definition set_status (st : WorkflowStatus) (s : WorkflowState) : WorkflowState :=
  mkState (workflow_id s) (user_request s) (current_step s) st (requirements_data s)
          (plan_data s) (implementation_data s) (started_at s) (completed_at s)
          (total_tokens_used s) (errors s).

Definition set_requirements_data (v : value) (s : WorkflowState) : WorkflowState :=
  mkState (workflow_id s) (user_request s) (current_step s) (status s) v
          (plan_data s) (implementation_data s) (started_at s) (completed_at s)
          (total_tokens_used s) (errors s).

Definition set_plan_data (v : value) (s : WorkflowState) : WorkflowState :=
  mkState (workflow_id s) (user_request s) (current_step s) (status s)
          (requirements_data s) v (implementation_data s) (started_at s)
          (completed_at s) (total_tokens_used s) (errors s).

Definition set_implementation_data (d : dict) (s : WorkflowState) : WorkflowState :=
  mkState (workflow_id s) (user_request s) (current_step s) (status s)
          (requirements_data s) (plan_data s) d (started_at s) (completed_at s)
          (total_tokens_used s) (errors s).

Definition set_completed_at (t : float) (s : WorkflowState) : WorkflowState :=
  mkState (workflow_id s) (user_request s) (current_step s) (status s)
          (requirements_data s) (plan_data s) (implementation_data s)
          (started_at s) (Some t) (total_tokens_used s) (errors s).

(** [state.total_tokens_used += n] *)
Definition add_tokens (n : Z) (s : WorkflowState) : WorkflowState :=
  mkState (workflow_id s) (user_request s) (current_step s) (status s)
          (requirements_data s) (plan_data s) (implementation_data s)
          (started_at s) (completed_at s) (total_tokens_used s + n) (errors s).

(** [state.errors.append(msg)] *)
Definition append_error (msg : string) (s : WorkflowState) : WorkflowState :=
  mkState (workflow_id s) (user_request s) (current_step s) (status s)
          (requirements_data s) (plan_data s) (implementation_data s)
          (started_at s) (completed_at s) (total_tokens_used s) (errors s ++ [msg]).

(** [state.implementation_data[k] = v] *)
Definition set_impl (k : string) (v : value) (s : WorkflowState) : WorkflowState :=
  set_implementation_data (set_item k v (implementation_data s)) s.

(** The nodes of the graph, and the three agents of [self.agents]. *)
Inductive node : Type := QaIntake | Manager | Code | Review.
Inductive target : Type := Node (n : node) | END.
Inductive agent_key : Type := AgentQaIntake | AgentManager | AgentCode.

Definition node_name (n : node) : string :=
  match n with
  | QaIntake => "qa_intake"
  | Manager => "manager"
  | Code => "code"
  | Review => "review"
  end.

(** [self.agents] after [initialize]. *)
Record Agents : Type := mkAgents {
  agent_qa_intake : Base.BaseAgent;
  agent_manager : Base.BaseAgent;
  agent_code : Base.BaseAgent
}.

Definition initial_agents : Agents :=
  mkAgents (Base.init "qa_intake") (Base.init "manager") (Base.init "code").

Definition get_agent (k : agent_key) (a : Agents) : Base.BaseAgent :=
  match k with
  | AgentQaIntake => agent_qa_intake a
  | AgentManager => agent_manager a
  | AgentCode => agent_code a
  end.

Definition set_agent (k : agent_key) (x : Base.BaseAgent) (a : Agents) : Agents :=
  match k with
  | AgentQaIntake => mkAgents x (agent_manager a) (agent_code a)
  | AgentManager => mkAgents (agent_qa_intake a) x (agent_code a)
  | AgentCode => mkAgents (agent_qa_intake a) (agent_manager a) x
  end.

(** What the program does not decide: how the [n]-th call of an agent's
    [process] behaves on its input, what the [n]-th reading of the clock is,
    the step budget of the compiled graph (its recursion limit), and what
    the installed version of the graph library adds to the message of its
    recursion error after the sentence that states the limit. *)
Record Environment : Type := mkEnv {
  process : nat -> agent_key -> value -> outcome Base.AgentResult;
  clock : nat -> float;
  recursion_limit : nat;
  recursion_hint : string
}.

(** What one workflow's execution acts on: its state object (mutated in
    place), the agents, the number of agent calls and of clock readings so
    far, and the nodes run so far (kept for the statements, the program does
    not read it). *)
Record World : Type := mkWorld {
  state : WorkflowState;
  agents : Agents;
  calls : nat;
  ticks : nat;
  trace : list node
}.

Definition M (A : Type) : Type := World -> World * outcome A.

Definition ret {A} (a : A) : M A := fun w => (w, Returned a).

Definition bind {A B} (m : M A) (k : A -> M B) : M B :=
  fun w => match m w with
           | (w', Returned a) => k a w'
           | (w', Raised e) => (w', Raised e)
           end.

Definition raise {A} (e : exc) : M A := fun w => (w, Raised e).

Definition lift {A} (o : outcome A) : M A := fun w => (w, o).

(** [try: body except Exception as e: handler(e)]; what the body did to the
    state before raising stays done. *)
Definition try_except {A} (body : M A) (handler : exc -> M A) : M A :=
  fun w => match body w with
           | (w', Raised e) => if is_Exception e then handler e w' else (w', Raised e)
           | r => r
           end.

Definition get_state : M WorkflowState := fun w => (w, Returned (state w)).

Definition modify (f : WorkflowState -> WorkflowState) : M unit :=
  fun w => (mkWorld (f (state w)) (agents w) (calls w) (ticks w) (trace w), Returned tt).

Definition visit (n : node) : M unit :=
  fun w => (mkWorld (state w) (agents w) (calls w) (ticks w) (trace w ++ [n]), Returned tt).

(** The world in which [_execute_workflow] calls the graph: the state object
    with [status = RUNNING]. *)
Definition running (w : World) : World :=
  mkWorld (set_status RUNNING (state w)) (agents w) (calls w) (ticks w) (trace w).

(** What the outcome of [m] is, as a value: the [try] of a statement whose
    handler depends on how far the block got. *)
Definition attempt {A} (m : M A) : M (outcome A) :=
  fun w => let '(w', r) := m w in (w', Returned r).

(** What the registry holds under an identifier: the [WorkflowState] object
    that [start_workflow] created, or the dict that the compiled graph
    returned and [_execute_workflow] stored in its place. The items of the
    dict are the fields of a state, under their names. *)
Inductive entry : Type :=
| StateObject (s : WorkflowState)
| OutputDict (s : WorkflowState).

Definition fields (e : entry) : WorkflowState :=
  match e with
  | StateObject s => s
  | OutputDict s => s
  end.

(** [x.status] read or assigned on a dict [x]. *)
Definition no_status : exc := no_attribute (VDict []) "status".

Notation "x <- m ;; k" := (bind m (fun x => k))
  (at level 100, m at next level, right associativity).
Notation "m ;;; k" := (bind m (fun _ => k))
  (at level 100, right associativity).

Section WithEnvironment.
Variable env : Environment.

(** [time.time()] *)
Definition now : M float :=
  fun w => (mkWorld (state w) (agents w) (calls w) (S (ticks w)) (trace w),
            Returned (clock env (ticks w))).

(** [await self.agents[k].execute(input_data)] *)
Definition call_agent (k : agent_key) (input_data : value) : M Base.AgentResult :=
  fun w =>
    let start_time := clock env (ticks w) in
    let proc := process env (calls w) k input_data in
    let end_time := clock env (S (ticks w)) in
    let '(a, r) := Base.execute (get_agent k (agents w)) start_time proc end_time in
    (mkWorld (state w) (set_agent k a (agents w)) (S (calls w)) (S (S (ticks w))) (trace w), r).

(** [for task in tasks: if task.get("status") == "pending": pending_task =
    task; break], with the position of the task found. *)
Fixpoint find_pending (i : nat) (tasks : list value) : outcome (option (nat * value)) :=
  match tasks with
  | [] => Returned None
  | task :: rest =>
      match get task "status" VNone with
      | Raised e => Raised e
      | Returned st =>
          if eq_str st "pending" then Returned (Some (i, task))
          else find_pending (S i) rest
      end
  end.

(** [[t for t in tasks if t.get("status") == "completed"]] *)
Fixpoint completed_tasks_of (tasks : list value) : outcome (list value) :=
  match tasks with
  | [] => Returned []
  | t :: rest =>
      match get t "status" VNone with
      | Raised e => Raised e
      | Returned st =>
          match completed_tasks_of rest with
          | Raised e => Raised e
          | Returned done => Returned (if eq_str st "completed" then t :: done else done)
          end
      end
  end.

(** [pending_task["status"] = "completed"]: the task found is the [i]-th
    item of [plan_data["implementation_plan"]["tasks"]] and is updated in
    place there (the tasks of a plan are taken to be distinct objects). *)
Definition complete_task (i : nat) (plan_data : value) : value :=
  match plan_data with
  | VDict pd =>
      match lookup_key "implementation_plan" pd with
      | Some (VDict plan) =>
          match lookup_key "tasks" plan with
          | Some (VList tasks) =>
              match tasks !! i with
              | Some (VDict task) =>
                  let task := VDict (set_item "status" (VStr "completed") task) in
                  let plan := VDict (set_item "tasks" (VList (<[i:=task]> tasks)) plan) in
                  VDict (set_item "implementation_plan" plan pd)
              | _ => plan_data
              end
          | _ => plan_data
          end
      | _ => plan_data
      end
  | _ => plan_data
  end.

(** [state.implementation_data["implementations"].append(d)] *)
Definition append_implementation (d : value) : M unit :=
  s <- get_state ;;
  match lookup_key "implementations" (implementation_data s) with
  | Some (VList xs) => modify (set_impl "implementations" (VList (xs ++ [d])))
  | Some v => raise (no_attribute v "append")
  | None => raise (Exc KeyError "'implementations'")
  end.

(** [_qa_intake_node] *)
Definition _qa_intake_node : M unit :=
  modify (set_current_step "qa_intake") ;;;
  try_except
    (s <- get_state ;;
     input_data <-
       (if negb (truthy (requirements_data s))
        then ret (VStr (user_request s))
        else
          requirements_state <- lift (get (requirements_data s) "requirements_state" VNone) ;;
          responses <- lift (get (requirements_data s) "user_responses" (VDict [])) ;;
          ret (VDict [("requirements_state", requirements_state);
                      ("responses", responses)])) ;;
     result <- call_agent AgentQaIntake input_data ;;
     if Base.success result
     then
       modify (set_requirements_data (Base.data result)) ;;;
       modify (add_tokens (Base.tokens_used result))
     else
       modify (append_error ("QA Intake failed: " +:+ fmt_opt (Base.error result))) ;;;
       modify (set_status FAILED))
    (fun e =>
       modify (append_error ("QA Intake error: " +:+ exc_str e)) ;;;
       modify (set_status FAILED)).

(** [_manager_node] *)
Definition _manager_node : M unit :=
  modify (set_current_step "manager") ;;;
  try_except
    (s <- get_state ;;
     result <- call_agent AgentManager (requirements_data s) ;;
     if Base.success result
     then
       modify (set_plan_data (Base.data result)) ;;;
       modify (add_tokens (Base.tokens_used result))
     else
       modify (append_error ("Manager failed: " +:+ fmt_opt (Base.error result))) ;;;
       modify (set_status FAILED))
    (fun e =>
       modify (append_error ("Manager error: " +:+ exc_str e)) ;;;
       modify (set_status FAILED)).

(** The first lines of [_code_node]'s [try] block: the plan, its tasks and
    the first pending one. *)
Definition pending_task_of (plan_data : value)
  : outcome (value * list value * option (nat * value)) :=
  match get plan_data "implementation_plan" (VDict []) with
  | Raised e => Raised e
  | Returned plan =>
      match get plan "tasks" (VList []) with
      | Raised e => Raised e
      | Returned tasks =>
          match iterate tasks with
          | Raised e => Raised e
          | Returned items =>
              match find_pending 0 items with
              | Raised e => Raised e
              | Returned found => Returned (plan, items, found)
              end
          end
      end
  end.

(** [_code_node] *)
Definition _code_node : M unit :=
  modify (set_current_step "code") ;;;
  try_except
    (s <- get_state ;;
     looked <- lift (pending_task_of (plan_data s)) ;;
     let '(plan, tasks, found) := looked in
     match found with
     | Some (i, pending_task) =>
         if negb (truthy pending_task)
         then modify (set_impl "all_tasks_complete" (VBool true))
         else
           project_overview <- lift (get plan "project_overview" (VDict [])) ;;
           technical_specifications <-
             lift (get plan "technical_specifications" (VDict [])) ;;
           completed_tasks <- lift (completed_tasks_of tasks) ;;
           let input_data :=
             VDict [("task", pending_task);
                    ("project_context",
                     VDict [("project_overview", project_overview);
                            ("technical_specifications", technical_specifications);
                            ("completed_tasks", VList completed_tasks)])] in
           result <- call_agent AgentCode input_data ;;
           if Base.success result
           then
             s <- get_state ;;
             (if contains "implementations" (implementation_data s)
              then ret tt
              else modify (set_impl "implementations" (VList []))) ;;;
             append_implementation (Base.data result) ;;;
             modify (add_tokens (Base.tokens_used result)) ;;;
             modify (fun s => set_plan_data (complete_task i (plan_data s)) s)
           else
             modify (append_error ("Code generation failed: " +:+ fmt_opt (Base.error result))) ;;;
             revision_required <-
               (if truthy (Base.data result)
                then v <- lift (get (Base.data result) "revision_required" VNone) ;;
                     ret (truthy v)
                else ret false) ;;
             if revision_required : bool
             then
               modify (set_impl "revision_required" (VBool true)) ;;;
               quality_issues <- lift (get (Base.data result) "quality_issues" (VList [])) ;;
               modify (set_impl "quality_issues" quality_issues)
             else modify (set_status FAILED)
     | None => modify (set_impl "all_tasks_complete" (VBool true))
     end)
    (fun e =>
       modify (append_error ("Code error: " +:+ exc_str e)) ;;;
       modify (set_status FAILED)).

(** [_review_node] *)
Definition _review_node : M unit :=
  modify (set_current_step "review") ;;;
  try_except
    (s <- get_state ;;
     plan <- lift (get (plan_data s) "implementation_plan" (VDict [])) ;;
     tasks <- lift (get plan "tasks" (VList [])) ;;
     items <- lift (iterate tasks) ;;
     completed_tasks <- lift (completed_tasks_of items) ;;
     total_tasks <- lift (len tasks) ;;
     if (Z.of_nat (length completed_tasks) =? total_tasks) && (0 <? total_tasks)
     then
       modify (set_impl "review_status" (VStr "approved")) ;;;
       modify (set_status COMPLETED) ;;;
       t <- now ;;
       modify (set_completed_at t)
     else modify (set_impl "review_status" (VStr "continue_implementation")))
    (fun e =>
       modify (append_error ("Review error: " +:+ exc_str e)) ;;;
       modify (set_status FAILED)).

(** [qa_data and qa_data.get("next_action") == action] *)
Definition next_action_is (data : value) (action : string) : outcome bool :=
  if truthy data
  then match get data "next_action" VNone with
       | Raised e => Raised e
       | Returned v => Returned (eq_str v action)
       end
  else Returned false.

(** [_qa_routing_condition] *)
Definition _qa_routing_condition (s : WorkflowState) : outcome string :=
  if is_failed (status s) then Returned "error"
  else
    match next_action_is (requirements_data s) "proceed_to_planning" with
    | Raised e => Raised e
    | Returned true => Returned "proceed_to_planning"
    | Returned false =>
        match next_action_is (requirements_data s) "await_user_responses" with
        | Raised e => Raised e
        | Returned true => Returned "continue_qa"
        | Returned false => Returned "error"
        end
    end.

(** [_manager_routing_condition] *)
Definition _manager_routing_condition (s : WorkflowState) : outcome string :=
  if is_failed (status s) then Returned "error"
  else
    match next_action_is (plan_data s) "begin_implementation" with
    | Raised e => Raised e
    | Returned true => Returned "proceed_to_code"
    | Returned false => Returned "error"
    end.

(** [_code_routing_condition] *)
Definition _code_routing_condition (s : WorkflowState) : outcome string :=
  if is_failed (status s) then Returned "error"
  else if truthy (get_or "revision_required" VNone (implementation_data s))
  then Returned "revise_code"
  else if truthy (get_or "all_tasks_complete" VNone (implementation_data s))
  then Returned "complete"
  else Returned "proceed_to_review".

(** [_review_routing_condition] *)
Definition _review_routing_condition (s : WorkflowState) : outcome string :=
  let review_status := get_or "review_status" VNone (implementation_data s) in
  if eq_str review_status "approved" then Returned "approve"
  else if eq_str review_status "continue_implementation" then Returned "request_revision"
  else Returned "back_to_planning".

(** The graph of [_build_workflow_graph]: the function of each node, its
    routing condition and the path map of its conditional edges. *)
Definition node_function (n : node) : M unit :=
  match n with
  | QaIntake => _qa_intake_node
  | Manager => _manager_node
  | Code => _code_node
  | Review => _review_node
  end.

Definition routing_condition (n : node) : WorkflowState -> outcome string :=
  match n with
  | QaIntake => _qa_routing_condition
  | Manager => _manager_routing_condition
  | Code => _code_routing_condition
  | Review => _review_routing_condition
  end.

Definition path_map (n : node) : list (string * target) :=
  match n with
  | QaIntake =>
      [("continue_qa", Node QaIntake); ("proceed_to_planning", Node Manager);
       ("error", END)]
  | Manager =>
      [("proceed_to_code", Node Code); ("revise_plan", Node Manager); ("error", END)]
  | Code =>
      [("proceed_to_review", Node Review); ("revise_code", Node Code);
       ("complete", END); ("error", END)]
  | Review =>
      [("approve", END); ("request_revision", Node Code);
       ("back_to_planning", Node Manager)]
  end.

Fixpoint path_lookup (label : string) (paths : list (string * target)) : option target :=
  match paths with
  | [] => None
  | (l, t) :: rest => if String.eqb l label then Some t else path_lookup label rest
  end.

(** Where the conditional edges of [n] lead from state [s]. *)
Definition next_target (n : node) (s : WorkflowState) : outcome target :=
  match routing_condition n s with
  | Raised e => Raised e
  | Returned label =>
      match path_lookup label (path_map n) with
      | Some t => Returned t
      | None => Raised (Exc KeyError ("'" +:+ label +:+ "'"))
      end
  end.

(** The error of the compiled graph when its step budget runs out: the
    sentence that states the limit, then the library's hint. *)
Definition recursion_error : exc :=
  Exc GraphRecursionError
      ("Recursion limit of " +:+ fmt_int (Z.of_nat (recursion_limit env)) +:+
       " reached without hitting a stop condition." +:+ recursion_hint env).

(** The compiled graph run from node [n] with [budget] steps left: run the
    node, follow its conditional edges, stop at [END]. *)
Fixpoint run_from (budget : nat) (n : node) : M unit :=
  match budget with
  | O => raise recursion_error
  | S budget' =>
      visit n ;;;
      node_function n ;;;
      s <- get_state ;;
      t <- lift (next_target n s) ;;
      match t with
      | END => ret tt
      | Node n' => run_from budget' n'
      end
  end.

(** [self.workflow_graph.ainvoke(state)], entered at ["qa_intake"]. *)
Definition ainvoke : M unit := run_from (recursion_limit env) QaIntake.

(** [_execute_workflow] on the state object it found in the registry.

    [ainvoke] hands back the output of the graph, a dict of the fields of
    the state, not a [WorkflowState]. So when the graph returns, the next
    line stores that dict in the registry, [final_state.status] raises
    [AttributeError], and in the handler
    [self.active_workflows[workflow_id].status = ...] is an assignment on
    the same dict, which raises again: the error leaves [_execute_workflow]
    and the lines that set [COMPLETED] and stamp [completed_at] are never
    run. When the graph raises an [Exception], the registry still holds the
    state object and the handler marks it.

    The state of the world afterwards holds the fields of what the registry
    holds, object or dict ([graph_returns] tells which). *)
Definition _execute_workflow_on : M unit :=
  modify (set_status RUNNING) ;;;
  final_state <- attempt ainvoke ;;
  match final_state with
  | Returned _ => raise no_status
  | Raised e =>
      if is_Exception e
      then
        modify (set_status FAILED) ;;;
        modify (append_error ("Execution error: " +:+ exc_str e))
      else raise e
  end.

(** Whether the graph returns on the state object of [w], that is, whether
    [_execute_workflow] gets to store the dict. *)
Definition graph_returns (w : World) : bool :=
  match snd (ainvoke (running w)) with
  | Returned _ => true
  | Raised _ => false
  end.

(** [WorkflowManager] after [initialize]. *)
Record WorkflowManager : Type := mkManager {
  active_workflows : gmap string entry;
  max_concurrent_workflows : Z;
  manager_agents : Agents;
  manager_calls : nat;
  manager_ticks : nat
}.

(** [settings.MAX_CONCURRENT_WORKFLOWS] *)
Definition MAX_CONCURRENT_WORKFLOWS : Z := 5.

(** [WorkflowManager.__init__] followed by [initialize] *)
Definition new_manager : WorkflowManager :=
  mkManager ∅ MAX_CONCURRENT_WORKFLOWS initial_agents 0 0.

(** [start_workflow]; [uuid] is the identifier [uuid.uuid4()] draws. The
    task it creates runs [_execute_workflow] later. *)
Definition start_workflow (self : WorkflowManager) (request : string) (uuid : string)
  : WorkflowManager * outcome string :=
  if max_concurrent_workflows self <=? Z.of_nat (size (active_workflows self))
  then
    (self,
     Raised (Exc RuntimeError
                 ("Maximum concurrent workflows (" +:+
                  fmt_int (max_concurrent_workflows self) +:+ ") reached")))
  else
    let st := new_state uuid request (clock env (manager_ticks self)) in
    (mkManager (<[uuid:=StateObject st]> (active_workflows self))
               (max_concurrent_workflows self)
               (manager_agents self) (manager_calls self) (S (manager_ticks self)),
     Returned uuid).

(** [_execute_workflow]. The state object of the registry is the one the
    nodes mutate, so the registry holds what the run made of it: the object
    when the graph raised, the dict of its fields when the graph returned.
    An unknown identifier raises [KeyError] inside the [try], and the
    handler finds nothing to mark. On an entry that is a dict already,
    [state.status = RUNNING] raises [AttributeError] and so does the
    handler's assignment. *)
Definition _execute_workflow (self : WorkflowManager) (workflow_id : string)
  : WorkflowManager * outcome unit :=
  match active_workflows self !! workflow_id with
  | None => (self, Returned tt)
  | Some (OutputDict _) => (self, Raised no_status)
  | Some (StateObject st) =>
      let w0 :=
        mkWorld st (manager_agents self) (manager_calls self) (manager_ticks self) [] in
      let '(w, r) := _execute_workflow_on w0 in
      let stored := if graph_returns w0 then OutputDict (state w) else StateObject (state w) in
      (mkManager (<[workflow_id:=stored]> (active_workflows self))
                 (max_concurrent_workflows self) (agents w) (calls w) (ticks w),
       r)
  end.

(** The number of registered workflows that are not in a terminal status. *)
Definition live_count (self : WorkflowManager) : nat :=
  size (filter (fun kv => is_terminal (status (fields kv.2)) = false)
               (active_workflows self)).

End WithEnvironment.

(** [WorkflowState.to_dict]: [asdict(self)] with the status replaced by its
    value. *)
Definition to_dict (s : WorkflowState) : dict :=
  [ ("workflow_id", VStr (workflow_id s));
    ("user_request", VStr (user_request s));
    ("current_step", VStr (current_step s));
    ("status", VStr (status_value (status s)));
    ("requirements_data", requirements_data s);
    ("plan_data", plan_data s);
    ("implementation_data", VDict (implementation_data s));
    ("started_at", VFloat (started_at s));
    ("completed_at", match completed_at s with Some t => VFloat t | None => VNone end);
    ("total_tokens_used", VInt (total_tokens_used s));
    ("errors", VList (map VStr (errors s))) ].

(** [get_workflow_status]: [None] for an identifier that is not registered,
    [state.to_dict()] for a state object; a dict has no [to_dict]. *)
Definition get_workflow_status (self : WorkflowManager) (workflow_id : string)
  : outcome (option dict) :=
  match active_workflows self !! workflow_id with
  | None => Returned None
  | Some (StateObject s) => Returned (Some (to_dict s))
  | Some (OutputDict _) => Raised (no_attribute (VDict []) "to_dict")
  end.

(** A state whose execution has not settled: nothing stamped, and the status
    one of those a run goes through before it completes. *)
Definition unsettled (s : WorkflowState) : Prop :=
  completed_at s = None /\ (status s = RUNNING \/ status s = FAILED).

(** A state settled as completed: the status and the stamp together. *)
Definition settled_completed (s : WorkflowState) : Prop :=
  status s = COMPLETED /\ exists t, completed_at s = Some t.

(** The order in which the token counter is meant to move. *)
Definition tokens_le (s s' : WorkflowState) : Prop :=
  total_tokens_used s <= total_tokens_used s'.

Definition node_eqb (a b : node) : bool :=
  match a, b with
  | QaIntake, QaIntake | Manager, Manager | Code, Code | Review, Review => true
  | _, _ => false
  end.

(** The longest block of consecutive executions of one node in a trace,
    [count] being the length of the block of [current] that is open. *)
Fixpoint longest_run_from (current : node) (count : nat) (l : list node) : nat :=
  match l with
  | [] => count
  | n :: rest =>
      if node_eqb n current then longest_run_from current (S count) rest
      else Nat.max count (longest_run_from n 1 rest)
  end.

Definition longest_run (l : list node) : nat :=
  match l with
  | [] => 0%nat
  | n :: rest => longest_run_from n 1 rest
  end.

(** The registry holds no more workflows than the ceiling allows. *)
Definition within_ceiling (self : WorkflowManager) : Prop :=
  Z.of_nat (size (active_workflows self)) <= max_concurrent_workflows self.

(** [t.get("status") == status] for a task [t] that is a dict. *)
Definition task_has_status (status : string) (t : value) : bool :=
  match t with
  | VDict d => eq_str (get_or "status" VNone d) status
  | _ => false
  end.

Definition is_dict (v : value) : bool :=
  match v with VDict _ => true | _ => false end.

(** A plan as the planner returns it: [plan_data] is a dict whose
    ["implementation_plan"] is a dict whose ["tasks"] is the list [tasks],
    each task being a dict. *)
Definition plan_with_tasks (plan_data : value) (tasks : list value) : Prop :=
  exists pd plan,
    plan_data = VDict pd /\
    lookup_key "implementation_plan" pd = Some (VDict plan) /\
    lookup_key "tasks" plan = Some (VList tasks) /\
    forallb is_dict tasks = true.

(** The tasks of a plan that are still pending. *)
Definition pending_count (tasks : list value) : nat :=
  length (List.filter (task_has_status "pending") tasks).

(** [state.implementation_data.get("revision_required")] is truthy. *)
Definition revision_requested (s : WorkflowState) : bool :=
  truthy (get_or "revision_required" VNone (implementation_data s)).

(** The errors of [s'] are those of [s], followed by new ones. *)
Definition errors_extend (s s' : WorkflowState) : Prop :=
  exists new, errors s' = errors s ++ new.

(** [s'] is a state of the same workflow as [s]. *)
Definition same_identity (s s' : WorkflowState) : Prop :=
  workflow_id s' = workflow_id s /\
  user_request s' = user_request s /\
  started_at s' = started_at s.

(** [state.implementation_data["implementations"]], a missing key standing
    for no implementation yet; [None] when the key holds something that is
    not a list. *)
Definition implementations_of (impl : dict) : option (list value) :=
  match lookup_key "implementations" impl with
  | None => Some []
  | Some (VList xs) => Some xs
  | Some _ => None
  end.

(** What the review node approves: a plan with at least one task whose
    tasks all have the status ["completed"]. *)
Definition all_tasks_completed (tasks : list value) : bool :=
  forallb (task_has_status "completed") tasks
  && match tasks with [] => false | _ :: _ => true end.

(** Every task of the plan is pending or completed. *)
Definition pending_or_completed (tasks : list value) : bool :=
  forallb (fun t => task_has_status "pending" t || task_has_status "completed" t) tasks.

(** A workflow that is implementing its plan: it has not failed, no revision
    is requested and the task list is not marked as exhausted. *)
Definition implementing (s : WorkflowState) : Prop :=
  is_failed (status s) = false /\
  revision_requested s = false /\
  truthy (get_or "all_tasks_complete" VNone (implementation_data s)) = false.

(** The input [_code_node] hands to the code agent for the pending task
    [task] of the plan [plan], whose tasks are [tasks]. *)
Definition code_input (plan : dict) (task : value) (tasks : list value) : value :=
  VDict [("task", task);
         ("project_context",
          VDict [("project_overview", get_or "project_overview" (VDict []) plan);
                 ("technical_specifications",
                  get_or "technical_specifications" (VDict []) plan);
                 ("completed_tasks",
                  VList (List.filter (task_has_status "completed") tasks))])].

(** The code agent returns a success on every call. *)
Definition code_agent_succeeds (env : Environment) : Prop :=
  forall n input,
    exists r, process env n AgentCode input = Returned r /\ Base.success r = true.

(** The intake agent returns, on every call, a success whose data asks to
    proceed to planning. *)
Definition intake_proceeds (env : Environment) : Prop :=
  forall n input,
    exists r dq,
      process env n AgentQaIntake input = Returned r /\
      Base.success r = true /\
      Base.data r = VDict dq /\
      lookup_key "next_action" dq = Some (VStr "proceed_to_planning").

(** The planner returns, on every call, a success whose data is [plan]. *)
Definition planner_returns (env : Environment) (plan : value) : Prop :=
  forall n input,
    exists r,
      process env n AgentManager input = Returned r /\
      Base.success r = true /\
      Base.data r = plan.

(** Agent [k] fails on every call with the message [msg], and a failure it
    returns carries no data. *)
Definition agent_fails (env : Environment) (k : agent_key) (msg : string) : Prop :=
  forall n input,
    Base.failure_message (process env n k input) = Some msg /\
    forall r, process env n k input = Returned r -> truthy (Base.data r) = false.

End Workflow.

(* ===================================================================== *)
(** * Status queries over a store of mutable objects *)
(* ===================================================================== *)

(** [get_workflow_status] returns [state.to_dict()], that is
    [dataclasses.asdict(state)] with the status replaced by its value.
    Whether the caller and the registry then share mutable objects is a
    question about references, so here the dicts, the lists and the state
    object live in a store and a value is an immediate or a reference. *)
Module Snapshot.
Import Py.

Abbreviation loc := nat (only parsing).

(** What a variable, a field or a container slot holds. *)
Inductive ref_value : Type :=
| RNone
| RBool (b : bool)
| RInt (z : Z)
| RFloat (f : float)
| RStr (s : string)
| RRef (l : loc).

(** A [WorkflowState] instance: its immutable fields by value, its dicts and
    its list of errors by what the field holds. *)
Record WorkflowStateObject : Type := mkObject {
  workflow_id : string;
  user_request : string;
  current_step : string;
  status : Workflow.WorkflowStatus;
  requirements_data : ref_value;
  plan_data : ref_value;
  implementation_data : ref_value;
  started_at : float;
  completed_at : option float;
  total_tokens_used : Z;
  errors : ref_value
}.

(** The mutable objects. *)
Inductive object : Type :=
| OList (items : list ref_value)
| ODict (items : list (string * ref_value))
| OState (s : WorkflowStateObject).

Abbreviation store := (list object) (only parsing).

(** What an object holds, in order. *)
Definition children (o : object) : list ref_value :=
  match o with
  | OList items => items
  | ODict items => map snd items
  | OState s => [requirements_data s; plan_data s; implementation_data s; errors s]
  end.

(** ** Reading a structure off the store *)

Fixpoint read_items (read1 : ref_value -> option value) (vs : list ref_value)
  : option (list value) :=
  match vs with
  | [] => Some []
  | v :: rest =>
      match read1 v with
      | None => None
      | Some t =>
          match read_items read1 rest with
          | None => None
          | Some ts => Some (t :: ts)
          end
      end
  end.

(** The tree a value denotes in store [h], read to depth [fuel]. *)
Fixpoint read_value (fuel : nat) (h : store) (v : ref_value) : option value :=
  match fuel with
  | O => None
  | S fuel' =>
      match v with
      | RNone => Some VNone
      | RBool b => Some (VBool b)
      | RInt z => Some (VInt z)
      | RFloat f => Some (VFloat f)
      | RStr s => Some (VStr s)
      | RRef l =>
          match h !! l with
          | Some (OList items) =>
              match read_items (read_value fuel' h) items with
              | Some ts => Some (VList ts)
              | None => None
              end
          | Some (ODict items) =>
              match read_items (read_value fuel' h) (map snd items) with
              | Some ts => Some (VDict (combine (map fst items) ts))
              | None => None
              end
          | _ => None
          end
      end
  end.

Fixpoint strings_of_values (vs : list value) : option (list string) :=
  match vs with
  | [] => Some []
  | VStr s :: rest =>
      match strings_of_values rest with
      | Some ss => Some (s :: ss)
      | None => None
      end
  | _ => None
  end.

(** The [WorkflowState] the state object at [l] denotes in store [h]. *)
Definition read_state (fuel : nat) (h : store) (l : loc) : option Workflow.WorkflowState :=
  match h !! l with
  | Some (OState s) =>
      match read_items (read_value fuel h) (children (OState s)) with
      | Some [req; plan; VDict impl; VList errs] =>
          match strings_of_values errs with
          | Some es =>
              Some (Workflow.mkState (workflow_id s) (user_request s) (current_step s)
                      (status s) req plan impl (started_at s) (completed_at s)
                      (total_tokens_used s) es)
          | None => None
          end
      | _ => None
      end
  | _ => None
  end.

(** ** [dataclasses.asdict] *)

Fixpoint copy_items (copy1 : ref_value -> store -> option (ref_value * store))
    (vs : list ref_value) (h : store) : option (list ref_value * store) :=
  match vs with
  | [] => Some ([], h)
  | v :: rest =>
      match copy1 v h with
      | None => None
      | Some (v', h1) =>
          match copy_items copy1 rest h1 with
          | None => None
          | Some (rest', h2) => Some (v' :: rest', h2)
          end
      end
  end.

(** [_asdict_inner]: a list becomes a new list of the copies of its items, a
    dict a new dict of the copies of its values under the same keys, and
    anything immutable is returned as it is. [fuel] is the recursion depth
    Python allows; the data an agent returns holds no [WorkflowState]. *)
Fixpoint copy_value (fuel : nat) (v : ref_value) (h : store)
  : option (ref_value * store) :=
  match fuel with
  | O => None
  | S fuel' =>
      match v with
      | RRef l =>
          match h !! l with
          | Some (OList items) =>
              match copy_items (copy_value fuel') items h with
              | Some (items', h') => Some (RRef (length h'), h' ++ [OList items'])
              | None => None
              end
          | Some (ODict items) =>
              match copy_items (copy_value fuel') (map snd items) h with
              | Some (vs', h') =>
                  Some (RRef (length h'), h' ++ [ODict (combine (map fst items) vs')])
              | None => None
              end
          | _ => None
          end
      | _ => Some (v, h)
      end
  end.

Definition of_option_float (o : option float) : ref_value :=
  match o with Some t => RFloat t | None => RNone end.

(** [WorkflowState.to_dict] on the state object at [l]: the fields are
    copied in their order, the new dict holds the copies, and ["status"]
    holds the value of the status. *)
Definition to_dict (fuel : nat) (l : loc) (h : store) : option (ref_value * store) :=
  match h !! l with
  | Some (OState s) =>
      match copy_items (copy_value fuel) (children (OState s)) h with
      | Some ([req; plan; impl; errs], h') =>
          Some (RRef (length h'),
                h' ++ [ODict [ ("workflow_id", RStr (workflow_id s));
                               ("user_request", RStr (user_request s));
                               ("current_step", RStr (current_step s));
                               ("status", RStr (Workflow.status_value (status s)));
                               ("requirements_data", req);
                               ("plan_data", plan);
                               ("implementation_data", impl);
                               ("started_at", RFloat (started_at s));
                               ("completed_at", of_option_float (completed_at s));
                               ("total_tokens_used", RInt (total_tokens_used s));
                               ("errors", errs) ]])
      | _ => None
      end
  | _ => None
  end.

(** [get_workflow_status], the registry holding a reference to each entry.
    [state.to_dict()] is the method above on a state object; the dict that
    [_execute_workflow] stores for a graph run that returned has no such
    attribute. The result is [None] where the store is outside what is
    modelled (a reference to nothing, a structure deeper than [fuel]). *)
Definition get_workflow_status (fuel : nat) (active_workflows : gmap string loc)
    (workflow_id : string) (h : store) : option (Py.outcome (ref_value * store)) :=
  match active_workflows !! workflow_id with
  | None => Some (Py.Returned (RNone, h))
  | Some l =>
      match h !! l with
      | Some (OState _) =>
          match to_dict fuel l h with
          | Some r => Some (Py.Returned r)
          | None => None
          end
      | Some (ODict _) => Some (Py.Raised (Py.no_attribute (Py.VDict []) "to_dict"))
      | Some (OList _) => Some (Py.Raised (Py.no_attribute (Py.VList []) "to_dict"))
      | None => None
      end
  end.

(** ** Mutation *)

(** What code can do to the store afterwards: overwrite the contents of an
    object (an item assignment, an append, a field assignment), or create an
    object. *)
Inductive mutation : Type :=
| Write (p : loc) (o : object)
| Alloc (o : object).

Definition mutate (h : store) (m : mutation) : store :=
  match m with
  | Write p o => <[p:=o]> h
  | Alloc o => h ++ [o]
  end.

Definition mutate_all (ms : list mutation) (h : store) : store :=
  fold_left mutate ms h.

(** No write of [ms] goes to a location from [a] up to [b]. *)
Definition writes_outside (a b : nat) (ms : list mutation) : Prop :=
  Forall (fun m => match m with
                   | Write p _ => ~ (a <= p < b)%nat
                   | Alloc _ => True
                   end) ms.

(** ** Regions of the store *)

Definition in_region (a b : nat) (v : ref_value) : Prop :=
  match v with
  | RRef l => (a <= l < b)%nat
  | _ => True
  end.

(** The objects from [a] up to [b] refer to one another only. *)
Definition region_closed (h : store) (a b : nat) : Prop :=
  forall p o, (a <= p < b)%nat -> h !! p = Some o -> Forall (in_region a b) (children o).

(** No object of the store refers outside it. *)
Definition closed (h : store) : Prop := region_closed h 0 (length h).

(** The objects one can get to from a value. *)
Inductive reachable (h : store) : ref_value -> loc -> Prop :=
| reachable_root (l : loc) : reachable h (RRef l) l
| reachable_child (l : loc) (o : object) (v : ref_value) (p : loc) :
    h !! l = Some o -> In v (children o) -> reachable h v p ->
    reachable h (RRef l) p.

(** ** What a copy is *)

(** [v'] in [h'] is a copy of what denotes [t] in [h]: the store only grew,
    [v'] denotes [t], and [v'] and what it refers to are among the new
    objects, which refer to one another only. *)
Definition is_copy (fuel : nat) (h : store) (t : value) (v' : ref_value) (h' : store)
  : Prop :=
  (exists e, h' = h ++ e) /\
  read_value fuel h' v' = Some t /\
  in_region (length h) (length h') v' /\
  region_closed h' (length h) (length h').

(** The same for the items of a container. *)
Definition are_copies (fuel : nat) (h : store) (ts : list value)
    (vs' : list ref_value) (h' : store) : Prop :=
  (exists e, h' = h ++ e) /\
  read_items (read_value fuel h') vs' = Some ts /\
  Forall (in_region (length h) (length h')) vs' /\
  region_closed h' (length h) (length h').
End Snapshot.

(* ===================================================================== *)
(** * Concrete environments, states and registries *)
(* ===================================================================== *)

Module Scenarios.
Import Py Workflow.

(** [AgentResult(success=True, data=d, tokens_used=n)] *)
Definition succeed (d : value) (n : Z) : outcome Base.AgentResult :=
  Returned (Base.mkAgentResult true d None VNone 0%float n).

(** [AgentResult(success=False, error=msg)] *)
Definition fail_with (msg : string) : outcome Base.AgentResult :=
  Returned (Base.mkAgentResult false VNone (Some msg) VNone 0%float 0).

(** A clock that advances by one second at each reading. *)
Definition seconds (n : nat) : float := float_of_int (Z.of_nat n).

(** A workflow as [start_workflow] registers it, and the world its
    execution starts from. *)
Definition calculator : WorkflowState := new_state "wf-1" "build a calculator" 0%float.
Definition fresh_world : World := mkWorld calculator initial_agents 0 0 [].

(** What the graph library adds to the message of its recursion error. *)
Definition library_hint : string :=
  " You can increase the limit by setting the `recursion_limit` config key.".

(** Intake answers with a [next_action] the routing does not know. *)
Definition unrecognized_action : Environment :=
  mkEnv (fun _ _ _ => succeed (VDict [("next_action", VStr "ask_again")]) 10)
        seconds 25 library_hint.

(** Intake asks for more user responses on every call; the graph has
    [limit] steps. *)
Definition always_awaiting (limit : nat) : Environment :=
  mkEnv (fun _ _ _ => succeed (VDict [("next_action", VStr "await_user_responses")]) 0)
        seconds limit library_hint.

(** Intake reports a failure. *)
Definition intake_fails : Environment :=
  mkEnv (fun _ _ _ => fail_with "model unavailable") seconds 25 library_hint.

(** Intake succeeds and reports a negative token count. *)
Definition negative_tokens : Environment :=
  mkEnv (fun _ _ _ => succeed (VDict [("next_action", VStr "proceed_to_planning")]) (-5))
        seconds 25 library_hint.

(** The run of the specification's scenario A: intake proceeds, the planner
    returns a plan with one pending task, the implementer implements it. *)
Definition one_task_plan : value :=
  VDict [("next_action", VStr "begin_implementation");
         ("implementation_plan",
          VDict [("tasks", VList [VDict [("id", VStr "task_1");
                                         ("status", VStr "pending")]])])].

Definition scenario_a : Environment :=
  mkEnv (fun _ k _ =>
           match k with
           | AgentQaIntake => succeed (VDict [("next_action", VStr "proceed_to_planning")]) 100
           | AgentManager => succeed one_task_plan 150
           | AgentCode => succeed (VDict [("next_action", VStr "deploy_code")]) 200
           end)
        seconds 25 library_hint.

(** A workflow in the code stage whose only task is completed. *)
Definition exhausted_plan : value :=
  VDict [("next_action", VStr "begin_implementation");
         ("implementation_plan",
          VDict [("tasks", VList [VDict [("id", VStr "task_1");
                                         ("status", VStr "completed")]])])].

Definition exhausted : World :=
  mkWorld (set_plan_data exhausted_plan (set_status RUNNING calculator))
          initial_agents 0 0 [].

(** A registry at the ceiling whose five workflows are all completed: each
    entry is the output of a graph run that ended completed. *)
Definition finished (wid : string) : WorkflowState :=
  set_completed_at 1%float (set_status COMPLETED (new_state wid "done" 0%float)).

Definition five_completed : WorkflowManager :=
  mkManager
    (<["wf-1":=OutputDict (finished "wf-1")]>
       (<["wf-2":=OutputDict (finished "wf-2")]>
          (<["wf-3":=OutputDict (finished "wf-3")]>
             (<["wf-4":=OutputDict (finished "wf-4")]>
                (<["wf-5":=OutputDict (finished "wf-5")]> ∅)))))
    MAX_CONCURRENT_WORKFLOWS initial_agents 0 5.

(** A store holding the state of a workflow that is implementing its plan:
    the requirements, a plan with one task, the implementation data, the
    errors, and the state object itself; and the registry that refers to
    it. *)
Definition implementing_store : Snapshot.store :=
  [ Snapshot.ODict [("next_action", Snapshot.RStr "proceed_to_planning")];
    Snapshot.ODict [("id", Snapshot.RStr "task_1"); ("status", Snapshot.RStr "pending")];
    Snapshot.OList [Snapshot.RRef 1%nat];
    Snapshot.ODict [("tasks", Snapshot.RRef 2%nat)];
    Snapshot.ODict [("next_action", Snapshot.RStr "begin_implementation");
                    ("implementation_plan", Snapshot.RRef 3%nat)];
    Snapshot.ODict [("revision_required", Snapshot.RBool true)];
    Snapshot.OList [Snapshot.RStr "Code generation failed: quality below threshold"];
    Snapshot.OState
      (Snapshot.mkObject "wf-1" "build a calculator" "code" RUNNING
         (Snapshot.RRef 0%nat) (Snapshot.RRef 4%nat) (Snapshot.RRef 5%nat) 0%float None 250
         (Snapshot.RRef 6%nat)) ].

Definition implementing_registry : gmap string Snapshot.loc := {["wf-1" := 7%nat]}.

(** A workflow that has its plan, one task pending, and enters the code
    stage; and the same workflow after a revision was requested. *)
Definition planned : World :=
  mkWorld (set_plan_data one_task_plan (set_status RUNNING calculator))
          initial_agents 0 0 [].

Definition revising : World :=
  mkWorld (set_impl "revision_required" (VBool true) (state planned))
          initial_agents 0 0 [].

(** A plan of three tasks, the first of them completed, and the run in
    which the planner returns it. *)
Definition three_tasks : list value :=
  [VDict [("id", VStr "task_1"); ("status", VStr "completed")];
   VDict [("id", VStr "task_2"); ("status", VStr "pending")];
   VDict [("id", VStr "task_3"); ("status", VStr "pending")]].

Definition three_task_plan : value :=
  VDict [("next_action", VStr "begin_implementation");
         ("implementation_plan", VDict [("tasks", VList three_tasks)])].

Definition planned_three : World :=
  mkWorld (set_plan_data three_task_plan (set_status RUNNING calculator))
          initial_agents 0 0 [].


Definition implementer_fails : Environment :=
  mkEnv (fun _ k _ =>
           match k with
           | AgentQaIntake => succeed (VDict [("next_action", VStr "proceed_to_planning")]) 100
           | AgentManager => succeed one_task_plan 150
           | AgentCode => fail_with "model unavailable"
           end)
        seconds 25 library_hint.

Definition scenario_three : Environment :=
  mkEnv (fun _ k _ =>
           match k with
           | AgentQaIntake => succeed (VDict [("next_action", VStr "proceed_to_planning")]) 100
           | AgentManager => succeed three_task_plan 150
           | AgentCode => succeed (VDict [("next_action", VStr "deploy_code")]) 200
           end)
        seconds 25 library_hint.

End Scenarios.

(* ===================================================================== *)
(** * Properties of agents/base.py *)
(* ===================================================================== *)

Section BaseAgentFacts.
Import Py Base.

Lemma last_items_length {A} (k : nat) (l : list A) :
  (k <= length l)%nat -> length (last_items k l) = k.
Proof.
  intros Hk. unfold last_items. rewrite List.length_skipn. lia.
Qed.

Lemma add_message_length (history : list AgentMessage) (message : AgentMessage) :
  (length (add_message history message) <= 100)%nat.
Proof.
  unfold add_message.
  destruct (100 <? length (history ++ [message]))%nat eqn:Hlen.
  - apply Nat.ltb_lt in Hlen. rewrite last_items_length; lia.
  - apply Nat.ltb_ge in Hlen. exact Hlen.
Qed.

Lemma histories_bounded (messages : list AgentMessage) :
  forall history,
    Forall (fun h => (length h <= 100)%nat) (histories history messages).
Proof.
  induction messages as [|m rest IH]; intros history; simpl.
  - constructor.
  - constructor; [apply add_message_length | apply IH].
Qed.

(** C9. Under every sequence of [add_message] calls, from any history, the
    history holds at most 100 messages after each call; an append that takes
    it past 100 leaves exactly the 50 most recent messages, in their order,
    and any other append leaves the appended history. *)
Theorem add_message_history_bounded :
  forall (history : list AgentMessage) (messages : list AgentMessage)
         (message : AgentMessage),
    Forall (fun h => (length h <= 100)%nat) (histories history messages) /\
    (length (add_message history message) <= 100)%nat /\
    ((100 < length (history ++ [message]))%nat ->
       add_message history message
         = skipn (length (history ++ [message]) - 50) (history ++ [message]) /\
       length (add_message history message) = 50%nat) /\
    ((length (history ++ [message]) <= 100)%nat ->
       add_message history message = history ++ [message]).
Proof.
  intros history messages message.
  split; [apply histories_bounded |].
  split; [apply add_message_length |].
  unfold add_message. split.
  - intros Hlong. apply Nat.ltb_lt in Hlong as Hb. rewrite Hb.
    split; [reflexivity |]. apply last_items_length. lia.
  - intros Hshort. apply Nat.ltb_ge in Hshort as Hb. rewrite Hb. reflexivity.
Qed.

(** C10. [get_stats] returns on every agent state, with no division by
    zero: without executions both ratios are reported as [0.0], with
    executions as [total_time / total_executions] and
    [success_count / total_executions]. *)
Theorem get_stats_total :
  forall self : BaseAgent,
    exists report : dict,
      get_stats self = Returned report /\
      lookup_key "average_execution_time" report
        = Some (VFloat (if 0 <? total_executions (execution_stats self)
                        then (total_time (execution_stats self)
                              / float_of_int (total_executions (execution_stats self)))%float
                        else 0%float)) /\
      lookup_key "success_rate" report
        = Some (VFloat (if 0 <? total_executions (execution_stats self)
                        then (float_of_int (success_count (execution_stats self))
                              / float_of_int (total_executions (execution_stats self)))%float
                        else 0%float)).
Proof.
  intros self. unfold get_stats, truediv_float_int, truediv_int_int.
  destruct (0 <? total_executions (execution_stats self)) eqn:Hpos.
  - apply Z.ltb_lt in Hpos.
    assert (Hnz : (total_executions (execution_stats self) =? 0) = false)
      by (apply Z.eqb_neq; lia).
    rewrite Hnz. eexists. split; [reflexivity |]. split; reflexivity.
  - eexists. split; [reflexivity |]. split; reflexivity.
Qed.

(** [process] raising an exception with an empty message is answered by an
    [AgentResult] whose error string is empty. *)
Lemma execute_error_may_be_empty :
  ~ (forall (self : BaseAgent) (start_time end_time : float) (e : exc),
       exists self' result,
         execute self start_time (Raised e) end_time = (self', Returned result) /\
         success result = false /\
         exists msg, error result = Some msg /\ msg <> "").
Proof.
  intros Hclaim.
  destruct (Hclaim (init "code") 0%float 1%float (Exc ValueError ""))
    as (self' & result & Hexec & _ & msg & Herr & Hmsg).
  cbn in Hexec. injection Hexec as _ Hres. subst result.
  cbn in Herr. injection Herr as <-. apply Hmsg. reflexivity.
Qed.

(** C6 (as the code has it). When [process] returns, or raises an exception
    of the [Exception] hierarchy (a timeout included), [execute] returns an
    [AgentResult] and raises nothing; after a raise the result has
    [success = False] and its error is ["Execution timed out"] for a timeout
    and [str(e)] otherwise, so it is non-empty whenever [str(e)] is. *)
Theorem execute_returns_result :
  forall (self : BaseAgent) (start_time end_time : float)
         (proc : outcome AgentResult),
    (forall e, proc = Raised e -> is_Exception e = true) ->
    exists self' result,
      execute self start_time proc end_time = (self', Returned result) /\
      (forall e, proc = Raised e ->
         success result = false /\
         error result
           = Some (if is_TimeoutError e then "Execution timed out" else exc_str e) /\
         (exc_str e <> "" -> error result <> Some "")).
Proof.
  intros self start_time end_time [r | e] Hexc.
  - unfold execute. destruct (success (with_execution_time r _));
      eexists; eexists; (split; [reflexivity | intros e He; discriminate He]).
  - specialize (Hexc e eq_refl). unfold execute.
    destruct (is_TimeoutError e) eqn:Ht.
    + eexists; eexists. split; [reflexivity |].
      intros e' He'. injection He' as <-. rewrite Ht. cbn.
      repeat split; intros; discriminate.
    + rewrite Hexc. eexists; eexists. split; [reflexivity |].
      intros e' He'. injection He' as <-. rewrite Ht. cbn.
      repeat split. intros Hne Heq. injection Heq as Heq. exact (Hne Heq).
Qed.

Lemma execute_returns_result_witness :
  exists self' result,
    execute (init "code") 0%float (Raised (Exc ValueError "bad input")) 1%float
      = (self', Returned result) /\
    success result = false /\ error result = Some "bad input".
Proof.
  destruct (execute_returns_result (init "code") 0%float 1%float
              (Raised (Exc ValueError "bad input")))
    as (self' & result & Hexec & Hres).
  - intros e He. injection He as <-. reflexivity.
  - exists self', result. split; [exact Hexec |].
    destruct (Hres _ eq_refl) as (Hs & Herr & _). split; [exact Hs | exact Herr].
Defined.

End BaseAgentFacts.

(* ===================================================================== *)
(** * Properties of orchestrator/workflow.py *)
(* ===================================================================== *)

Section DictFacts.
Import Py.

Lemma lookup_key_set_item_eq (k : string) (v : value) (d : dict) :
  lookup_key k (set_item k v d) = Some v.
Proof.
  induction d as [|[k' v'] d IH]; cbn.
  - rewrite String.eqb_refl. reflexivity.
  - destruct (String.eqb k' k) eqn:Hk; cbn.
    + rewrite String.eqb_refl. reflexivity.
    + rewrite Hk. exact IH.
Qed.

Lemma lookup_key_set_item_ne (k k' : string) (v : value) (d : dict) :
  k <> k' -> lookup_key k' (set_item k v d) = lookup_key k' d.
Proof.
  intros Hne. induction d as [|[k0 v0] d IH]; cbn.
  - destruct (String.eqb k k') eqn:Hk; [apply String.eqb_eq in Hk; contradiction | reflexivity].
  - destruct (String.eqb k0 k) eqn:Hk0; cbn.
    + apply String.eqb_eq in Hk0. subst k0.
      destruct (String.eqb k k') eqn:Hk; [apply String.eqb_eq in Hk; contradiction | reflexivity].
    + destruct (String.eqb k0 k'); [reflexivity | exact IH].
Qed.

End DictFacts.

Section AgentCall.
Import Py Workflow.
Variable env : Environment.

Lemma execute_tokens_used a t0 proc t1 a' r :
  Base.execute a t0 proc t1 = (a', Returned r) ->
  (exists r0, proc = Returned r0 /\ Base.tokens_used r = Base.tokens_used r0) \/
  Base.tokens_used r = 0.
Proof.
  unfold Base.execute. destruct proc as [r0 | e].
  - destruct (Base.success _); intros [= <- <-]; left; exists r0; split; reflexivity.
  - destruct (is_TimeoutError e); [intros [= <- <-]; right; reflexivity |].
    destruct (is_Exception e); intros [= <- <-]. right; reflexivity.
Qed.

(** An agent call leaves the workflow state and the trace alone, and the
    token count of its result is the one [process] reported, or zero. *)
Lemma call_agent_spec k v w w' o :
  call_agent env k v w = (w', o) ->
  state w' = state w /\ trace w' = trace w /\
  forall r, o = Returned r ->
    (exists r0, process env (calls w) k v = Returned r0 /\
                Base.tokens_used r = Base.tokens_used r0) \/
    Base.tokens_used r = 0.
Proof.
  unfold call_agent.
  destruct (Base.execute _ _ _ _) as [a r] eqn:Hexec.
  intros [= <- <-]. cbn. repeat split.
  intros r0 ->. exact (execute_tokens_used _ _ _ _ _ _ Hexec).
Qed.

End AgentCall.

(** Symbolic execution of a node: unfold the monad, name the result of each
    agent call, and split on every test the code makes. *)
Ltac unfold_monad :=
  cbv [Workflow.bind Workflow.try_except Workflow.attempt Workflow.modify
       Workflow.get_state Workflow.ret Workflow.lift Workflow.raise Workflow.now
       Workflow.visit Workflow.append_implementation];
  cbn.

Ltac exec_call :=
  match goal with
  | |- context [Workflow.call_agent ?env ?k ?v ?w] =>
      let Hcall := fresh "Hcall" in
      let w1 := fresh "w" in
      let o := fresh "o" in
      destruct (Workflow.call_agent env k v w) as [w1 o] eqn:Hcall;
      apply call_agent_spec in Hcall;
      let Hs := fresh "Hstate" in
      let Ht := fresh "Htrace" in
      let Hr := fresh "Hresult" in
      destruct Hcall as (Hs & Ht & Hr);
      destruct w1; cbn in Hs, Ht; subst
  end.

Ltac exec_match :=
  match goal with
  | |- context [match ?x with _ => _ end] =>
      lazymatch x with
      | context [match _ with _ => _ end] => fail
      | _ => destruct x eqn:?
      end
  end.

Ltac exec := unfold_monad; repeat (first [exec_call | exec_match | progress cbn in *]).

Ltac unfold_nodes :=
  cbn [Workflow.node_function];
  unfold Workflow._qa_intake_node, Workflow._manager_node, Workflow._code_node,
         Workflow._review_node.

Section WorkflowFacts.
Import Py Workflow.
Variable env : Environment.

(** ** What a node leaves alone *)

Lemma node_trace (n : node) (w : World) :
  trace (fst (node_function env n w)) = trace w.
Proof.
  destruct n; unfold_nodes; exec; reflexivity.
Qed.

(** ** The graph run *)

Lemma run_from_step (budget : nat) (n : node) (w : World) :
  run_from env (S budget) n w =
  match node_function env n
          (mkWorld (state w) (agents w) (calls w) (ticks w) (trace w ++ [n])) with
  | (w2, Returned _) =>
      match next_target n (state w2) with
      | Returned END => (w2, Returned tt)
      | Returned (Node n') => run_from env budget n' w2
      | Raised e => (w2, Raised e)
      end
  | (w2, Raised e) => (w2, Raised e)
  end.
Proof.
  cbn [run_from]. unfold bind, visit, get_state, lift, ret. cbn.
  destruct (node_function env n _) as [w2 [u | e]]; [| reflexivity].
  destruct (next_target n (state w2)) as [[n' |] | e]; reflexivity.
Qed.

Lemma run_from_trace_length (budget : nat) :
  forall n w,
    (length (trace (fst (run_from env budget n w))) <= length (trace w) + budget)%nat.
Proof.
  induction budget as [|budget IH]; intros n w.
  - cbn. lia.
  - rewrite run_from_step.
    pose proof (node_trace n (mkWorld (state w) (agents w) (calls w) (ticks w)
                                      (trace w ++ [n]))) as Htr.
    destruct (node_function env n _) as [w2 [u | e]]; cbn in Htr.
    + assert (Hlen : length (trace w2) = S (length (trace w)))
        by (rewrite Htr, length_app; cbn; lia).
      destruct (next_target n (state w2)) as [[n' |] | e]; cbn.
      * specialize (IH n' w2). lia.
      * lia.
      * lia.
    + cbn. rewrite Htr, length_app. cbn. lia.
Qed.

Lemma ainvoke_unfold (w : World) :
  ainvoke env w = run_from env (recursion_limit env) QaIntake w.
Proof. reflexivity. Qed.

(** [_execute_workflow] by the outcome of the graph run. *)
Lemma execute_workflow_on_unfold (w : World) :
  _execute_workflow_on env w =
  match ainvoke env (running w) with
  | (w1, Returned _) => (w1, Raised no_status)
  | (w1, Raised e) =>
      if is_Exception e
      then (mkWorld (append_error ("Execution error: " +:+ exc_str e)
                       (set_status FAILED (state w1)))
                    (agents w1) (calls w1) (ticks w1) (trace w1),
            Returned tt)
      else (w1, Raised e)
  end.
Proof.
  unfold _execute_workflow_on. unfold_monad. fold (running w).
  destruct (ainvoke env (running w)) as [w1 [u | e]]; cbn; [reflexivity |].
  destruct (is_Exception e); reflexivity.
Qed.

Lemma execute_workflow_on_returned (w w1 : World) :
  ainvoke env (running w) = (w1, Returned tt) ->
  _execute_workflow_on env w = (w1, Raised no_status).
Proof. intros Hrun. rewrite execute_workflow_on_unfold, Hrun. reflexivity. Qed.

Lemma graph_returns_true (w w1 : World) :
  ainvoke env (running w) = (w1, Returned tt) -> graph_returns env w = true.
Proof. intros Hrun. unfold graph_returns. rewrite Hrun. reflexivity. Qed.

Lemma execute_workflow_on_trace (w : World) :
  trace (fst (_execute_workflow_on env w)) = trace (fst (ainvoke env (running w))).
Proof.
  rewrite execute_workflow_on_unfold.
  destruct (ainvoke env (running w)) as [w1 [u | e]]; cbn; [reflexivity |].
  destruct (is_Exception e); reflexivity.
Qed.

Lemma longest_run_from_le (l : list node) :
  forall current count,
    (longest_run_from current count l <= count + length l)%nat.
Proof.
  induction l as [|n rest IH]; intros current count; cbn.
  - lia.
  - destruct (node_eqb n current).
    + specialize (IH current (S count)). lia.
    + specialize (IH n 1%nat). lia.
Qed.

Lemma longest_run_le (l : list node) : (longest_run l <= length l)%nat.
Proof.
  destruct l as [|n rest]; cbn; [lia |].
  pose proof (longest_run_from_le rest n 1). lia.
Qed.

Lemma longest_run_repeat (n : node) (k : nat) :
  longest_run (repeat n k) = k.
Proof.
  assert (Hfrom : forall m count, longest_run_from n count (repeat n m) = (count + m)%nat).
  { induction m as [|m IH]; intros count; cbn.
    - lia.
    - replace (node_eqb n n) with true by (destruct n; reflexivity).
      rewrite IH. lia. }
  destruct k as [|k]; cbn; [reflexivity |]. rewrite Hfrom. lia.
Qed.

(** What [_execute_workflow] makes of an exception of the graph run. *)
Lemma execute_workflow_on_raised (w w1 : World) (e : exc) :
  ainvoke env (running w) = (w1, Raised e) ->
  is_Exception e = true ->
  status (state (fst (_execute_workflow_on env w))) = FAILED /\
  errors (state (fst (_execute_workflow_on env w)))
    = errors (state w1) ++ ["Execution error: " +:+ exc_str e].
Proof.
  intros Hrun Hexc. rewrite execute_workflow_on_unfold, Hrun, Hexc.
  cbn. split; reflexivity.
Qed.

End WorkflowFacts.

Section RetryLoops.
Import Py Workflow Scenarios.

Lemma qa_route_awaiting (s : WorkflowState) :
  is_failed (status s) = false ->
  requirements_data s = VDict [("next_action", VStr "await_user_responses")] ->
  next_target QaIntake s = Returned (Node QaIntake).
Proof.
  intros Hs Hr. unfold next_target, routing_condition, _qa_routing_condition.
  rewrite Hs, Hr. reflexivity.
Qed.

(** With an intake agent that always asks for more user responses, the
    graph runs the intake node until its step budget is spent. *)
Lemma always_awaiting_loops (limit budget : nat) :
  forall w d,
    requirements_data (state w) = VDict d ->
    is_failed (status (state w)) = false ->
    exists w',
      run_from (always_awaiting limit) budget QaIntake w
        = (w', Raised (recursion_error (always_awaiting limit))) /\
      trace w' = trace w ++ repeat QaIntake budget /\
      errors (state w') = errors (state w).
Proof.
  induction budget as [|budget IH]; intros w d Hreq Hstatus.
  - exists w. cbn. rewrite app_nil_r. repeat split.
  - rewrite run_from_step. cbn [node_function].
    unfold _qa_intake_node.
    cbv [bind try_except modify get_state ret lift raise call_agent]. cbn.
    rewrite Hreq. cbn.
    destruct d as [|kv d]; cbn;
      (rewrite qa_route_awaiting by (first [exact Hstatus | reflexivity]));
      (edestruct IH as (w' & Hrun & Htrace & Herrors);
       [ | | rewrite Hrun; exists w'; split; [reflexivity |]; split;
             [rewrite Htrace; cbn; rewrite <- app_assoc; reflexivity
             | rewrite Herrors; reflexivity ] ];
       [reflexivity | exact Hstatus]).
Qed.

Lemma always_awaiting_trace (limit : nat) (w : World) (d : dict) :
  trace w = [] ->
  requirements_data (state w) = VDict d ->
  trace (fst (_execute_workflow_on (always_awaiting limit) w)) = repeat QaIntake limit.
Proof.
  intros Hempty Hreq. rewrite execute_workflow_on_trace, ainvoke_unfold.
  destruct (always_awaiting_loops limit (recursion_limit (always_awaiting limit))
              (running w) d Hreq eq_refl)
    as (w' & Hrun & Htrace & _).
  rewrite Hrun. cbn [fst]. rewrite Htrace.
  cbn [running trace]. rewrite Hempty. reflexivity.
Qed.

(** No bound on the consecutive retries of a stage holds in every
    execution; and when the intake loop ends because the graph ran out of
    steps, the error recorded is the graph's, not [retry_limit_exceeded]. *)
Lemma retry_loops_have_no_counter :
  (~ exists bound : nat,
       forall env w,
         trace w = [] ->
         (longest_run (trace (fst (_execute_workflow_on env w))) <= S bound)%nat) /\
  trace (fst (_execute_workflow_on (always_awaiting 25) fresh_world))
    = repeat QaIntake 25 /\
  status (state (fst (_execute_workflow_on (always_awaiting 25) fresh_world))) = FAILED /\
  errors (state (fst (_execute_workflow_on (always_awaiting 25) fresh_world)))
    = ["Execution error: " +:+ exc_str (recursion_error (always_awaiting 25))].
Proof.
  split.
  - intros [bound Hbound].
    specialize (Hbound (always_awaiting (S (S bound))) fresh_world eq_refl).
    rewrite (always_awaiting_trace (S (S bound)) fresh_world [] eq_refl eq_refl) in Hbound.
    rewrite longest_run_repeat in Hbound. lia.
  - vm_compute. repeat split.
Qed.

(** C2 (as the code has it). No per-stage retry counter governs the retry
    edges: what bounds them is the step budget of the graph as a whole. The
    nodes run in one execution, and so the consecutive runs of one stage,
    never exceed the recursion limit; an execution that spends the budget
    settles in [FAILED], the error appended being ["Execution error: "]
    followed by the graph's recursion error. *)
Theorem retries_bounded_by_step_budget :
  forall (env : Environment) (w : World),
    (length (trace (fst (_execute_workflow_on env w)))
       <= length (trace w) + recursion_limit env)%nat /\
    (trace w = [] ->
       (longest_run (trace (fst (_execute_workflow_on env w))) <= recursion_limit env)%nat) /\
    (snd (ainvoke env (running w)) = Raised (recursion_error env) ->
       status (state (fst (_execute_workflow_on env w))) = FAILED /\
       errors (state (fst (_execute_workflow_on env w)))
         = errors (state (fst (ainvoke env (running w))))
             ++ ["Execution error: " +:+ exc_str (recursion_error env)]).
Proof.
  intros env w.
  assert (Hlen : (length (trace (fst (_execute_workflow_on env w)))
                    <= length (trace w) + recursion_limit env)%nat).
  { rewrite execute_workflow_on_trace. unfold ainvoke.
    apply (run_from_trace_length env (recursion_limit env) QaIntake (running w)). }
  split; [exact Hlen |]. split.
  - intros Hempty. rewrite Hempty in Hlen. cbn [length Nat.add] in Hlen.
    pose proof (longest_run_le (trace (fst (_execute_workflow_on env w)))). lia.
  - intros Hraised.
    destruct (ainvoke env (running w)) as [w1 o] eqn:Hrun. cbn in Hraised. subst o.
    cbn [fst]. apply (execute_workflow_on_raised env w w1 _ Hrun). reflexivity.
Qed.

Lemma retries_bounded_by_step_budget_witness :
  status (state (fst (_execute_workflow_on (always_awaiting 25) fresh_world))) = FAILED /\
  (longest_run (trace (fst (_execute_workflow_on (always_awaiting 25) fresh_world)))
     <= 25)%nat.
Proof.
  destruct (retries_bounded_by_step_budget (always_awaiting 25) fresh_world)
    as (_ & Hrun & Hfail).
  split.
  - apply Hfail. vm_compute. reflexivity.
  - apply Hrun. reflexivity.
Defined.

End RetryLoops.

Section TokenAccounting.
Import Py Workflow Scenarios.

Section NonNegativeTokens.
Variable env : Environment.
Hypothesis tokens_nonneg :
  forall n k v r, process env n k v = Returned r -> 0 <= Base.tokens_used r.

Lemma result_tokens_nonneg (calls : nat) k v (r : Base.AgentResult) :
  (exists r0, process env calls k v = Returned r0 /\
              Base.tokens_used r = Base.tokens_used r0) \/
  Base.tokens_used r = 0 ->
  0 <= Base.tokens_used r.
Proof.
  intros [(r0 & Hproc & ->) | ->]; [exact (tokens_nonneg _ _ _ _ Hproc) | lia].
Qed.

Lemma node_tokens (n : node) (w : World) :
  tokens_le (state w) (state (fst (node_function env n w))).
Proof.
  unfold tokens_le.
  destruct n; unfold_nodes; exec;
    try match goal with
        | H : forall r, Returned ?a = Returned r -> _ |- _ =>
            pose proof (result_tokens_nonneg _ _ _ _ (H a eq_refl))
        end;
    lia.
Qed.

Lemma run_from_tokens (budget : nat) :
  forall n w, tokens_le (state w) (state (fst (run_from env budget n w))).
Proof.
  unfold tokens_le.
  induction budget as [|budget IH]; intros n w.
  - cbn. lia.
  - rewrite run_from_step.
    pose proof (node_tokens n (mkWorld (state w) (agents w) (calls w) (ticks w)
                                       (trace w ++ [n]))) as Hnode.
    unfold tokens_le in Hnode.
    destruct (node_function env n _) as [w2 [u | e]]; cbn in Hnode; [| exact Hnode].
    destruct (next_target n (state w2)) as [[n' |] | e]; cbn; [| exact Hnode | exact Hnode].
    specialize (IH n' w2). lia.
Qed.

Lemma execute_workflow_on_tokens (w : World) :
  tokens_le (state w) (state (fst (_execute_workflow_on env w))).
Proof.
  pose proof (run_from_tokens (recursion_limit env) QaIntake (running w)) as Hrun.
  unfold tokens_le in *. rewrite execute_workflow_on_unfold, ainvoke_unfold.
  destruct (run_from env (recursion_limit env) QaIntake (running w)) as [w1 [u | e]];
    cbn in *.
  - exact Hrun.
  - destruct (is_Exception e); cbn; exact Hrun.
Qed.

End NonNegativeTokens.

(** An agent result with a negative token count lowers the counter. *)
Lemma negative_tokens_lower_the_total :
  total_tokens_used (state (fst (_qa_intake_node negative_tokens fresh_world)))
  < total_tokens_used (state fresh_world).
Proof. vm_compute. reflexivity. Qed.

(** C7 (as the code has it). When no agent result reports a negative
    [tokens_used], [total_tokens_used] never decreases: not across a node,
    not across any number of steps of the graph, not across the whole of
    [_execute_workflow]. *)
Theorem total_tokens_monotone :
  forall env : Environment,
    (forall n k v r, process env n k v = Returned r -> 0 <= Base.tokens_used r) ->
    (forall n w,
       total_tokens_used (state w)
         <= total_tokens_used (state (fst (node_function env n w)))) /\
    (forall budget n w,
       total_tokens_used (state w)
         <= total_tokens_used (state (fst (run_from env budget n w)))) /\
    (forall w,
       total_tokens_used (state w)
         <= total_tokens_used (state (fst (_execute_workflow_on env w)))).
Proof.
  intros env Hnonneg. split; [| split].
  - intros n w. exact (node_tokens env Hnonneg n w).
  - intros budget n w. exact (run_from_tokens env Hnonneg budget n w).
  - intros w. exact (execute_workflow_on_tokens env Hnonneg w).
Qed.

Lemma total_tokens_monotone_witness :
  total_tokens_used (state fresh_world)
    <= total_tokens_used (state (fst (_execute_workflow_on scenario_a fresh_world))).
Proof.
  refine (proj2 (proj2 (total_tokens_monotone scenario_a _)) fresh_world).
  intros n k v r. destruct k; cbn; intros [= <-]; cbn; lia.
Defined.

End TokenAccounting.

Section CompletionStamp.
Import Py Workflow Scenarios.

Section AnyEnvironment.
Variable env : Environment.

Lemma review_route_approved (s : WorkflowState) :
  lookup_key "review_status" (implementation_data s) = Some (VStr "approved") ->
  next_target Review s = Returned END.
Proof.
  intros Hlook. unfold next_target, routing_condition, _review_routing_condition, get_or.
  rewrite Hlook. reflexivity.
Qed.

(** A node leaves an unsettled state unsettled, except the review node when
    it approves: it sets [COMPLETED] and the stamp together, and the graph
    ends there. *)
Lemma node_completed_at (n : node) (w : World) :
  unsettled (state w) ->
  unsettled (state (fst (node_function env n w))) \/
  (snd (node_function env n w) = Returned tt /\
   settled_completed (state (fst (node_function env n w))) /\
   n = Review /\
   lookup_key "review_status" (implementation_data (state (fst (node_function env n w))))
     = Some (VStr "approved")).
Proof.
  unfold unsettled, settled_completed. intros [Hstamp Hstatus].
  destruct n; unfold_nodes; exec;
    first
      [ left; split; [assumption | first [assumption | right; reflexivity]]
      | right; repeat split; eauto using lookup_key_set_item_eq ].
Qed.

(** A graph run from an unsettled state ends unsettled, or it returns right
    after the review node approved, with [COMPLETED] and the stamp of that
    node. *)
Lemma run_from_completed_at (budget : nat) :
  forall n w,
    unsettled (state w) ->
    unsettled (state (fst (run_from env budget n w))) \/
    (snd (run_from env budget n w) = Returned tt /\
     settled_completed (state (fst (run_from env budget n w))) /\
     exists before, trace (fst (run_from env budget n w)) = before ++ [Review]).
Proof.
  induction budget as [|budget IH]; intros n w Hw.
  - left. exact Hw.
  - rewrite run_from_step.
    pose proof (node_completed_at n (mkWorld (state w) (agents w) (calls w) (ticks w)
                                             (trace w ++ [n])) Hw) as Hnode.
    pose proof (node_trace env n (mkWorld (state w) (agents w) (calls w) (ticks w)
                                          (trace w ++ [n]))) as Htrace.
    destruct (node_function env n _) as [w2 o]; cbn [fst snd trace] in Hnode, Htrace.
    destruct Hnode as [Hunsettled | (-> & Hsettled & -> & Hreview)].
    + destruct o as [u | e]; [| left; exact Hunsettled].
      destruct (next_target n (state w2)) as [[n' |] | e]; cbn [fst snd].
      * apply IH. exact Hunsettled.
      * left. exact Hunsettled.
      * left. exact Hunsettled.
    + rewrite (review_route_approved _ Hreview). right. cbn [fst snd].
      split; [reflexivity |]. split; [exact Hsettled |]. exists (trace w). exact Htrace.
Qed.

(** How [_execute_workflow] leaves a state that was not stamped: returning,
    with [FAILED] and no stamp, after the graph raised; or raising, with the
    state as the graph left it, unsettled or completed by the review
    node. *)
Lemma execute_workflow_on_settles (w : World) :
  completed_at (state w) = None ->
  (snd (_execute_workflow_on env w) = Returned tt /\
   status (state (fst (_execute_workflow_on env w))) = FAILED /\
   completed_at (state (fst (_execute_workflow_on env w))) = None) \/
  ((exists e, snd (_execute_workflow_on env w) = Raised e) /\
   (unsettled (state (fst (_execute_workflow_on env w))) \/
    (settled_completed (state (fst (_execute_workflow_on env w))) /\
     exists before, trace (fst (_execute_workflow_on env w)) = before ++ [Review]))).
Proof.
  intros Hstamp.
  assert (Hstart : unsettled (state (running w)))
    by (split; [exact Hstamp | left; reflexivity]).
  pose proof (run_from_completed_at (recursion_limit env) QaIntake (running w) Hstart)
    as Hrun.
  rewrite execute_workflow_on_unfold, ainvoke_unfold.
  destruct (run_from env (recursion_limit env) QaIntake (running w)) as [w1 [[] | e]];
    cbn [fst snd] in Hrun |- *.
  - right. split; [eauto |].
    destruct Hrun as [Hunsettled | (_ & Hsettled & Hreview)]; [left | right]; auto.
  - destruct Hrun as [[Hnone Hst] | [Habs _]]; [| discriminate Habs].
    destruct (is_Exception e); cbn [fst snd].
    + left. split; [reflexivity |]. split; [reflexivity | exact Hnone].
    + right. split; [eauto |]. left. split; [exact Hnone | exact Hst].
Qed.

End AnyEnvironment.

(** A workflow whose intake agent reports a failure settles in [FAILED]
    with no [completed_at]. *)
Lemma failed_workflow_is_not_stamped :
  status (state (fst (_execute_workflow_on intake_fails fresh_world))) = FAILED /\
  completed_at (state (fst (_execute_workflow_on intake_fails fresh_world))) = None.
Proof. vm_compute. split; reflexivity. Qed.

(** C5 (as the code has it). In an execution of a workflow not yet stamped,
    a workflow that ends in [COMPLETED] has [completed_at] stamped, and by
    the review node, the last node that ran; one that ends in [FAILED] has
    no stamp; [TIMEOUT] is never assigned; and [_execute_workflow] returns
    only with the status [FAILED]. *)
Theorem completed_at_stamped_when_completed :
  forall (env : Environment) (w : World),
    completed_at (state w) = None ->
    (status (state (fst (_execute_workflow_on env w))) = COMPLETED ->
       exists t before,
         completed_at (state (fst (_execute_workflow_on env w))) = Some t /\
         trace (fst (_execute_workflow_on env w)) = before ++ [Review]) /\
    (status (state (fst (_execute_workflow_on env w))) = FAILED ->
       completed_at (state (fst (_execute_workflow_on env w))) = None) /\
    status (state (fst (_execute_workflow_on env w))) <> TIMEOUT /\
    (snd (_execute_workflow_on env w) = Returned tt ->
       status (state (fst (_execute_workflow_on env w))) = FAILED).
Proof.
  intros env w Hstamp.
  pose proof (execute_workflow_on_settles env w Hstamp) as Hsettles.
  unfold settled_completed, unsettled in Hsettles.
  destruct Hsettles
    as [(Hret & Hf & Hnone)
       | [[e He] [[Hnone [Hr | Hf]] | [[Hc [t Ht]] [before Hbefore]]]]].
  - repeat split; intros; eauto; congruence.
  - repeat split; intros; eauto; congruence.
  - repeat split; intros; eauto; congruence.
  - repeat split; intros; eauto; congruence.
Qed.

Lemma completed_at_stamped_when_completed_witness :
  exists t before,
    completed_at (state (fst (_execute_workflow_on scenario_a fresh_world))) = Some t /\
    trace (fst (_execute_workflow_on scenario_a fresh_world)) = before ++ [Review].
Proof.
  apply (completed_at_stamped_when_completed scenario_a fresh_world).
  - reflexivity.
  - vm_compute. reflexivity.
Defined.

End CompletionStamp.

Section ErrorRoute.
Import Py Workflow Scenarios.

(** The intake node either marks the state failed, or leaves its status,
    its errors and its stamp as they were. *)
Lemma qa_intake_node_keeps (env : Environment) (w : World) :
  status (state (fst (_qa_intake_node env w))) = FAILED \/
  (status (state (fst (_qa_intake_node env w))) = status (state w) /\
   errors (state (fst (_qa_intake_node env w))) = errors (state w) /\
   completed_at (state (fst (_qa_intake_node env w))) = completed_at (state w)).
Proof.
  unfold _qa_intake_node. exec;
    first [ left; reflexivity | right; repeat split; reflexivity ].
Qed.

(** C1 (what the code does). When the intake node leaves a status other
    than [FAILED] and its routing condition answers ["error"] (the
    [next_action] is missing or not one it knows), the graph ends there and
    returns. Nothing marks the workflow failed: [_execute_workflow] stores
    the output of the graph, whose status is still [RUNNING] with no error
    recorded and no stamp, and leaves with an [AttributeError]. *)
Theorem error_route_leaves_running :
  forall (env : Environment) (w w1 : World) (budget : nat),
    recursion_limit env = S budget ->
    node_function env QaIntake
      (mkWorld (state (running w)) (agents w) (calls w) (ticks w) (trace w ++ [QaIntake]))
      = (w1, Returned tt) ->
    is_failed (status (state w1)) = false ->
    _qa_routing_condition (state w1) = Returned "error" ->
    graph_returns env w = true /\
    (exists e, snd (_execute_workflow_on env w) = Raised e /\
               exc_type e = AttributeError) /\
    status (state (fst (_execute_workflow_on env w))) = RUNNING /\
    errors (state (fst (_execute_workflow_on env w))) = errors (state w) /\
    completed_at (state (fst (_execute_workflow_on env w))) = completed_at (state w) /\
    trace (fst (_execute_workflow_on env w)) = trace w ++ [QaIntake].
Proof.
  intros env w w1 budget Hlimit Hnode Hstatus Hroute.
  assert (Hrun : ainvoke env (running w) = (w1, Returned tt)).
  { rewrite ainvoke_unfold, Hlimit, run_from_step.
    cbn [running state agents calls ticks trace] in Hnode |- *. rewrite Hnode.
    unfold next_target. cbn [routing_condition]. rewrite Hroute. reflexivity. }
  split; [exact (graph_returns_true env w w1 Hrun) |].
  rewrite (execute_workflow_on_returned env w w1 Hrun). cbn [fst snd].
  split; [exists no_status; split; reflexivity |].
  pose proof (qa_intake_node_keeps env
                (mkWorld (state (running w)) (agents w) (calls w) (ticks w)
                         (trace w ++ [QaIntake]))) as Hkeeps.
  pose proof (node_trace env QaIntake
                (mkWorld (state (running w)) (agents w) (calls w) (ticks w)
                         (trace w ++ [QaIntake]))) as Htrace.
  cbn [node_function] in Hnode, Htrace. rewrite Hnode in Hkeeps, Htrace.
  cbn [fst state trace running] in Hkeeps, Htrace.
  destruct Hkeeps as [Hfailed | (Hst & Herr & Hat)].
  - rewrite Hfailed in Hstatus. discriminate Hstatus.
  - repeat split; assumption.
Qed.

Lemma error_route_leaves_running_witness :
  _qa_routing_condition
    (state (fst (_qa_intake_node unrecognized_action
                   (mkWorld (state (running fresh_world)) initial_agents 0 0 [QaIntake]))))
    = Returned "error" /\
  status (state (fst (_execute_workflow_on unrecognized_action fresh_world))) = RUNNING /\
  errors (state (fst (_execute_workflow_on unrecognized_action fresh_world))) = [].
Proof.
  split; [vm_compute; reflexivity |].
  destruct (error_route_leaves_running unrecognized_action fresh_world
              (fst (_qa_intake_node unrecognized_action
                      (mkWorld (state (running fresh_world)) initial_agents 0 0
                               [QaIntake])))
              24)
    as (_ & _ & Hstatus & Herrors & _).
  - reflexivity.
  - vm_compute. reflexivity.
  - vm_compute. reflexivity.
  - vm_compute. reflexivity.
  - split; [exact Hstatus | exact Herrors].
Defined.

End ErrorRoute.

Section ExhaustedTaskList.
Import Py Workflow Scenarios.

(** With its only task completed, the code node is followed by the end of
    the graph, not by the review node. *)
Lemma exhausted_task_list_ends_the_graph :
  pending_task_of (plan_data (state exhausted))
    = Returned (VDict [("tasks", VList [VDict [("id", VStr "task_1");
                                               ("status", VStr "completed")]])],
                [VDict [("id", VStr "task_1"); ("status", VStr "completed")]],
                None) /\
  _code_routing_condition (state (fst (_code_node scenario_a exhausted)))
    = Returned "complete" /\
  next_target Code (state (fst (_code_node scenario_a exhausted))) = Returned END /\
  next_target Code (state (fst (_code_node scenario_a exhausted)))
    <> Returned (Node Review).
Proof.
  repeat split; try (vm_compute; reflexivity).
  vm_compute. discriminate.
Qed.

(** C4 (as the code has it). When the code node finds no pending task in
    the plan, in a workflow that has not failed and has no revision
    requested, it records [all_tasks_complete] and its routing condition
    answers ["complete"], which the graph maps to [END]: the workflow ends
    without a visit of the review node. *)
Theorem exhausted_task_list_routes_to_end :
  forall (env : Environment) (w : World) (plan : value) (tasks : list value),
    pending_task_of (plan_data (state w)) = Returned (plan, tasks, None) ->
    is_failed (status (state w)) = false ->
    truthy (get_or "revision_required" VNone (implementation_data (state w))) = false ->
    snd (node_function env Code w) = Returned tt /\
    lookup_key "all_tasks_complete"
      (implementation_data (state (fst (node_function env Code w))))
      = Some (VBool true) /\
    _code_routing_condition (state (fst (node_function env Code w)))
      = Returned "complete" /\
    next_target Code (state (fst (node_function env Code w))) = Returned END.
Proof.
  intros env w plan tasks Hpending Hstatus Hrevision.
  cbn [node_function]. unfold _code_node. unfold_monad. rewrite Hpending. cbn.
  assert (Hroute :
    _code_routing_condition
      (set_impl "all_tasks_complete" (VBool true) (set_current_step "code" (state w)))
    = Returned "complete").
  { unfold _code_routing_condition, get_or in *. cbn [status set_impl set_current_step
      set_implementation_data implementation_data].
    rewrite Hstatus.
    rewrite lookup_key_set_item_ne by discriminate.
    rewrite Hrevision. rewrite lookup_key_set_item_eq. reflexivity. }
  split; [reflexivity |]. split; [apply lookup_key_set_item_eq |].
  split; [exact Hroute |].
  unfold next_target. cbn [routing_condition]. rewrite Hroute. reflexivity.
Qed.

Lemma exhausted_task_list_routes_to_end_witness :
  next_target Code (state (fst (node_function scenario_a Code exhausted))) = Returned END.
Proof.
  eapply (exhausted_task_list_routes_to_end scenario_a exhausted).
  - vm_compute. reflexivity.
  - reflexivity.
  - reflexivity.
Defined.

End ExhaustedTaskList.

Section Capacity.
Import Py Workflow Scenarios.
Variable env : Environment.

(** [start_workflow] compares the ceiling with the size of the registry,
    and a rejected start returns the manager as it was. *)
Lemma start_workflow_rejects_when_registry_full
    (self : WorkflowManager) (request uuid : string) :
  max_concurrent_workflows self <= Z.of_nat (size (active_workflows self)) ->
  exists msg,
    start_workflow env self request uuid = (self, Raised (Exc RuntimeError msg)).
Proof.
  intros Hfull. unfold start_workflow.
  apply Z.leb_le in Hfull. rewrite Hfull. eexists. reflexivity.
Qed.

Lemma start_workflow_registers_below_ceiling
    (self : WorkflowManager) (request uuid : string) :
  Z.of_nat (size (active_workflows self)) < max_concurrent_workflows self ->
  snd (start_workflow env self request uuid) = Returned uuid /\
  active_workflows (fst (start_workflow env self request uuid)) !! uuid
    = Some (StateObject (new_state uuid request (clock env (manager_ticks self)))).
Proof.
  intros Hroom. unfold start_workflow.
  apply Z.leb_gt in Hroom. rewrite Hroom. cbn. split; [reflexivity |].
  apply lookup_insert_eq.
Qed.

End Capacity.

Section CapacityAtFinishedWorkflows.
Import Py Workflow Scenarios.

(** C3 (what the code does). With five workflows in the registry, all of
    them completed, no workflow is live; [start_workflow] still rejects the
    sixth with the capacity error, and leaves the registry as it was. *)
Theorem finished_workflows_count_toward_ceiling :
  live_count five_completed = 0%nat /\
  size (active_workflows five_completed) = 5%nat /\
  start_workflow scenario_a five_completed "build a parser" "wf-6"
    = (five_completed,
       Raised (Exc RuntimeError "Maximum concurrent workflows (5) reached")).
Proof.
  split; [vm_compute; reflexivity |].
  split; [vm_compute; reflexivity |].
  unfold start_workflow.
  replace (max_concurrent_workflows five_completed
             <=? Z.of_nat (size (active_workflows five_completed)))
    with true by (vm_compute; reflexivity).
  reflexivity.
Qed.

End CapacityAtFinishedWorkflows.

(* ===================================================================== *)
(** * Properties of status queries *)
(* ===================================================================== *)

Section SnapshotFacts.
Import Py Snapshot.

Lemma read_items_length read1 (vs : list ref_value) :
  forall ts, read_items read1 vs = Some ts -> length ts = length vs.
Proof.
  induction vs as [|v rest IH]; intros ts; cbn.
  - intros [= <-]. reflexivity.
  - destruct (read1 v); [| discriminate].
    destruct (read_items read1 rest) as [ts0|]; [| discriminate].
    intros [= <-]. cbn. f_equal. apply IH. reflexivity.
Qed.

Lemma read_items_mono (f g : ref_value -> option value) (vs : list ref_value) :
  (forall v t, In v vs -> f v = Some t -> g v = Some t) ->
  forall ts, read_items f vs = Some ts -> read_items g vs = Some ts.
Proof.
  induction vs as [|v rest IH]; intros Hfg ts; cbn; [auto |].
  destruct (f v) as [t|] eqn:Hf; [| discriminate].
  rewrite (Hfg v t (or_introl eq_refl) Hf).
  destruct (read_items f rest) as [ts0|] eqn:Hrest; [| discriminate].
  rewrite (IH (fun v' t' Hin => Hfg v' t' (or_intror Hin)) ts0 eq_refl).
  auto.
Qed.

Lemma read_items_agree (f g : ref_value -> option value) (vs : list ref_value) :
  (forall v, In v vs -> f v = g v) -> read_items f vs = read_items g vs.
Proof.
  induction vs as [|v rest IH]; intros Hfg; cbn; [reflexivity |].
  rewrite (Hfg v (or_introl eq_refl)).
  rewrite (IH (fun v' Hin => Hfg v' (or_intror Hin))). reflexivity.
Qed.

(** Reading survives the creation of objects. *)
Lemma read_value_grow (fuel : nat) (h e : store) :
  forall v t, read_value fuel h v = Some t -> read_value fuel (h ++ e) v = Some t.
Proof.
  induction fuel as [|fuel IH]; intros v t; cbn; [discriminate |].
  destruct v as [| | | | | l]; try (intros H; exact H).
  destruct (h !! l) as [o|] eqn:Hl; [| discriminate].
  rewrite (lookup_app_l_Some _ _ _ _ Hl).
  destruct o as [items | items | s]; [| | discriminate].
  - destruct (read_items (read_value fuel h) items) as [ts|] eqn:Hitems; [| discriminate].
    rewrite (read_items_mono _ (read_value fuel (h ++ e)) items
               (fun v' t' _ => IH v' t') ts Hitems). auto.
  - destruct (read_items (read_value fuel h) (map snd items)) as [ts|] eqn:Hitems;
      [| discriminate].
    rewrite (read_items_mono _ (read_value fuel (h ++ e)) (map snd items)
               (fun v' t' _ => IH v' t') ts Hitems). auto.
Qed.

Lemma in_region_weaken (a b a' b' : nat) (v : ref_value) :
  (a' <= a)%nat -> (b <= b')%nat -> in_region a b v -> in_region a' b' v.
Proof. destruct v; cbn; intros; try exact I. lia. Qed.

Lemma region_closed_grow (h e : store) (a b : nat) :
  (b <= length h)%nat -> region_closed h a b -> region_closed (h ++ e) a b.
Proof.
  intros Hb Hclosed p o Hp Hlook. apply (Hclosed p o Hp).
  rewrite lookup_app_l in Hlook by lia. exact Hlook.
Qed.

Lemma region_closed_union (h : store) (a b c : nat) :
  (a <= b <= c)%nat ->
  region_closed h a b -> region_closed h b c -> region_closed h a c.
Proof.
  intros Habc Hab Hbc p o Hp Hlook.
  destruct (Nat.lt_ge_cases p b) as [Hlt | Hge].
  - eapply Forall_impl; [apply (Hab p o); [lia | exact Hlook] |].
    intros v. apply in_region_weaken; lia.
  - eapply Forall_impl; [apply (Hbc p o); [lia | exact Hlook] |].
    intros v. apply in_region_weaken; lia.
Qed.

Lemma region_closed_snoc (h : store) (a : nat) (o : object) :
  (a <= length h)%nat ->
  region_closed h a (length h) ->
  Forall (in_region a (length h)) (children o) ->
  region_closed (h ++ [o]) a (S (length h)).
Proof.
  intros Ha Hclosed Ho p o' Hp Hlook.
  destruct (Nat.lt_ge_cases p (length h)) as [Hlt | Hge].
  - rewrite lookup_app_l in Hlook by lia.
    eapply Forall_impl; [apply (Hclosed p o'); [lia | exact Hlook] |].
    intros v. apply in_region_weaken; lia.
  - assert (p = length h) as -> by lia.
    rewrite list_lookup_middle in Hlook by reflexivity. injection Hlook as <-.
    eapply Forall_impl; [exact Ho |]. intros v. apply in_region_weaken; lia.
Qed.

Lemma map_fst_combine_eq {A B} (ks : list A) (vs : list B) :
  length ks = length vs -> map fst (combine ks vs) = ks.
Proof.
  revert vs. induction ks as [|k ks IH]; intros [|v vs]; cbn; try discriminate; auto.
  intros [= Hlen]. f_equal. auto.
Qed.

Lemma map_snd_combine_eq {A B} (ks : list A) (vs : list B) :
  length ks = length vs -> map snd (combine ks vs) = vs.
Proof.
  revert vs. induction ks as [|k ks IH]; intros [|v vs]; cbn; try discriminate; auto.
  intros [= Hlen]. f_equal. auto.
Qed.


Lemma copy_items_copies (fuel : nat) :
  (forall v h t, read_value fuel h v = Some t ->
     exists v' h', copy_value fuel v h = Some (v', h') /\ is_copy fuel h t v' h') ->
  forall vs h ts,
    read_items (read_value fuel h) vs = Some ts ->
    exists vs' h',
      copy_items (copy_value fuel) vs h = Some (vs', h') /\ are_copies fuel h ts vs' h'.
Proof.
  intros Hcopy. induction vs as [|v rest IH]; intros h ts; cbn.
  - intros [= <-]. exists [], h. split; [reflexivity |].
    split; [exists []; symmetry; apply app_nil_r |].
    split; [reflexivity |]. split; [constructor |].
    intros p o Hp. lia.
  - destruct (read_value fuel h v) as [t|] eqn:Hv; [| discriminate].
    destruct (read_items (read_value fuel h) rest) as [ts0|] eqn:Hrest; [| discriminate].
    intros [= <-].
    destruct (Hcopy v h t Hv) as (v' & h1 & Hcv & [e1 ->] & Hread1 & Hin1 & Hclosed1).
    rewrite Hcv.
    assert (Hrest1 : read_items (read_value fuel (h ++ e1)) rest = Some ts0)
      by (exact (read_items_mono _ _ rest
                   (fun v0 t0 _ => read_value_grow fuel h e1 v0 t0) ts0 Hrest)).
    destruct (IH (h ++ e1) ts0 Hrest1)
      as (rest' & h2 & Hcr & [e2 ->] & Hread2 & Hin2 & Hclosed2).
    rewrite Hcr. exists (v' :: rest'), ((h ++ e1) ++ e2). split; [reflexivity |].
    unfold are_copies. rewrite !length_app in *.
    split; [exists (e1 ++ e2); symmetry; apply app_assoc |].
    split; [| split].
    + cbn. rewrite (read_value_grow fuel (h ++ e1) e2 v' t Hread1), Hread2. reflexivity.
    + constructor.
      * revert Hin1. apply in_region_weaken; lia.
      * eapply Forall_impl; [exact Hin2 |]. intros v0. apply in_region_weaken; lia.
    + apply (region_closed_union _ _ (length h + length e1)); [lia | | exact Hclosed2].
      apply region_closed_grow; [rewrite length_app; lia | exact Hclosed1].
Qed.

Lemma alloc_is_copy (fuel : nat) (h h1 : store) (o : object) (t : value) :
  (exists e, h1 = h ++ e) ->
  region_closed h1 (length h) (length h1) ->
  Forall (in_region (length h) (length h1)) (children o) ->
  read_value fuel (h1 ++ [o]) (RRef (length h1)) = Some t ->
  is_copy fuel h t (RRef (length h1)) (h1 ++ [o]).
Proof.
  intros [e ->] Hclosed Hin Hread.
  split; [exists (e ++ [o]); symmetry; apply app_assoc |].
  split; [exact Hread |]. split.
  - cbn. rewrite !length_app. cbn. lia.
  - rewrite (length_app (h ++ e) [o]). cbn [length].
    replace (length (h ++ e) + 1)%nat with (S (length (h ++ e))) by lia.
    apply region_closed_snoc; [rewrite length_app; lia | exact Hclosed | exact Hin].
Qed.

Lemma read_items_grow (fuel : nat) (h e : store) (vs : list ref_value) (ts : list value) :
  read_items (read_value fuel h) vs = Some ts ->
  read_items (read_value fuel (h ++ e)) vs = Some ts.
Proof.
  apply read_items_mono. intros v t _. apply read_value_grow.
Qed.

(** [_asdict_inner] returns on every value that denotes a tree, and what it
    returns denotes the same tree and lives in objects of its own. *)
Lemma copy_value_copies (fuel : nat) :
  forall v h t,
    read_value fuel h v = Some t ->
    exists v' h', copy_value fuel v h = Some (v', h') /\ is_copy fuel h t v' h'.
Proof.
  induction fuel as [|fuel IH]; intros v h t; [discriminate |].
  assert (Himmediate :
    forall v0, (forall l, v0 <> RRef l) ->
      read_value (S fuel) h v0 = Some t ->
      is_copy (S fuel) h t v0 h).
  { intros v0 Hv0 Hread. split; [exists []; symmetry; apply app_nil_r |].
    split; [exact Hread |]. split.
    - destruct v0; cbn; try exact I. exfalso. exact (Hv0 _ eq_refl).
    - intros p o Hp. lia. }
  destruct v as [| | | | | l];
    try (intros Hread; eexists; eexists; split; [reflexivity |];
         apply Himmediate; [intros l; discriminate | exact Hread]).
  cbn. destruct (h !! l) as [[items | items | s]|] eqn:Hl; try discriminate.
  - destruct (read_items (read_value fuel h) items) as [ts|] eqn:Hitems; [| discriminate].
    intros [= <-].
    destruct (copy_items_copies fuel IH items h ts Hitems) as (items' & h1 & Hci & Hcopies).
    rewrite Hci. eexists; eexists. split; [reflexivity |].
    destruct Hcopies as (Hext & Hread & Hin & Hclosed).
    apply alloc_is_copy; [exact Hext | exact Hclosed | exact Hin |].
    cbn. rewrite list_lookup_middle by reflexivity.
    rewrite (read_items_grow _ _ _ _ _ Hread). reflexivity.
  - destruct (read_items (read_value fuel h) (map snd items)) as [ts|] eqn:Hitems;
      [| discriminate].
    intros [= <-].
    destruct (copy_items_copies fuel IH (map snd items) h ts Hitems)
      as (vs' & h1 & Hci & Hcopies).
    rewrite Hci. eexists; eexists. split; [reflexivity |].
    destruct Hcopies as (Hext & Hread & Hin & Hclosed).
    assert (Hlen : length (map fst items) = length vs').
    { rewrite <- (read_items_length _ _ _ Hread), (read_items_length _ _ _ Hitems).
      rewrite !length_map. reflexivity. }
    apply alloc_is_copy; [exact Hext | exact Hclosed | |].
    + cbn [children]. rewrite (map_snd_combine_eq _ _ Hlen). exact Hin.
    + cbn. rewrite list_lookup_middle by reflexivity.
      rewrite (map_snd_combine_eq _ _ Hlen), (read_items_grow _ _ _ _ _ Hread),
        (map_fst_combine_eq _ _ Hlen).
      reflexivity.
Qed.


(** ** Frames *)

(** A read from inside a closed region depends on that region only. *)
Lemma read_value_agree (fuel : nat) (h1 h2 : store) (a b : nat) :
  region_closed h1 a b ->
  (forall p, (a <= p < b)%nat -> h2 !! p = h1 !! p) ->
  forall v, in_region a b v -> read_value fuel h2 v = read_value fuel h1 v.
Proof.
  intros Hclosed Hagree.
  induction fuel as [|fuel IH]; intros v Hv; cbn; [reflexivity |].
  destruct v as [| | | | | l]; try reflexivity.
  cbn in Hv. rewrite (Hagree l Hv).
  destruct (h1 !! l) as [o|] eqn:Hl; [| reflexivity].
  pose proof (Hclosed l o Hv Hl) as Hchildren. rewrite List.Forall_forall in Hchildren.
  destruct o as [items | items | s]; [| | reflexivity]; cbn [children] in Hchildren.
  - rewrite (read_items_agree (read_value fuel h2) (read_value fuel h1) items
               (fun v0 Hin => IH v0 (Hchildren v0 Hin))).
    reflexivity.
  - rewrite (read_items_agree (read_value fuel h2) (read_value fuel h1) (map snd items)
               (fun v0 Hin => IH v0 (Hchildren v0 Hin))).
    reflexivity.
Qed.

Lemma read_state_agree (fuel : nat) (h1 h2 : store) (a b : nat) (l : loc) :
  region_closed h1 a b ->
  (forall p, (a <= p < b)%nat -> h2 !! p = h1 !! p) ->
  (a <= l < b)%nat ->
  read_state fuel h2 l = read_state fuel h1 l.
Proof.
  intros Hclosed Hagree Hl. unfold read_state. rewrite (Hagree l Hl).
  destruct (h1 !! l) as [o|] eqn:Hlook; [| reflexivity].
  pose proof (Hclosed l o Hl Hlook) as Hchildren. rewrite List.Forall_forall in Hchildren.
  destruct o as [items | items | s]; try reflexivity.
  rewrite (read_items_agree (read_value fuel h2) (read_value fuel h1) (children (OState s))
             (fun v0 Hin => read_value_agree fuel h1 h2 a b Hclosed Hagree v0
                              (Hchildren v0 Hin))).
  reflexivity.
Qed.

(** Mutations that write outside a region leave its objects as they are. *)
Lemma mutate_all_lookup (a b : nat) (ms : list mutation) :
  writes_outside a b ms ->
  forall h p, (b <= length h)%nat -> (a <= p < b)%nat ->
              mutate_all ms h !! p = h !! p.
Proof.
  unfold writes_outside, mutate_all.
  induction ms as [|m ms IH]; intros Hms h p Hb Hp; cbn; [reflexivity |].
  inversion Hms as [|m' ms' Hm Hrest]; subst.
  destruct m as [q o | o]; cbn.
  - rewrite (IH Hrest) by (rewrite ?length_insert; lia).
    apply list_lookup_insert_ne. intros ->. exact (Hm Hp).
  - rewrite (IH Hrest) by (rewrite ?length_app; cbn; lia).
    apply lookup_app_l. lia.
Qed.

(** What one can get to from inside a closed region is in the region. *)
Lemma reachable_in_region (h : store) (a b : nat) (v : ref_value) (p : loc) :
  region_closed h a b -> in_region a b v -> reachable h v p -> (a <= p < b)%nat.
Proof.
  intros Hclosed Hv Hreach. induction Hreach as [l | l o v p Hl Hin _ IH].
  - exact Hv.
  - apply IH. pose proof (Hclosed l o Hv Hl) as Hchildren.
    rewrite List.Forall_forall in Hchildren. exact (Hchildren v Hin).
Qed.

Lemma strings_of_values_inv (vs : list value) :
  forall es, strings_of_values vs = Some es -> vs = map VStr es.
Proof.
  induction vs as [|v rest IH]; intros es; cbn.
  - intros [= <-]. reflexivity.
  - destruct v; try discriminate.
    destruct (strings_of_values rest) as [ss|]; [| discriminate].
    intros [= <-]. cbn. f_equal. apply IH. reflexivity.
Qed.

Lemma read_items_cons (read1 : ref_value -> option value) v rest t ts :
  read1 v = Some t -> read_items read1 rest = Some ts ->
  read_items read1 (v :: rest) = Some (t :: ts).
Proof. intros Hv Hrest. cbn. rewrite Hv, Hrest. reflexivity. Qed.

Lemma read_items_cons_inv (read1 : ref_value -> option value) v rest t ts :
  read_items read1 (v :: rest) = Some (t :: ts) ->
  read1 v = Some t /\ read_items read1 rest = Some ts.
Proof.
  cbn. destruct (read1 v); [| discriminate].
  destruct (read_items read1 rest); [| discriminate].
  intros [= <- <-]. split; reflexivity.
Qed.

Lemma read_value_dict (fuel : nat) (h : store) (l : loc) items ts :
  h !! l = Some (ODict items) ->
  read_items (read_value fuel h) (map snd items) = Some ts ->
  read_value (S fuel) h (RRef l) = Some (VDict (combine (map fst items) ts)).
Proof. intros Hl Hread. cbn. rewrite Hl, Hread. reflexivity. Qed.

(** [to_dict] returns on every state object that denotes a state, and the
    dict it returns denotes [to_dict] of that state in objects of its own. *)
Lemma to_dict_copies (fuel : nat) (h : store) (l : loc) (s : Workflow.WorkflowState) :
  read_state fuel h l = Some s ->
  exists r h',
    to_dict fuel l h = Some (RRef r, h') /\
    is_copy (S fuel) h (VDict (Workflow.to_dict s)) (RRef r) h'.
Proof.
  unfold read_state, to_dict.
  destruct (h !! l) as [[items | items | so]|] eqn:Hl; try discriminate.
  destruct (read_items (read_value fuel h) (children (OState so))) as [ts|] eqn:Hread;
    [| discriminate].
  destruct (copy_items_copies fuel (copy_value_copies fuel) _ h ts Hread)
    as (vs' & h1 & Hci & Hext & Hread' & Hin & Hclosed).
  rewrite Hci.
  pose proof (read_items_length _ _ _ Hread') as Hlen.
  rewrite (read_items_length _ _ _ Hread) in Hlen. cbn in Hlen.
  destruct vs' as [|req' [|plan' [|impl' [|errs' [|extra vs']]]]]; try discriminate Hlen.
  destruct ts as [|req [|plan [|[| | | | | |impl] [|[| | | | |errs|] [|extra ts]]]]];
    try discriminate.
  destruct (strings_of_values errs) as [es|] eqn:Herrs; [| discriminate].
  intros [= <-]. eexists; eexists. split; [reflexivity |].
  apply strings_of_values_inv in Herrs. subst errs.
  destruct fuel as [|fuel]; [discriminate Hread |].
  apply alloc_is_copy; [exact Hext | exact Hclosed | |].
  - cbn [children map snd].
    inversion Hin as [|? ? Hreq Hin1]; subst.
    inversion Hin1 as [|? ? Hplan Hin2]; subst.
    inversion Hin2 as [|? ? Himpl Hin3]; subst.
    inversion Hin3 as [|? ? Herrs _]; subst.
    repeat constructor; try assumption.
    destruct (completed_at so); exact I.
  - match goal with
    | |- read_value _ (h1 ++ [?o]) _ = _ =>
        apply (read_items_grow (S fuel) h1 [o]) in Hread'
    end.
    apply read_items_cons_inv in Hread' as [Hreq Hread'].
    apply read_items_cons_inv in Hread' as [Hplan Hread'].
    apply read_items_cons_inv in Hread' as [Himpl Hread'].
    apply read_items_cons_inv in Hread' as [Herrs _].
    destruct (completed_at so) as [stamp|];
      (erewrite read_value_dict; [| apply list_lookup_middle; reflexivity |];
       [| cbn [map snd of_option_float] in *;
          repeat (apply read_items_cons; [first [eassumption | reflexivity] |]);
          reflexivity ];
       reflexivity).
Qed.


Lemma read_state_in_store (fuel : nat) (h : store) (l : loc) (s : Workflow.WorkflowState) :
  read_state fuel h l = Some s -> (l < length h)%nat.
Proof.
  unfold read_state. destruct (h !! l) as [o|] eqn:Hl; [| discriminate].
  intros _. exact (lookup_lt_Some _ _ _ Hl).
Qed.

(** X20. A status query on a registered workflow whose entry is a state
    object, one that denotes a tree, returns a dict that denotes [to_dict]
    of the state as it is at the call, and leaves the state as it is. The dict and everything one can get to
    from it are objects created by the call, the state and everything one
    can get to from it are objects that existed before; so no mutation
    through the dict changes what the stored state denotes, and no later
    mutation of the stored state changes what the dict denotes. *)
Theorem status_query_returns_snapshot :
  forall (fuel : nat) (h : store) (active_workflows : gmap string loc)
         (workflow_id : string) (l : loc) (s : Workflow.WorkflowState),
    closed h ->
    active_workflows !! workflow_id = Some l ->
    read_state fuel h l = Some s ->
    exists (r : loc) (h' : store),
      get_workflow_status fuel active_workflows workflow_id h
        = Some (Returned (RRef r, h')) /\
      read_value (S fuel) h' (RRef r) = Some (VDict (Workflow.to_dict s)) /\
      read_state fuel h' l = Some s /\
      (forall p, reachable h' (RRef r) p -> (length h <= p < length h')%nat) /\
      (forall p, reachable h' (RRef l) p -> (p < length h)%nat) /\
      (forall ms, writes_outside 0 (length h) ms ->
                  read_state fuel (mutate_all ms h') l = Some s) /\
      (forall ms, writes_outside (length h) (length h') ms ->
                  read_value (S fuel) (mutate_all ms h') (RRef r)
                  = Some (VDict (Workflow.to_dict s))).
Proof.
  intros fuel h active_workflows workflow_id l s Hclosed Hregistered Hstate.
  unfold get_workflow_status. rewrite Hregistered.
  destruct (to_dict_copies fuel h l s Hstate)
    as (r & h' & Hdict & [e ->] & Hread & Hin & Hnew).
  pose proof (read_state_in_store fuel h l s Hstate) as Hl.
  assert (Hold : region_closed (h ++ e) 0 (length h))
    by (apply region_closed_grow; [lia | exact Hclosed]).
  assert (Hkept : read_state fuel (h ++ e) l = Some s).
  { rewrite <- Hstate. apply (read_state_agree fuel h (h ++ e) 0 (length h));
      [exact Hclosed | | lia].
    intros p Hp. apply lookup_app_l. lia. }
  assert (Hobject : exists so, h !! l = Some (OState so)).
  { unfold read_state in Hstate.
    destruct (h !! l) as [[| |so]|]; try discriminate Hstate. eauto. }
  destruct Hobject as [so Hso]. rewrite Hso, Hdict.
  exists r, (h ++ e). split; [reflexivity |]. split; [exact Hread |].
  split; [exact Hkept |]. split; [| split; [| split]].
  - intros p Hreach. exact (reachable_in_region _ _ _ _ _ Hnew Hin Hreach).
  - intros p Hreach.
    assert (0 <= p < length h)%nat; [| lia].
    apply (reachable_in_region (h ++ e) 0 (length h) (RRef l) p Hold); [cbn; lia | exact Hreach].
  - intros ms Hms. rewrite <- Hkept.
    apply (read_state_agree fuel (h ++ e) _ 0 (length h)); [exact Hold | | lia].
    intros p Hp. apply (mutate_all_lookup 0 (length h) ms Hms); [rewrite length_app; lia | exact Hp].
  - intros ms Hms. rewrite <- Hread.
    apply (read_value_agree (S fuel) (h ++ e) _ (length h) (length (h ++ e)));
      [exact Hnew | | exact Hin].
    intros p Hp. apply (mutate_all_lookup _ _ ms Hms); [lia | exact Hp].
Qed.

Lemma implementing_store_closed : closed Scenarios.implementing_store.
Proof.
  intros p o Hp Hlook.
  do 8 (destruct p as [|p];
        [injection Hlook as <-; cbn; repeat constructor; cbn; lia |]).
  cbn in Hp. lia.
Qed.

Lemma status_query_returns_snapshot_witness :
  exists (r : loc) (h' : store),
    get_workflow_status 5 Scenarios.implementing_registry "wf-1"
      Scenarios.implementing_store = Some (Returned (RRef r, h')) /\
    read_state 5 (mutate_all [Write r (ODict [])] h') 7 = read_state 5 h' 7.
Proof.
  destruct (status_query_returns_snapshot 5 Scenarios.implementing_store
              Scenarios.implementing_registry "wf-1" 7
              (Workflow.mkState "wf-1" "build a calculator" "code" Workflow.RUNNING
                 (VDict [("next_action", VStr "proceed_to_planning")])
                 (VDict [("next_action", VStr "begin_implementation");
                         ("implementation_plan",
                          VDict [("tasks",
                                  VList [VDict [("id", VStr "task_1");
                                                ("status", VStr "pending")]])])])
                 [("revision_required", VBool true)] 0%float None 250
                 ["Code generation failed: quality below threshold"])
              implementing_store_closed)
    as (r & h' & Hquery & _ & Hkept & Hfresh & _ & Hframe & _).
  - reflexivity.
  - vm_compute. reflexivity.
  - exists r, h'. split; [exact Hquery |].
    rewrite Hkept. apply Hframe. constructor; [| constructor].
    pose proof (Hfresh r (reachable_root h' r)). lia.
Defined.

End SnapshotFacts.

(* ===================================================================== *)
(** * Further properties of agents/base.py *)
(* ===================================================================== *)

Section BaseAgentSequences.
Import Py Base.

Lemma count_cons (p : call -> bool) (c : call) (calls : list call) :
  count p (c :: calls) = (if p c then 1 else 0) + count p calls.
Proof.
  unfold count. cbn. destruct (p c); cbn [length]; lia.
Qed.

Lemma execute_stats (self : BaseAgent) (c : call) :
  let st := execution_stats self in
  let st' := execution_stats
               (fst (execute self (call_start c) (call_process c) (call_end c))) in
  total_executions st' = total_executions st + (if returned c then 1 else 0) /\
  success_count st' = success_count st + (if succeeded c then 1 else 0) /\
  error_count st' = error_count st + (if errored c then 1 else 0) /\
  total_tokens st' = total_tokens st + returned_tokens c.
Proof.
  unfold execute, returned, succeeded, errored, returned_tokens.
  destruct (call_process c) as [r | e]; cbn.
  - destruct (success r); cbn; repeat split; lia.
  - destruct e as [[] msg]; cbn; repeat split; lia.
Qed.

Lemma execute_all_stats (calls : list call) :
  forall self : BaseAgent,
    total_executions (execution_stats (execute_all self calls))
      = total_executions (execution_stats self) + count returned calls /\
    success_count (execution_stats (execute_all self calls))
      = success_count (execution_stats self) + count succeeded calls /\
    error_count (execution_stats (execute_all self calls))
      = error_count (execution_stats self) + count errored calls /\
    total_tokens (execution_stats (execute_all self calls))
      = total_tokens (execution_stats self)
        + fold_right Z.add 0 (map returned_tokens calls).
Proof.
  induction calls as [|c calls IH]; intros self.
  - unfold count, execute_all. cbn. repeat split; lia.
  - unfold execute_all in *. cbn [fold_left map fold_right].
    destruct (IH (fst (execute self (call_start c) (call_process c) (call_end c))))
      as (Ht & Hs & He & Hk).
    destruct (execute_stats self c) as (Ht1 & Hs1 & He1 & Hk1).
    cbv zeta in Ht1, Hs1, He1, Hk1. rewrite !count_cons.
    repeat split; lia.
Qed.

(** X1. Over any sequence of [execute] calls, [total_executions] counts the calls
    in which [process] returned, [success_count] those that returned a
    success, [error_count] the returned failures together with the exceptions
    caught, and [total_tokens] adds up the tokens of every returned result.
    An exception is an error but not an execution. *)
Theorem execute_all_counts :
  forall (self : BaseAgent) (calls : list call),
    total_executions (execution_stats (execute_all self calls))
      = total_executions (execution_stats self) + count returned calls /\
    success_count (execution_stats (execute_all self calls))
      = success_count (execution_stats self) + count succeeded calls /\
    error_count (execution_stats (execute_all self calls))
      = error_count (execution_stats self) + count errored calls /\
    total_tokens (execution_stats (execute_all self calls))
      = total_tokens (execution_stats self)
        + fold_right Z.add 0 (map returned_tokens calls).
Proof. intros self calls. apply execute_all_stats. Qed.

Lemma succeeded_returned (calls : list call) :
  count succeeded calls <= count returned calls
  /\ count returned calls <= count succeeded calls + count errored calls.
Proof.
  induction calls as [|c calls IH]; [unfold count; cbn; lia |].
  rewrite !count_cons.
  assert (Hc : (if succeeded c then 1 else 0) <= (if returned c then 1 else 0)
               /\ (if returned c then 1 else 0)
                  <= (if succeeded c then 1 else 0) + (if errored c then 1 else 0)).
  { unfold succeeded, returned, errored.
    destruct (call_process c) as [r | e]; [destruct (success r) |];
      try destruct (is_Exception e); cbv beta iota delta [negb]; lia. }
  lia.
Qed.

(** X2. From a new agent on, successes never outnumber executions, and
    executions never outnumber successes and errors together. *)
Theorem success_count_within_executions :
  forall (n : string) (calls : list call),
    0 <= success_count (execution_stats (execute_all (init n) calls))
      <= total_executions (execution_stats (execute_all (init n) calls)) /\
    total_executions (execution_stats (execute_all (init n) calls))
      <= success_count (execution_stats (execute_all (init n) calls))
         + error_count (execution_stats (execute_all (init n) calls)).
Proof.
  intros n calls.
  destruct (execute_all_stats calls (init n)) as (Ht & Hs & He & _).
  rewrite Ht, Hs, He. cbn.
  pose proof (succeeded_returned calls). unfold count in *. lia.
Qed.

Lemma add_message_suffix (history : list AgentMessage) (message : AgentMessage) :
  exists dropped older,
    history ++ [message] = dropped ++ add_message history message /\
    add_message history message = older ++ [message].
Proof.
  unfold add_message.
  destruct (100 <? length (history ++ [message]))%nat eqn:Hlong.
  - apply Nat.ltb_lt in Hlong. rewrite length_app in Hlong. cbn in Hlong.
    unfold last_items.
    exists (firstn (length (history ++ [message]) - 50) (history ++ [message])).
    exists (skipn (length (history ++ [message]) - 50) history).
    split; [symmetry; apply firstn_skipn |].
    rewrite skipn_app.
    replace (length (history ++ [message]) - 50 - length history)%nat with 0%nat
      by (rewrite length_app; cbn; lia).
    reflexivity.
  - exists [], history. split; reflexivity.
Qed.

(** X3. Under any sequence of [add_message] calls the history is what is left
    of all the messages it ever held, in their order, after the oldest were
    dropped; and the message added last is its last message. *)
Theorem add_messages_keeps_newest :
  forall (messages history : list AgentMessage),
    (exists dropped, history ++ messages = dropped ++ add_messages history messages) /\
    (forall earlier message,
       messages = earlier ++ [message] ->
       exists older, add_messages history messages = older ++ [message]).
Proof.
  unfold add_messages. split.
  - revert history. induction messages as [|m rest IH]; intros history; cbn.
    + exists []. rewrite app_nil_r. reflexivity.
    + destruct (add_message_suffix history m) as (d1 & _ & Hd1 & _).
      destruct (IH (add_message history m)) as (d2 & Hd2).
      exists (d1 ++ d2).
      replace (history ++ m :: rest) with ((history ++ [m]) ++ rest)
        by (rewrite <- app_assoc; reflexivity).
      rewrite Hd1, <- !app_assoc, Hd2. reflexivity.
  - intros earlier message ->. rewrite fold_left_app. cbn.
    destruct (add_message_suffix (fold_left add_message earlier history) message)
      as (_ & older & _ & Hlast).
    exists older. exact Hlast.
Qed.

(** X4. After [execute], [health_check] reports the agent unhealthy exactly when
    [process] returned a failure or raised an exception of the [Exception]
    hierarchy other than a timeout: after a timeout the agent is reported
    healthy. *)
Theorem health_after_execute :
  forall (self : BaseAgent) (start_time end_time : float)
         (proc : outcome AgentResult) (model_available : bool),
    lookup_key "healthy"
      (health_check (fst (execute self start_time proc end_time)) model_available)
    = Some (VBool (match proc with
                   | Returned r => success r
                   | Raised e => negb (is_Exception e) || is_TimeoutError e
                   end)).
Proof.
  intros self start_time end_time [r | e] model_available; unfold execute.
  - destruct (success (with_execution_time r _)) eqn:Hs; cbn in Hs; rewrite Hs;
      reflexivity.
  - destruct e as [[] msg]; reflexivity.
Qed.

Lemma add_message_agent_history (a : BaseAgent) (message : AgentMessage) :
  exists older, message_history (add_message_agent a message) = older ++ [message].
Proof.
  destruct (add_message_suffix (message_history a) message) as (_ & older & _ & H).
  exists older. exact H.
Qed.

Lemma deliveries_elsewhere (message : AgentMessage) (l : list nat) (b : nat) :
  ~ In b l ->
  forall agents : gmap nat BaseAgent,
    fold_left (deliver message) l agents !! b = agents !! b.
Proof.
  induction l as [|a l IH]; intros Hb agents; cbn; [reflexivity |].
  rewrite IH by (intros Hin; apply Hb; right; exact Hin).
  unfold deliver. apply lookup_alter_ne. intros ->. apply Hb. left. reflexivity.
Qed.

Lemma deliveries_reach (message : AgentMessage) (l : list nat) (a : nat) :
  In a l ->
  forall (agents : gmap nat BaseAgent) (agent : BaseAgent),
    agents !! a = Some agent ->
    exists agent' older,
      fold_left (deliver message) l agents !! a = Some agent' /\
      message_history agent' = older ++ [message] /\
      name agent' = name agent /\
      execution_stats agent' = execution_stats agent /\
      status agent' = status agent.
Proof.
  induction l as [|x l IH]; intros Hin agents agent Hagent; [destruct Hin |].
  cbn [fold_left].
  destruct (Nat.eq_dec x a) as [-> | Hne].
  - assert (Hfirst : deliver message agents a !! a = Some (add_message_agent agent message))
      by (unfold deliver; rewrite lookup_alter_eq, Hagent; reflexivity).
    destruct (in_dec Nat.eq_dec a l) as [Hagain | Hnot].
    + destruct (IH Hagain _ _ Hfirst) as (agent' & older & Hl & Hh & Hn & Hs & Hst).
      exists agent', older. repeat split; assumption.
    + rewrite (deliveries_elsewhere message l a Hnot), Hfirst.
      destruct (add_message_agent_history agent message) as (older & Holder).
      exists (add_message_agent agent message), older. repeat split. exact Holder.
  - destruct Hin as [Heq | Hin]; [contradiction |].
    apply (IH Hin). unfold deliver. rewrite lookup_alter_ne by exact Hne. exact Hagent.
Qed.

(** [publish] on one agent: one [add_message] for each time the agent is
    listed under the topic. *)
Lemma deliveries_count (message : AgentMessage) (l : list nat) (a : nat) :
  forall (agents : gmap nat BaseAgent) (agent : BaseAgent),
    agents !! a = Some agent ->
    fold_left (deliver message) l agents !! a
    = Some (mkAgent (name agent) (status agent)
              (add_messages (message_history agent)
                 (repeat message (count_occ Nat.eq_dec l a)))
              (execution_stats agent)).
Proof.
  induction l as [|x l IH]; intros agents agent Hagent.
  - cbn. rewrite Hagent. destruct agent; reflexivity.
  - cbn [fold_left count_occ]. destruct (Nat.eq_dec x a) as [-> | Hne].
    + rewrite (IH _ (add_message_agent agent message))
        by (unfold deliver; rewrite lookup_alter_eq, Hagent; reflexivity).
      reflexivity.
    + apply IH. unfold deliver. rewrite lookup_alter_ne by exact Hne. exact Hagent.
Qed.

(** X5. [publish] hands the message to every agent subscribed to the topic,
    and to no other. Every agent listed under the topic, whichever its
    place in the list, has the message as the last of its history
    afterwards and is otherwise as it was; more exactly, each agent gets
    one [add_message] for each time the topic lists it, so an agent the
    topic does not list is untouched. [subscribe] lists the agent under
    the topic, after those listed before. A topic without subscribers
    changes nothing. *)
Theorem publish_reaches_subscribers :
  forall (self : AgentCommunicator) (topic : string) (message : AgentMessage)
         (agents : gmap nat BaseAgent),
    (forall l a agent,
       subscribers self !! topic = Some l ->
       In a l ->
       agents !! a = Some agent ->
       exists agent' older,
         publish self topic message agents !! a = Some agent' /\
         message_history agent' = older ++ [message] /\
         name agent' = name agent /\
         execution_stats agent' = execution_stats agent /\
         status agent' = status agent) /\
    (forall l a agent,
       subscribers self !! topic = Some l ->
       agents !! a = Some agent ->
       publish self topic message agents !! a
       = Some (mkAgent (name agent) (status agent)
                 (add_messages (message_history agent)
                    (repeat message (count_occ Nat.eq_dec l a)))
                 (execution_stats agent))) /\
    (forall l b, subscribers self !! topic = Some l -> ~ In b l ->
                 publish self topic message agents !! b = agents !! b) /\
    (forall a,
       subscribers (subscribe self topic a) !! topic
       = Some (match subscribers self !! topic with Some l => l | None => [] end ++ [a])) /\
    (subscribers self !! topic = None -> publish self topic message agents = agents).
Proof.
  intros self topic message agents. split; [| split; [| split; [| split]]].
  - intros l a agent Hl Hin Hagent. unfold publish. rewrite Hl.
    apply deliveries_reach; assumption.
  - intros l a agent Hl Hagent. unfold publish. rewrite Hl.
    apply deliveries_count. exact Hagent.
  - intros l b Hl Hb. unfold publish. rewrite Hl. apply deliveries_elsewhere. exact Hb.
  - intros a. unfold subscribe. cbn [subscribers]. apply lookup_insert_eq.
  - intros Hnone. unfold publish. rewrite Hnone. reflexivity.
Qed.

End BaseAgentSequences.

(* ===================================================================== *)
(** * Further properties of orchestrator/workflow.py: the graph *)
(* ===================================================================== *)

Section Routing.
Import Py Workflow.

Lemma next_action_is_raises (data : value) (action : string) (e : exc) :
  next_action_is data action = Raised e -> exc_type e = AttributeError.
Proof.
  unfold next_action_is. destruct (truthy data); [| discriminate].
  destruct data; cbn; try (intros [= <-]; reflexivity); discriminate.
Qed.

(** X6. Every label a routing condition answers has an edge in the path map of
    its node, so following the conditional edges never fails for want of an
    edge; it fails only when the routing condition itself does, with the
    [AttributeError] of calling [get] on data that is not a dict. *)
Theorem routing_labels_have_edges :
  forall (n : node) (s : WorkflowState),
    (forall label, routing_condition n s = Returned label ->
                   exists t, path_lookup label (path_map n) = Some t) /\
    (forall e, next_target n s = Raised e -> exc_type e = AttributeError).
Proof.
  intros n s.
  assert (Hlabels : forall label, routing_condition n s = Returned label ->
                                  exists t, path_lookup label (path_map n) = Some t).
  { intros label. destruct n; cbn [routing_condition path_map];
      unfold _qa_routing_condition, _manager_routing_condition,
             _code_routing_condition, _review_routing_condition.
    - destruct (is_failed (status s)); [intros [= <-]; eexists; reflexivity |].
      destruct (next_action_is _ "proceed_to_planning") as [[] | e];
        [intros [= <-]; eexists; reflexivity | | discriminate].
      destruct (next_action_is _ "await_user_responses") as [[] | e];
        [intros [= <-]; eexists; reflexivity | intros [= <-]; eexists; reflexivity
        | discriminate].
    - destruct (is_failed (status s)); [intros [= <-]; eexists; reflexivity |].
      destruct (next_action_is _ "begin_implementation") as [[] | e];
        [intros [= <-]; eexists; reflexivity | intros [= <-]; eexists; reflexivity
        | discriminate].
    - destruct (is_failed (status s)); [intros [= <-]; eexists; reflexivity |].
      destruct (truthy _); [intros [= <-]; eexists; reflexivity |].
      destruct (truthy _); intros [= <-]; eexists; reflexivity.
    - destruct (eq_str _ "approved"); [intros [= <-]; eexists; reflexivity |].
      destruct (eq_str _ "continue_implementation"); intros [= <-]; eexists; reflexivity. }
  split; [exact Hlabels |].
  intros e. unfold next_target.
  destruct (routing_condition n s) as [label | e'] eqn:Hroute.
  - destruct (Hlabels label eq_refl) as [t Ht]. rewrite Ht. discriminate.
  - intros [= <-]. revert Hroute.
    destruct n; cbn [routing_condition];
      unfold _qa_routing_condition, _manager_routing_condition,
             _code_routing_condition, _review_routing_condition.
    + destruct (is_failed (status s)); [discriminate |].
      destruct (next_action_is _ "proceed_to_planning") as [[] | e1] eqn:H1;
        [discriminate | | intros [= <-]; exact (next_action_is_raises _ _ _ H1)].
      destruct (next_action_is _ "await_user_responses") as [[] | e2] eqn:H2;
        [discriminate | discriminate | intros [= <-]; exact (next_action_is_raises _ _ _ H2)].
    + destruct (is_failed (status s)); [discriminate |].
      destruct (next_action_is _ "begin_implementation") as [[] | e1] eqn:H1;
        [discriminate | discriminate | intros [= <-]; exact (next_action_is_raises _ _ _ H1)].
    + destruct (is_failed (status s)); [discriminate |].
      destruct (truthy _); [discriminate |]. destruct (truthy _); discriminate.
    + destruct (eq_str _ "approved"); [discriminate |].
      destruct (eq_str _ "continue_implementation"); discriminate.
Qed.
End Routing.

Section Registry.
Import Py Workflow.
Variable env : Environment.

(** [_execute_workflow] leaves the manager as it is (the identifier is not
    registered, or its entry is a dict already), or it puts a new entry
    where there was one. *)
Lemma execute_workflow_registry (self : WorkflowManager) (wid : string) :
  (exists r,
     _execute_workflow env self wid = (self, r) /\
     (active_workflows self !! wid = None -> r = Returned tt))
  \/
  (exists st st' agents' calls' ticks' r,
     active_workflows self !! wid = Some st /\
     _execute_workflow env self wid
       = (mkManager (<[wid:=st']> (active_workflows self))
                    (max_concurrent_workflows self) agents' calls' ticks', r)).
Proof.
  unfold _execute_workflow.
  destruct (active_workflows self !! wid) as [[st | st]|] eqn:Hlook.
  - right. destruct (_execute_workflow_on env _) as [w r].
    eexists; eexists; exists (agents w), (calls w), (ticks w), r. split; reflexivity.
  - left. eexists. split; [reflexivity | discriminate].
  - left. eexists. split; [reflexivity | reflexivity].
Qed.

(** X7. The registry never grows past the ceiling, and neither starting nor
    executing a workflow removes an entry: [start_workflow] keeps every
    registered identifier and [_execute_workflow] keeps exactly the
    identifiers there are, whatever the workflow's outcome. *)
Theorem registry_stays_within_ceiling :
  forall (self : WorkflowManager) (request uuid wid : string),
    within_ceiling self ->
    within_ceiling (fst (start_workflow env self request uuid)) /\
    within_ceiling (fst (_execute_workflow env self wid)) /\
    dom (active_workflows self)
      ⊆ dom (active_workflows (fst (start_workflow env self request uuid))) /\
    dom (active_workflows (fst (_execute_workflow env self wid)))
      = dom (active_workflows self).
Proof.
  unfold within_ceiling. intros self request uuid wid Hwithin.
  assert (Hexec :
    size (active_workflows (fst (_execute_workflow env self wid)))
      = size (active_workflows self) /\
    max_concurrent_workflows (fst (_execute_workflow env self wid))
      = max_concurrent_workflows self /\
    dom (active_workflows (fst (_execute_workflow env self wid)))
      = dom (active_workflows self)).
  { destruct (execute_workflow_registry self wid)
      as [(r & -> & _) | (st & st' & a & c & t & r & Hlook & ->)]; cbn; [auto |].
    split; [| split; [reflexivity |]].
    - apply map_size_insert_Some. eauto.
    - apply dom_insert_lookup_L. eauto. }
  destruct Hexec as (Hsize & Hmax & Hdom).
  split; [| split; [| split]].
  - unfold start_workflow.
    destruct (max_concurrent_workflows self <=? Z.of_nat (size (active_workflows self)))
      eqn:Hfull; cbn; [exact Hwithin |].
    apply Z.leb_gt in Hfull. rewrite map_size_insert.
    destruct (active_workflows self !! uuid); cbn [id]; unfold id; lia.
  - rewrite Hsize, Hmax. exact Hwithin.
  - unfold start_workflow.
    destruct (max_concurrent_workflows self <=? Z.of_nat (size (active_workflows self)));
      cbn; [reflexivity | apply dom_insert_subseteq].
  - exact Hdom.
Qed.

(** X8. [_execute_workflow] touches the entry of the workflow it is given and no
    other: every other entry, and the ceiling, are as before; and for an
    identifier that is not registered it changes nothing and raises
    nothing. *)
Theorem execute_workflow_touches_one_entry :
  forall (self : WorkflowManager) (wid : string),
    (forall other, other <> wid ->
       active_workflows (fst (_execute_workflow env self wid)) !! other
         = active_workflows self !! other) /\
    max_concurrent_workflows (fst (_execute_workflow env self wid))
      = max_concurrent_workflows self /\
    (active_workflows self !! wid = None ->
       _execute_workflow env self wid = (self, Returned tt)).
Proof.
  intros self wid.
  destruct (execute_workflow_registry self wid)
    as [(r & Hsame & Hnone) | (st & st' & a & c & t & r & Hlook & ->)]; cbn.
  - rewrite Hsame. cbn. repeat split; auto. intros Hlook. rewrite (Hnone Hlook). reflexivity.
  - split; [| split; [reflexivity | rewrite Hlook; discriminate]].
    intros other Hother. apply lookup_insert_ne. congruence.
Qed.

End Registry.

(* ===================================================================== *)
(** * What no step of a workflow changes *)
(* ===================================================================== *)

Section Related.
Import Py Workflow.
Variable env : Environment.
Variable R : WorkflowState -> WorkflowState -> Prop.
Hypothesis R_refl : forall s, R s s.
Hypothesis R_trans : forall a b c, R a b -> R b c -> R a c.
Hypothesis R_node : forall n w, R (state w) (state (fst (node_function env n w))).
Hypothesis R_status : forall st s, R s (set_status st s).
Hypothesis R_error : forall msg s, R s (append_error msg s).

Lemma run_from_related (budget : nat) :
  forall n w, R (state w) (state (fst (run_from env budget n w))).
Proof.
  induction budget as [|budget IH]; intros n w.
  - apply R_refl.
  - rewrite run_from_step.
    pose proof (R_node n (mkWorld (state w) (agents w) (calls w) (ticks w)
                                  (trace w ++ [n]))) as Hnode.
    destruct (node_function env n _) as [w2 [u | e]]; cbn [fst state] in *;
      [| exact Hnode].
    destruct (next_target n (state w2)) as [[n' |] | e]; cbn [fst];
      [| exact Hnode | exact Hnode].
    exact (R_trans _ _ _ Hnode (IH n' w2)).
Qed.

Lemma execute_workflow_on_related (w : World) :
  R (state w) (state (fst (_execute_workflow_on env w))).
Proof.
  pose proof (run_from_related (recursion_limit env) QaIntake (running w)) as Hrun.
  assert (Hstart : R (state w) (state (running w))) by apply R_status.
  rewrite execute_workflow_on_unfold, ainvoke_unfold.
  destruct (run_from env (recursion_limit env) QaIntake (running w)) as [w1 [u | e]];
    cbn [fst] in *.
  - exact (R_trans _ _ _ Hstart Hrun).
  - destruct (is_Exception e); cbn.
    + apply (R_trans _ _ _ Hstart). apply (R_trans _ _ _ Hrun).
      exact (R_trans _ _ _ (R_status FAILED _) (R_error _ _)).
    + exact (R_trans _ _ _ Hstart Hrun).
Qed.

End Related.

Section Invariants.
Import Py Workflow.
Variable env : Environment.

Lemma node_errors (n : node) (w : World) :
  errors_extend (state w) (state (fst (node_function env n w))).
Proof.
  unfold errors_extend.
  destruct n; unfold_nodes; exec;
    first [ exists []; symmetry; apply app_nil_r
          | eexists; reflexivity
          | rewrite <- app_assoc; eexists; reflexivity ].
Qed.

(** X9. The list of errors only grows: over a node, over any number of steps of
    the graph and over the whole of [_execute_workflow], the errors there
    were stay where they were and new ones come after them. *)
Theorem errors_only_grow :
  (forall n w, errors_extend (state w) (state (fst (node_function env n w)))) /\
  (forall budget n w, errors_extend (state w) (state (fst (run_from env budget n w)))) /\
  (forall w, errors_extend (state w) (state (fst (_execute_workflow_on env w)))).
Proof.
  assert (Hrefl : forall s, errors_extend s s)
    by (intros s; exists []; symmetry; apply app_nil_r).
  assert (Htrans : forall a b c, errors_extend a b -> errors_extend b c -> errors_extend a c).
  { intros a b c [x Hx] [y Hy]. exists (x ++ y). rewrite Hy, Hx, app_assoc. reflexivity. }
  split; [exact node_errors | split].
  - intros budget n w. apply (run_from_related env errors_extend Hrefl Htrans node_errors).
  - intros w.
    apply (execute_workflow_on_related env errors_extend Hrefl Htrans node_errors).
    + intros st s. exists []. symmetry. apply app_nil_r.
    + intros msg s. exists [msg]. reflexivity.
Qed.

Lemma node_identity (n : node) (w : World) :
  same_identity (state w) (state (fst (node_function env n w))).
Proof.
  unfold same_identity.
  destruct n; unfold_nodes; exec; repeat split; reflexivity.
Qed.

(** X10. The identity of a workflow is never touched: its identifier, the
    request it was started with and its start time are the same after any
    node, any number of steps of the graph, and the whole of
    [_execute_workflow]. *)
Theorem identity_is_kept :
  (forall n w, same_identity (state w) (state (fst (node_function env n w)))) /\
  (forall budget n w, same_identity (state w) (state (fst (run_from env budget n w)))) /\
  (forall w, same_identity (state w) (state (fst (_execute_workflow_on env w)))).
Proof.
  assert (Hrefl : forall s, same_identity s s) by (intros s; repeat split).
  assert (Htrans : forall a b c, same_identity a b -> same_identity b c -> same_identity a c).
  { intros a b c (H1 & H2 & H3) (H4 & H5 & H6). unfold same_identity.
    repeat split; congruence. }
  split; [exact node_identity | split].
  - intros budget n w. apply (run_from_related env same_identity Hrefl Htrans node_identity).
  - intros w.
    apply (execute_workflow_on_related env same_identity Hrefl Htrans node_identity);
      intros; repeat split.
Qed.

End Invariants.

(* ===================================================================== *)
(** * A failing intake agent *)
(* ===================================================================== *)

Section StageFailure.
Import Py Workflow.
Variable env : Environment.

Lemma execute_failure (a : Base.BaseAgent) (t0 t1 : float)
    (proc : outcome Base.AgentResult) (msg : string) :
  Base.failure_message proc = Some msg ->
  exists a' r,
    Base.execute a t0 proc t1 = (a', Returned r) /\
    Base.success r = false /\ fmt_opt (Base.error r) = msg.
Proof.
  unfold Base.failure_message, Base.execute. destruct proc as [r | e].
  - destruct (Base.success r) eqn:Hs; [discriminate |]. intros [= <-].
    cbn. rewrite Hs. eexists; eexists. split; [reflexivity |]. split; [exact Hs | reflexivity].
  - destruct (is_TimeoutError e).
    + intros [= <-]. eexists; eexists. repeat split.
    + destruct (is_Exception e); [| discriminate]. intros [= <-].
      eexists; eexists. repeat split.
Qed.

Lemma call_agent_failure (k : agent_key) (input : value) (w : World) (msg : string) :
  Base.failure_message (process env (calls w) k input) = Some msg ->
  exists w' r,
    call_agent env k input w = (w', Returned r) /\
    state w' = state w /\ trace w' = trace w /\
    Base.success r = false /\ fmt_opt (Base.error r) = msg.
Proof.
  intros Hmsg. unfold call_agent.
  destruct (execute_failure (get_agent k (agents w)) (clock env (ticks w))
              (clock env (S (ticks w))) _ msg Hmsg) as (a' & r & Hexec & Hs & Herr).
  rewrite Hexec. eexists; eexists. repeat split; assumption.
Qed.

Lemma failed_routes_to_end (n : node) (s : WorkflowState) :
  n <> Review -> is_failed (status s) = true -> next_target n s = Returned END.
Proof.
  intros Hn Hfailed. unfold next_target.
  destruct n; cbn [routing_condition];
    unfold _qa_routing_condition, _manager_routing_condition, _code_routing_condition;
    try rewrite Hfailed; try reflexivity.
  contradiction.
Qed.

Lemma qa_intake_node_failure (w : World) (d : dict) (msg : string) :
  requirements_data (state w) = VDict d ->
  (forall input,
     Base.failure_message (process env (calls w) AgentQaIntake input) = Some msg) ->
  exists w',
    _qa_intake_node env w = (w', Returned tt) /\
    state w' = set_status FAILED
                 (append_error ("QA Intake failed: " +:+ msg)
                    (set_current_step "qa_intake" (state w))) /\
    trace w' = trace w.
Proof.
  intros Hreq Hfail. unfold _qa_intake_node. unfold_monad. rewrite Hreq.
  destruct d as [|kv d]; cbn;
    match goal with
    | |- context [call_agent env ?k ?v ?w0] =>
        destruct (call_agent_failure k v w0 msg (Hfail v))
          as (w1 & r & Hcall & Hst & Htr & Hs & Herr);
        rewrite Hcall
    end;
    cbn; rewrite Hs; cbn; rewrite Herr, Hst, Htr;
    eexists; repeat split.
Qed.

(** X11. A failure of the intake agent ends the graph at once. When the
    agent's [process] returns a failure, or raises an exception that
    [execute] catches, the graph runs the intake node and nothing after it
    and returns with the status [FAILED], the one new error
    ["QA Intake failed: "] followed by the agent's message, no tokens
    counted and the stamp untouched. [_execute_workflow] stores that output
    in the registry and leaves with an [AttributeError]. *)
Theorem intake_failure_settles_failed :
  forall (w : World) (d : dict) (msg : string) (budget : nat),
    recursion_limit env = S budget ->
    requirements_data (state w) = VDict d ->
    (forall input,
       Base.failure_message (process env (calls w) AgentQaIntake input) = Some msg) ->
    graph_returns env w = true /\
    (exists e, snd (_execute_workflow_on env w) = Raised e /\
               exc_type e = AttributeError) /\
    status (state (fst (_execute_workflow_on env w))) = FAILED /\
    errors (state (fst (_execute_workflow_on env w)))
      = errors (state w) ++ ["QA Intake failed: " +:+ msg] /\
    trace (fst (_execute_workflow_on env w)) = trace w ++ [QaIntake] /\
    total_tokens_used (state (fst (_execute_workflow_on env w)))
      = total_tokens_used (state w) /\
    completed_at (state (fst (_execute_workflow_on env w))) = completed_at (state w).
Proof.
  intros w d msg budget Hlimit Hreq Hfail.
  destruct (qa_intake_node_failure
              (mkWorld (state (running w)) (agents (running w)) (calls (running w))
                       (ticks (running w)) (trace (running w) ++ [QaIntake]))
              d msg Hreq Hfail) as (w' & Hnode & Hstate & Htrace).
  assert (Hrun : ainvoke env (running w) = (w', Returned tt)).
  { rewrite ainvoke_unfold, Hlimit, run_from_step.
    cbn [node_function]. rewrite Hnode.
    rewrite failed_routes_to_end; [reflexivity | discriminate | rewrite Hstate; reflexivity]. }
  split; [exact (graph_returns_true env w w' Hrun) |].
  rewrite (execute_workflow_on_returned env w w' Hrun). cbn [fst snd].
  split; [exists no_status; split; reflexivity |].
  rewrite Hstate, Htrace. cbn. repeat split; reflexivity.
Qed.

End StageFailure.

(* ===================================================================== *)
(** * The revision loop of the code node *)
(* ===================================================================== *)

Section RevisionLoop.
Import Py Workflow.
Variable env : Environment.

(** The code node changes [implementation_data] by item assignments only,
    and the only values it stores under ["revision_required"] are truthy. *)
Lemma code_node_assigns_items (P : dict -> Prop) (w : World) :
  P (implementation_data (state w)) ->
  (forall k v d, P d -> (k = "revision_required" -> truthy v = true) ->
                 P (set_item k v d)) ->
  P (implementation_data (state (fst (_code_node env w)))).
Proof.
  intros Hstart Hassign. unfold _code_node. exec;
    repeat first [ assumption
                 | apply Hassign; [| first [discriminate | reflexivity] ] ].
Qed.

Lemma revision_requested_set_item (k : string) (v : value) (d : dict) :
  truthy (get_or "revision_required" VNone d) = true ->
  (k = "revision_required" -> truthy v = true) ->
  truthy (get_or "revision_required" VNone (set_item k v d)) = true.
Proof.
  intros Hd Hv. unfold get_or in *.
  destruct (String.eqb k "revision_required") eqn:Hk.
  - apply String.eqb_eq in Hk. subst k. rewrite lookup_key_set_item_eq. auto.
  - apply String.eqb_neq in Hk. rewrite lookup_key_set_item_ne by exact Hk. exact Hd.
Qed.

Lemma code_node_keeps_revision (w : World) :
  revision_requested (state w) = true ->
  revision_requested (state (fst (_code_node env w))) = true.
Proof.
  unfold revision_requested. intros Hw.
  apply (code_node_assigns_items
           (fun d => truthy (get_or "revision_required" VNone d) = true) w Hw).
  intros k v d. apply revision_requested_set_item.
Qed.

Lemma revision_routes_back (s : WorkflowState) :
  revision_requested s = true ->
  next_target Code s = Returned (if is_failed (status s) then END else Node Code).
Proof.
  unfold revision_requested, next_target. cbn [routing_condition].
  unfold _code_routing_condition. intros ->.
  destruct (is_failed (status s)); reflexivity.
Qed.

Lemma revision_loop (budget : nat) :
  forall w,
    revision_requested (state w) = true ->
    revision_requested (state (fst (run_from env budget Code w))) = true /\
    (snd (run_from env budget Code w) = Returned tt ->
     status (state (fst (run_from env budget Code w))) = FAILED) /\
    exists k, trace (fst (run_from env budget Code w)) = trace w ++ repeat Code k.
Proof.
  induction budget as [|budget IH]; intros w Hw.
  - cbn. split; [exact Hw |]. split; [discriminate |].
    exists 0%nat. symmetry. apply app_nil_r.
  - rewrite run_from_step. cbn [node_function].
    pose proof (code_node_keeps_revision
                  (mkWorld (state w) (agents w) (calls w) (ticks w) (trace w ++ [Code])) Hw)
      as Hkept.
    pose proof (node_trace env Code
                  (mkWorld (state w) (agents w) (calls w) (ticks w) (trace w ++ [Code])))
      as Htrace.
    cbn [node_function trace] in Htrace.
    destruct (_code_node env _) as [w2 [u | e]]; cbn [fst snd] in *.
    + rewrite (revision_routes_back _ Hkept).
      destruct (is_failed (status (state w2))) eqn:Hfailed; cbn [fst snd].
      * split; [exact Hkept |]. split.
        -- intros _. destruct (status (state w2)); try discriminate Hfailed. reflexivity.
        -- exists 1%nat. exact Htrace.
      * destruct (IH w2 Hkept) as (Hflag & Hret & k & Hk).
        split; [exact Hflag |]. split; [exact Hret |].
        exists (S k). rewrite Hk, Htrace, <- app_assoc. reflexivity.
    + split; [exact Hkept |]. split; [discriminate |]. exists 1%nat. exact Htrace.
Qed.

(** X12. Once a revision is requested, the workflow cannot complete. Nothing
    clears [revision_required], so from the code node on the graph runs the
    code node and nothing else, and the run ends in one of two ways: it
    returns with the status [FAILED], or it raises (the step budget of the
    graph runs out, or an agent raises past [execute]). *)
Theorem revision_request_never_completes :
  forall (budget : nat) (w : World),
    revision_requested (state w) = true ->
    (snd (run_from env budget Code w) = Returned tt ->
     status (state (fst (run_from env budget Code w))) = FAILED) /\
    (exists k, trace (fst (run_from env budget Code w)) = trace w ++ repeat Code k) /\
    revision_requested (state (fst (run_from env budget Code w))) = true.
Proof.
  intros budget w Hw. destruct (revision_loop budget w Hw) as (Hflag & Hret & Htrace).
  split; [exact Hret |]. split; [exact Htrace | exact Hflag].
Qed.

End RevisionLoop.

(* ===================================================================== *)
(** * Working a plan off: the code and review nodes *)
(* ===================================================================== *)

Section Tasks.
Import Py Workflow.

Lemma task_with_status_is_truthy (status : string) (t : value) :
  task_has_status status t = true -> truthy t = true /\ is_dict t = true.
Proof.
  destruct t as [| | | | | |d]; try discriminate.
  destruct d; [discriminate | intros _; split; reflexivity].
Qed.

Lemma get_status_of_dict (t : value) :
  is_dict t = true ->
  forall status,
    match get t "status" VNone with
    | Returned st => eq_str st status = task_has_status status t
    | Raised _ => False
    end.
Proof. destruct t; try discriminate. intros _ status. reflexivity. Qed.

(** On a list of dicts the search for a pending task returns, with the
    first task whose status is ["pending"] and its position. *)
Lemma find_pending_first (tasks : list value) :
  forallb is_dict tasks = true ->
  forall k,
    (find_pending k tasks = Returned None /\ pending_count tasks = 0%nat) \/
    (exists i t,
       find_pending k tasks = Returned (Some ((k + i)%nat, t)) /\
       tasks !! i = Some t /\
       task_has_status "pending" t = true /\
       pending_count (take i tasks) = 0%nat).
Proof.
  unfold pending_count.
  induction tasks as [|t rest IH]; intros Hdicts k; [left; split; reflexivity |].
  cbn in Hdicts. apply andb_prop in Hdicts as [Ht Hrest].
  cbn [find_pending].
  pose proof (get_status_of_dict t Ht "pending") as Hget.
  destruct (get t "status" VNone) as [st | e]; [| contradiction].
  rewrite Hget. cbn [List.filter].
  destruct (task_has_status "pending" t) eqn:Hpending.
  - right. exists 0%nat, t. rewrite Nat.add_0_r. repeat split; assumption.
  - destruct (IH Hrest (S k)) as [[Hnone Hcount] | (i & t' & Hfound & Hlook & Hp & Hbefore)].
    + left. split; assumption.
    + right. exists (S i), t'. rewrite Nat.add_succ_r.
      split; [exact Hfound |]. split; [exact Hlook |]. split; [exact Hp |].
      cbn [take List.filter]. rewrite Hpending. exact Hbefore.
Qed.

Lemma completed_tasks_of_dicts (tasks : list value) :
  forallb is_dict tasks = true ->
  completed_tasks_of tasks = Returned (List.filter (task_has_status "completed") tasks).
Proof.
  induction tasks as [|t rest IH]; intros Hdicts; [reflexivity |].
  cbn in Hdicts. apply andb_prop in Hdicts as [Ht Hrest].
  cbn [completed_tasks_of List.filter].
  pose proof (get_status_of_dict t Ht "completed") as Hget.
  destruct (get t "status" VNone) as [st | e]; [| contradiction].
  rewrite (IH Hrest), Hget. reflexivity.
Qed.

Lemma filter_length_insert {A} (p : A -> bool) (l : list A) (i : nat) (x x' : A) :
  l !! i = Some x ->
  (length (List.filter p (<[i:=x']> l)) + (if p x then 1 else 0)
   = length (List.filter p l) + (if p x' then 1 else 0))%nat.
Proof.
  intros Hlook.
  rewrite <- (take_drop_middle l i x Hlook) at 2.
  rewrite insert_take_drop by (exact (lookup_lt_Some _ _ _ Hlook)).
  rewrite !List.filter_app, !length_app. cbn [List.filter].
  destruct (p x), (p x'); cbn [length]; lia.
Qed.

Lemma forallb_insert {A} (p : A -> bool) (l : list A) (i : nat) (x : A) :
  forallb p l = true -> p x = true -> forallb p (<[i:=x]> l) = true.
Proof.
  revert i. induction l as [|y l IH]; intros i Hl Hx; [reflexivity |].
  cbn in Hl. apply andb_prop in Hl as [Hy Hl].
  destruct i as [|i]; cbn.
  - rewrite Hx. exact Hl.
  - rewrite Hy. exact (IH i Hl Hx).
Qed.

Lemma pending_task_of_plan (plan_data : value) (tasks : list value) :
  plan_with_tasks plan_data tasks ->
  exists plan,
    get plan_data "implementation_plan" (VDict []) = Returned (VDict plan) /\
    lookup_key "tasks" plan = Some (VList tasks) /\
    pending_task_of plan_data
      = match find_pending 0 tasks with
        | Returned found => Returned (VDict plan, tasks, found)
        | Raised e => Raised e
        end.
Proof.
  intros (pd & plan & -> & Hplan & Htasks & _). exists plan.
  unfold pending_task_of, get, get_or. rewrite Hplan. cbn. rewrite Htasks. cbn.
  repeat split; auto.
Qed.

Lemma complete_task_plan (plan_data : value) (tasks : list value) (i : nat) (t : dict) :
  plan_with_tasks plan_data tasks ->
  tasks !! i = Some (VDict t) ->
  plan_with_tasks (complete_task i plan_data)
    (<[i:=VDict (set_item "status" (VStr "completed") t)]> tasks).
Proof.
  intros (pd & plan & -> & Hplan & Htasks & Hdicts) Hlook.
  unfold complete_task. rewrite Hplan, Htasks, Hlook.
  eexists; eexists. split; [reflexivity |].
  split; [apply lookup_key_set_item_eq |].
  split; [apply lookup_key_set_item_eq |].
  apply forallb_insert; [exact Hdicts | reflexivity].
Qed.

Lemma set_item_twice (k : string) (v v' : value) (d : dict) :
  set_item k v' (set_item k v d) = set_item k v' d.
Proof.
  induction d as [|[k0 v0] d IH]; cbn.
  - rewrite String.eqb_refl. reflexivity.
  - destruct (String.eqb k0 k) eqn:Hk; cbn.
    + rewrite String.eqb_refl. reflexivity.
    + rewrite Hk, IH. reflexivity.
Qed.

Lemma completed_is_not_pending (t : dict) :
  task_has_status "pending" (VDict (set_item "status" (VStr "completed") t)) = false /\
  task_has_status "completed" (VDict (set_item "status" (VStr "completed") t)) = true.
Proof.
  unfold task_has_status, get_or. rewrite lookup_key_set_item_eq. split; reflexivity.
Qed.


Section CodeNode.
Variable env : Environment.

Lemma call_agent_success (k : agent_key) (input : value) (w : World)
    (r : Base.AgentResult) :
  process env (calls w) k input = Returned r ->
  Base.success r = true ->
  exists w' r',
    call_agent env k input w = (w', Returned r') /\
    state w' = state w /\ trace w' = trace w /\
    Base.success r' = true /\ Base.data r' = Base.data r /\
    Base.tokens_used r' = Base.tokens_used r.
Proof.
  intros Hproc Hs. unfold call_agent, Base.execute. rewrite Hproc. cbn. rewrite Hs.
  eexists; eexists. repeat split. exact Hs.
Qed.

Lemma call_agent_calls (k : agent_key) (input : value) (w : World) :
  calls (fst (call_agent env k input w)) = S (calls w).
Proof.
  unfold call_agent. destruct (Base.execute _ _ _ _) as [a r]. reflexivity.
Qed.

Lemma code_node_success_call (w : World) (tasks : list value) (xs : list value) :
  plan_with_tasks (plan_data (state w)) tasks ->
  (0 < pending_count tasks)%nat ->
  implementations_of (implementation_data (state w)) = Some xs ->
  (forall input,
     exists r, process env (calls w) AgentCode input = Returned r /\
               Base.success r = true) ->
  exists plan i t r w',
    get (plan_data (state w)) "implementation_plan" (VDict []) = Returned (VDict plan) /\
    process env (calls w) AgentCode (code_input plan (VDict t) tasks) = Returned r /\
    tasks !! i = Some (VDict t) /\
    task_has_status "pending" (VDict t) = true /\
    pending_count (take i tasks) = 0%nat /\
    _code_node env w = (w', Returned tt) /\
    calls w' = S (calls w) /\
    trace w' = trace w /\
    state w'
    = set_plan_data (complete_task i (plan_data (state w)))
        (add_tokens (Base.tokens_used r)
           (set_impl "implementations" (VList (xs ++ [Base.data r]))
              (set_current_step "code" (state w)))).
Proof.
  intros Hplan Hpending Himpl Hproc.
  destruct (pending_task_of_plan _ _ Hplan) as (plan & Hget & _ & Hlook).
  pose proof Hplan as (pd & plan' & Hpd & _ & _ & Hdicts).
  destruct (find_pending_first tasks Hdicts 0)
    as [[_ Hnone] | (i & t & Hfound & Hi & Hp & Hbefore)]; [lia |].
  rewrite Hfound in Hlook. cbn [Nat.add] in Hlook.
  destruct (task_with_status_is_truthy _ _ Hp) as [Htruthy Hdict].
  destruct t as [| | | | | |t]; try discriminate Hdict.
  destruct t as [|kv t]; [discriminate Htruthy |].
  exists plan, i, (kv :: t).
  unfold _code_node. unfold_monad. rewrite Hlook. cbn [truthy negb].
  rewrite (completed_tasks_of_dicts tasks Hdicts). cbn.
  match goal with
  | |- context [call_agent env ?k ?v ?w0] =>
      destruct (Hproc v) as (r & Hr & Hsuccess);
      destruct (call_agent_success k v w0 r Hr Hsuccess)
        as (w1 & r1 & Hcall & Hst & Htr & Hs1 & Hd1 & Hk1);
      pose proof (call_agent_calls k v w0) as Hcalls;
      rewrite Hcall in Hcalls;
      rewrite Hcall
  end.
  exists r.
  destruct w1 as [s1 a1 c1 k1 tr1]. cbn in Hst, Htr, Hcalls. subst s1 tr1 c1.
  cbn. rewrite Hs1. cbn.
  unfold implementations_of in Himpl. unfold contains.
  destruct (lookup_key "implementations" (implementation_data (state w)))
    as [[| | | | |ys|]|] eqn:Hold; try discriminate Himpl; injection Himpl as <-; cbn.
  - rewrite Hold. cbn. rewrite Hd1, Hk1. eexists.
    split; [exact Hget |]. split; [exact Hr |]. repeat split; try assumption.
  - rewrite lookup_key_set_item_eq. cbn. rewrite Hd1, Hk1.
    eexists. split; [exact Hget |]. split; [exact Hr |].
    split; [exact Hi |]. split; [exact Hp |]. split; [exact Hbefore |].
    split; [reflexivity |]. split; [reflexivity |]. split; [reflexivity |].
    unfold set_impl, set_implementation_data. cbn.
    rewrite set_item_twice. reflexivity.
Qed.

Lemma code_node_success (w : World) (tasks : list value) (xs : list value) :
  plan_with_tasks (plan_data (state w)) tasks ->
  (0 < pending_count tasks)%nat ->
  implementations_of (implementation_data (state w)) = Some xs ->
  (forall input,
     exists r, process env (calls w) AgentCode input = Returned r /\
               Base.success r = true) ->
  exists i t r w',
    tasks !! i = Some (VDict t) /\
    task_has_status "pending" (VDict t) = true /\
    pending_count (take i tasks) = 0%nat /\
    _code_node env w = (w', Returned tt) /\
    trace w' = trace w /\
    state w'
    = set_plan_data (complete_task i (plan_data (state w)))
        (add_tokens (Base.tokens_used r)
           (set_impl "implementations" (VList (xs ++ [Base.data r]))
              (set_current_step "code" (state w)))).
Proof.
  intros Hplan Hpending Himpl Hproc.
  destruct (code_node_success_call w tasks xs Hplan Hpending Himpl Hproc)
    as (plan & i & t & r & w' & _ & _ & Hi & Hp & Hbefore & Hnode & _ & Hrest).
  exists i, t, r, w'. split; [exact Hi |]. split; [exact Hp |].
  split; [exact Hbefore |]. split; [exact Hnode | exact Hrest].
Qed.

Lemma implementations_of_set (xs : list value) (d : dict) :
  implementations_of (set_item "implementations" (VList xs) d) = Some xs.
Proof. unfold implementations_of. rewrite lookup_key_set_item_eq. reflexivity. Qed.

(** X13. When the plan has a pending task and the code agent returns a success,
    the code node implements the first pending task and that task only. It
    calls the agent once, on the input made of that task, the overview and
    the specifications of the plan and the tasks completed so far; with [r]
    what [process] returns on that call, it marks the task completed in the
    plan, so one task fewer is pending; it appends the data of [r] to the
    implementations and adds the tokens of [r] to the total; and it leaves
    the status and the errors as they were. *)
Theorem code_node_completes_first_pending :
  forall (w : World) (tasks : list value) (xs : list value),
    plan_with_tasks (plan_data (state w)) tasks ->
    (0 < pending_count tasks)%nat ->
    implementations_of (implementation_data (state w)) = Some xs ->
    (forall input,
       exists r, process env (calls w) AgentCode input = Returned r /\
                 Base.success r = true) ->
    exists (plan : dict) (i : nat) (t : dict) (r : Base.AgentResult),
      get (plan_data (state w)) "implementation_plan" (VDict []) = Returned (VDict plan) /\
      process env (calls w) AgentCode (code_input plan (VDict t) tasks) = Returned r /\
      calls (fst (_code_node env w)) = S (calls w) /\
      tasks !! i = Some (VDict t) /\
      task_has_status "pending" (VDict t) = true /\
      pending_count (take i tasks) = 0%nat /\
      snd (_code_node env w) = Returned tt /\
      plan_with_tasks (plan_data (state (fst (_code_node env w))))
        (<[i:=VDict (set_item "status" (VStr "completed") t)]> tasks) /\
      S (pending_count (<[i:=VDict (set_item "status" (VStr "completed") t)]> tasks))
        = pending_count tasks /\
      implementations_of (implementation_data (state (fst (_code_node env w))))
        = Some (xs ++ [Base.data r]) /\
      total_tokens_used (state (fst (_code_node env w)))
        = total_tokens_used (state w) + Base.tokens_used r /\
      status (state (fst (_code_node env w))) = status (state w) /\
      errors (state (fst (_code_node env w))) = errors (state w).
Proof.
  intros w tasks xs Hplan Hpending Himpl Hproc.
  destruct (code_node_success_call w tasks xs Hplan Hpending Himpl Hproc)
    as (plan & i & t & r & w' & Hget & Hcall & Hi & Hp & Hbefore & Hnode & Hcalls & _
        & Hstate).
  exists plan, i, t, r.
  split; [exact Hget |]. split; [exact Hcall |].
  rewrite Hnode. cbn [fst snd]. split; [exact Hcalls |]. rewrite Hstate. cbn.
  split; [exact Hi |]. split; [exact Hp |]. split; [exact Hbefore |].
  split; [reflexivity |].
  split; [exact (complete_task_plan _ _ _ _ Hplan Hi) |].
  split; [| split; [apply implementations_of_set | repeat split]].
  unfold pending_count.
  pose proof (filter_length_insert (task_has_status "pending") tasks i (VDict t)
                (VDict (set_item "status" (VStr "completed") t)) Hi) as Hcount.
  rewrite Hp in Hcount. rewrite (proj1 (completed_is_not_pending t)) in Hcount. lia.
Qed.


Lemma filter_length_le {A} (p : A -> bool) (l : list A) :
  (length (List.filter p l) <= length l)%nat.
Proof.
  induction l as [|x l IH]; cbn; [lia |]. destruct (p x); cbn; lia.
Qed.

Lemma filter_length_all {A} (p : A -> bool) (l : list A) :
  (length (List.filter p l) =? length l)%nat = forallb p l.
Proof.
  induction l as [|x l IH]; cbn; [reflexivity |].
  pose proof (filter_length_le p l) as Hle.
  destruct (p x); cbn; [exact IH |].
  apply Nat.eqb_neq. lia.
Qed.

Lemma review_test (tasks : list value) :
  (Z.of_nat (length (List.filter (task_has_status "completed") tasks))
     =? Z.of_nat (length tasks)) && (0 <? Z.of_nat (length tasks))
  = all_tasks_completed tasks.
Proof.
  unfold all_tasks_completed. rewrite <- filter_length_all.
  f_equal.
  - destruct (Nat.eqb_spec (length (List.filter (task_has_status "completed") tasks))
                (length tasks)) as [Heq | Hne].
    + rewrite Heq. apply Z.eqb_refl.
    + apply Z.eqb_neq. lia.
  - destruct tasks; reflexivity.
Qed.

Lemma review_node_decision (w : World) (tasks : list value) :
  plan_with_tasks (plan_data (state w)) tasks ->
  _review_node env w
  = (if all_tasks_completed tasks
     then mkWorld (set_completed_at (clock env (ticks w))
                     (set_status COMPLETED
                        (set_impl "review_status" (VStr "approved")
                           (set_current_step "review" (state w)))))
                  (agents w) (calls w) (S (ticks w)) (trace w)
     else mkWorld (set_impl "review_status" (VStr "continue_implementation")
                     (set_current_step "review" (state w)))
                  (agents w) (calls w) (ticks w) (trace w),
     Returned tt).
Proof.
  intros (pd & plan & Hpd & Hplan & Htasks & Hdicts).
  assert (Hget1 : get (plan_data (state w)) "implementation_plan" (VDict [])
                  = Returned (VDict plan))
    by (rewrite Hpd; unfold get, get_or; rewrite Hplan; reflexivity).
  assert (Hget2 : get (VDict plan) "tasks" (VList []) = Returned (VList tasks))
    by (unfold get, get_or; rewrite Htasks; reflexivity).
  unfold _review_node.
  cbv [bind try_except modify get_state ret lift raise now].
  cbn [state plan_data set_current_step agents calls ticks trace].
  rewrite Hget1, Hget2. cbn [iterate len].
  rewrite (completed_tasks_of_dicts tasks Hdicts).
  rewrite review_test. destruct (all_tasks_completed tasks); reflexivity.
Qed.

Lemma review_route (s : WorkflowState) (v : string) :
  lookup_key "review_status" (implementation_data s) = Some (VStr v) ->
  next_target Review s
  = Returned (if String.eqb v "approved" then END
              else if String.eqb v "continue_implementation" then Node Code
              else Node Manager).
Proof.
  intros Hlook. unfold next_target. cbn [routing_condition].
  unfold _review_routing_condition, get_or. rewrite Hlook. cbn [eq_str].
  destruct (String.eqb v "approved"); [reflexivity |].
  destruct (String.eqb v "continue_implementation"); reflexivity.
Qed.

Lemma review_route_continue (s : WorkflowState) :
  lookup_key "review_status" (implementation_data s)
    = Some (VStr "continue_implementation") ->
  next_target Review s = Returned (Node Code).
Proof. intros Hlook. rewrite (review_route _ _ Hlook). reflexivity. Qed.

(** X14. The review node approves a plan exactly when it has at least one task
    and every task is completed. Then it sets [COMPLETED], stamps
    [completed_at] with the time it reads and the graph ends; otherwise it
    leaves the status and the stamp alone and sends the workflow back to the
    code node. It never changes the plan. *)
Theorem review_approves_completed_plans :
  forall (w : World) (tasks : list value),
    plan_with_tasks (plan_data (state w)) tasks ->
    snd (_review_node env w) = Returned tt /\
    plan_data (state (fst (_review_node env w))) = plan_data (state w) /\
    (all_tasks_completed tasks = true ->
       status (state (fst (_review_node env w))) = COMPLETED /\
       completed_at (state (fst (_review_node env w))) = Some (clock env (ticks w)) /\
       next_target Review (state (fst (_review_node env w))) = Returned END) /\
    (all_tasks_completed tasks = false ->
       status (state (fst (_review_node env w))) = status (state w) /\
       completed_at (state (fst (_review_node env w))) = completed_at (state w) /\
       next_target Review (state (fst (_review_node env w))) = Returned (Node Code)).
Proof.
  intros w tasks Hplan. rewrite (review_node_decision w tasks Hplan).
  destruct (all_tasks_completed tasks); cbn [fst snd state].
  - split; [reflexivity |]. split; [reflexivity |]. split; [| discriminate].
    intros _. split; [reflexivity |]. split; [reflexivity |].
    rewrite (review_route _ "approved"); [reflexivity |].
    cbn. apply lookup_key_set_item_eq.
  - split; [reflexivity |]. split; [reflexivity |]. split; [discriminate |].
    intros _. split; [reflexivity |]. split; [reflexivity |].
    rewrite (review_route _ "continue_implementation"); [reflexivity |].
    cbn. apply lookup_key_set_item_eq.
Qed.


Lemma pending_is_not_completed (t : value) :
  task_has_status "pending" t = true -> task_has_status "completed" t = false.
Proof.
  destruct t as [| | | | | |d]; try discriminate. cbn.
  destruct (get_or "status" VNone d); try discriminate. cbn.
  intros Hp. apply String.eqb_eq in Hp. subst. reflexivity.
Qed.

Lemma no_pending_all_completed (tasks : list value) :
  pending_or_completed tasks = true ->
  pending_count tasks = 0%nat ->
  forallb (task_has_status "completed") tasks = true.
Proof.
  unfold pending_or_completed, pending_count.
  induction tasks as [|t rest IH]; cbn; [reflexivity |].
  intros Hall Hcount. apply andb_prop in Hall as [Ht Hrest].
  destruct (task_has_status "pending" t); [discriminate Hcount |].
  cbn in Ht. rewrite Ht. exact (IH Hrest Hcount).
Qed.

Lemma some_pending_not_completed (tasks : list value) :
  (0 < pending_count tasks)%nat ->
  forallb (task_has_status "completed") tasks = false.
Proof.
  unfold pending_count.
  induction tasks as [|t rest IH]; cbn; [lia |].
  destruct (task_has_status "pending" t) eqn:Hp.
  - intros _. rewrite (pending_is_not_completed t Hp). reflexivity.
  - intros Hcount. rewrite (IH Hcount). apply andb_false_r.
Qed.

Lemma implementing_set_impl (k : string) (v : value) (s : WorkflowState) :
  k <> "revision_required" -> k <> "all_tasks_complete" ->
  implementing s -> implementing (set_impl k v s).
Proof.
  unfold implementing, revision_requested, get_or. intros Hk1 Hk2 (Hs & Hr & Ha).
  cbn [set_impl set_implementation_data status implementation_data].
  rewrite !lookup_key_set_item_ne by assumption. repeat split; assumption.
Qed.

Lemma implementing_same (s s' : WorkflowState) :
  status s' = status s -> implementation_data s' = implementation_data s ->
  implementing s -> implementing s'.
Proof.
  unfold implementing, revision_requested. intros -> ->. auto.
Qed.

Lemma code_route_review (s : WorkflowState) :
  implementing s -> next_target Code s = Returned (Node Review).
Proof.
  unfold implementing, revision_requested, next_target. cbn [routing_condition].
  unfold _code_routing_condition. intros (-> & -> & ->). reflexivity.
Qed.

Lemma implementation_loop (p : nat) :
  code_agent_succeeds env ->
  forall (budget : nat) (w : World) (tasks xs : list value),
    plan_with_tasks (plan_data (state w)) tasks ->
    pending_or_completed tasks = true ->
    pending_count tasks = S p ->
    implementing (state w) ->
    implementations_of (implementation_data (state w)) = Some xs ->
    (2 * S p <= budget)%nat ->
    exists w' tasks' ys t,
      run_from env budget Code w = (w', Returned tt) /\
      status (state w') = COMPLETED /\
      completed_at (state w') = Some t /\
      plan_with_tasks (plan_data (state w')) tasks' /\
      forallb (task_has_status "completed") tasks' = true /\
      length tasks' = length tasks /\
      trace w' = trace w ++ concat (repeat [Code; Review] (S p)) /\
      implementations_of (implementation_data (state w')) = Some (xs ++ ys) /\
      length ys = S p /\
      errors (state w') = errors (state w).
Proof.
  intros Hagent. induction p as [|p IH];
    intros budget w tasks xs Hplan Hopen Hcount Himpl Hxs Hbudget.
  all: destruct budget as [|[|budget]]; try lia.
  all: rewrite run_from_step; cbn [node_function].
  all: destruct (code_node_success
                   (mkWorld (state w) (agents w) (calls w) (ticks w) (trace w ++ [Code]))
                   tasks xs Hplan ltac:(lia) Hxs (fun input => Hagent _ input))
         as (i & t & r & w2 & Hi & Hp & _ & Hnode & Htrace2 & Hstate2).
  all: rewrite Hnode.
  all: destruct w2 as [s2 a2 c2 k2 tr2]; cbn [state trace] in Htrace2, Hstate2;
       subst s2 tr2; cbn [state agents calls ticks trace].
  all: pose proof (complete_task_plan _ _ _ _ Hplan Hi) as Hplan2.
  all: match type of Hplan2 with
       | plan_with_tasks _ ?l => set (tasks2 := l) in *
       end.
  all: assert (Himpl2 : implementing
         (set_plan_data (complete_task i (plan_data (state w)))
            (add_tokens (Base.tokens_used r)
               (set_impl "implementations" (VList (xs ++ [Base.data r]))
                  (set_current_step "code" (state w))))))
       by (eapply implementing_same;
           [| | apply (implementing_set_impl "implementations"
                         (VList (xs ++ [Base.data r])) (set_current_step "code" (state w)));
                 [discriminate | discriminate
                 | eapply implementing_same; [| | exact Himpl]; reflexivity ] ];
           reflexivity).
  all: rewrite (code_route_review _ Himpl2).
  all: rewrite run_from_step; cbn [node_function state agents calls ticks trace].
  all: assert (Hcount2 : S (pending_count tasks2) = pending_count tasks)
       by (unfold pending_count, tasks2;
           pose proof (filter_length_insert (task_has_status "pending") tasks i (VDict t)
                         (VDict (set_item "status" (VStr "completed") t)) Hi) as Hc;
           rewrite Hp in Hc; rewrite (proj1 (completed_is_not_pending t)) in Hc; lia).
  all: assert (Hopen2 : pending_or_completed tasks2 = true)
       by (apply forallb_insert; [exact Hopen |];
           rewrite (proj2 (completed_is_not_pending t)); apply orb_true_r).
  all: assert (Hlen2 : length tasks2 = length tasks) by apply length_insert.
  all: match goal with
       | |- context [_review_node env ?w0] =>
           rewrite (review_node_decision w0 tasks2 Hplan2)
       end;
       cbn [state agents calls ticks trace].
  - (* the last pending task *)
    assert (Hdone : all_tasks_completed tasks2 = true).
    { unfold all_tasks_completed.
      rewrite (no_pending_all_completed tasks2 Hopen2) by lia.
      pose proof (lookup_lt_Some _ _ _ Hi) as Hlt. rewrite <- Hlen2 in Hlt.
      destruct tasks2; [cbn in Hlt; lia | reflexivity]. }
    rewrite Hdone. cbn [state].
    rewrite review_route_approved by (cbn; apply lookup_key_set_item_eq).
    eexists; exists tasks2, [Base.data r]; eexists.
    split; [reflexivity |]. cbn.
    split; [reflexivity |]. split; [reflexivity |]. split; [exact Hplan2 |].
    split; [apply no_pending_all_completed; [exact Hopen2 | lia] |].
    split; [exact Hlen2 |].
    split; [rewrite <- app_assoc; reflexivity |].
    split; [| split; reflexivity].
    unfold implementations_of.
    rewrite lookup_key_set_item_ne by discriminate.
    rewrite lookup_key_set_item_eq. reflexivity.
  - (* more tasks are pending *)
    assert (Hmore : all_tasks_completed tasks2 = false).
    { unfold all_tasks_completed.
      rewrite (some_pending_not_completed tasks2) by lia. reflexivity. }
    rewrite Hmore. cbn [state].
    rewrite review_route_continue by (cbn; apply lookup_key_set_item_eq).
    lazymatch goal with
    | |- context [run_from env budget Code ?w0] =>
        destruct (IH budget w0 tasks2 (xs ++ [Base.data r]))
          as (w' & tasks' & ys & stamp & Hrun & Hst & Hat & Hplan' & Hall & Hlen'
              & Htr & Hys & Hn & Herr);
        [ exact Hplan2
        | exact Hopen2
        | lia
        | apply implementing_set_impl; [discriminate | discriminate |];
          eapply implementing_same; [| | exact Himpl2]; reflexivity
        | cbn; unfold implementations_of;
          rewrite lookup_key_set_item_ne by discriminate;
          rewrite lookup_key_set_item_eq; reflexivity
        | lia
        | rewrite Hrun ]
    end.
    + exists w', tasks', (Base.data r :: ys), stamp.
      split; [reflexivity |]. split; [exact Hst |]. split; [exact Hat |].
      split; [exact Hplan' |]. split; [exact Hall |].
      split; [rewrite Hlen'; exact Hlen2 |].
      split; [rewrite Htr; cbn; rewrite <- !app_assoc; reflexivity |].
      split; [rewrite Hys, <- app_assoc; reflexivity |].
      split; [cbn; rewrite Hn; reflexivity | rewrite Herr; reflexivity].
Qed.

(** X15. With a code agent that succeeds, the code and review nodes work a plan
    off. From the code node, in a workflow that is implementing a plan of
    dicts each pending or completed, with [p] of them pending and at least
    two steps of budget for each, the graph runs code and review [p] times
    in turn and ends: the status is [COMPLETED] and stamped, every task of
    the plan is completed, one implementation was recorded for each pending
    task, and no error was added. *)
Theorem implementation_loop_completes :
  code_agent_succeeds env ->
  forall (p budget : nat) (w : World) (tasks xs : list value),
    plan_with_tasks (plan_data (state w)) tasks ->
    pending_or_completed tasks = true ->
    pending_count tasks = S p ->
    implementing (state w) ->
    implementations_of (implementation_data (state w)) = Some xs ->
    (2 * S p <= budget)%nat ->
    exists (tasks' ys : list value) (t : float),
      snd (run_from env budget Code w) = Returned tt /\
      status (state (fst (run_from env budget Code w))) = COMPLETED /\
      completed_at (state (fst (run_from env budget Code w))) = Some t /\
      plan_with_tasks (plan_data (state (fst (run_from env budget Code w)))) tasks' /\
      forallb (task_has_status "completed") tasks' = true /\
      length tasks' = length tasks /\
      trace (fst (run_from env budget Code w))
        = trace w ++ concat (repeat [Code; Review] (S p)) /\
      implementations_of (implementation_data (state (fst (run_from env budget Code w))))
        = Some (xs ++ ys) /\
      length ys = S p /\
      errors (state (fst (run_from env budget Code w))) = errors (state w).
Proof.
  intros Hagent p budget w tasks xs Hplan Hopen Hcount Himpl Hxs Hbudget.
  destruct (implementation_loop p Hagent budget w tasks xs Hplan Hopen Hcount Himpl Hxs
              Hbudget)
    as (w' & tasks' & ys & t & Hrun & Hrest).
  exists tasks', ys, t. rewrite Hrun. cbn [fst snd]. split; [reflexivity | exact Hrest].
Qed.

End CodeNode.
End Tasks.

(* ===================================================================== *)
(** * A whole run with agents that succeed *)
(* ===================================================================== *)

Section WholeRun.
Import Py Workflow.
Variable env : Environment.

Lemma lookup_key_truthy (k : string) (v : value) (d : dict) :
  lookup_key k d = Some v -> truthy (VDict d) = true.
Proof. destruct d; [discriminate | reflexivity]. Qed.

Lemma next_action_is_found (d : dict) (action : string) :
  lookup_key "next_action" d = Some (VStr action) ->
  next_action_is (VDict d) action = Returned true.
Proof.
  intros Hlook. unfold next_action_is. rewrite (lookup_key_truthy _ _ _ Hlook).
  unfold get, get_or. rewrite Hlook. cbn. rewrite String.eqb_refl. reflexivity.
Qed.

Lemma qa_route_proceed (s : WorkflowState) (dq : dict) :
  is_failed (status s) = false ->
  requirements_data s = VDict dq ->
  lookup_key "next_action" dq = Some (VStr "proceed_to_planning") ->
  next_target QaIntake s = Returned (Node Manager).
Proof.
  intros Hstatus Hreq Hlook. unfold next_target. cbn [routing_condition].
  unfold _qa_routing_condition. rewrite Hstatus, Hreq.
  rewrite (next_action_is_found _ _ Hlook). reflexivity.
Qed.

Lemma manager_route_code (s : WorkflowState) :
  is_failed (status s) = false ->
  next_action_is (plan_data s) "begin_implementation" = Returned true ->
  next_target Manager s = Returned (Node Code).
Proof.
  intros Hstatus Hnext. unfold next_target. cbn [routing_condition].
  unfold _manager_routing_condition. rewrite Hstatus, Hnext. reflexivity.
Qed.

Lemma qa_intake_node_success (w : World) :
  intake_proceeds env ->
  requirements_data (state w) = VDict [] ->
  exists w' r dq,
    _qa_intake_node env w = (w', Returned tt) /\
    state w' = add_tokens (Base.tokens_used r)
                 (set_requirements_data (VDict dq)
                    (set_current_step "qa_intake" (state w))) /\
    trace w' = trace w /\
    lookup_key "next_action" dq = Some (VStr "proceed_to_planning").
Proof.
  intros Hagent Hreq. unfold _qa_intake_node. unfold_monad. rewrite Hreq. cbn.
  lazymatch goal with
  | |- context [call_agent env ?k ?v ?w0] =>
      destruct (Hagent (calls w0) v) as (r & dq & Hproc & Hs & Hdata & Hlook);
      destruct (call_agent_success env k v w0 r Hproc Hs)
        as (w1 & r' & Hcall & Hst & Htr & Hs' & Hdata' & Htok);
      rewrite Hcall
  end.
  cbn. rewrite Hs'. cbn. rewrite Hdata', Hdata, Hst, Htr.
  exists (mkWorld (add_tokens (Base.tokens_used r')
                     (set_requirements_data (VDict dq)
                        (set_current_step "qa_intake" (state w))))
                  (agents w1) (calls w1) (ticks w1) (trace w)), r', dq.
  repeat split. exact Hlook.
Qed.

Lemma manager_node_success (w : World) (plan : value) :
  planner_returns env plan ->
  exists w' r,
    _manager_node env w = (w', Returned tt) /\
    state w' = add_tokens (Base.tokens_used r)
                 (set_plan_data plan (set_current_step "manager" (state w))) /\
    trace w' = trace w.
Proof.
  intros Hagent. unfold _manager_node. unfold_monad. cbn.
  lazymatch goal with
  | |- context [call_agent env ?k ?v ?w0] =>
      destruct (Hagent (calls w0) v) as (r & Hproc & Hs & Hdata);
      destruct (call_agent_success env k v w0 r Hproc Hs)
        as (w1 & r' & Hcall & Hst & Htr & Hs' & Hdata' & Htok);
      rewrite Hcall
  end.
  cbn. rewrite Hs'. cbn. rewrite Hdata', Hdata, Hst, Htr.
  eexists; eexists. repeat split.
Qed.

Lemma whole_run (w : World) (plan : value) (tasks : list value) (p : nat)
    (wid request : string) (t0 : float) :
  intake_proceeds env ->
  planner_returns env plan ->
  code_agent_succeeds env ->
  next_action_is plan "begin_implementation" = Returned true ->
  plan_with_tasks plan tasks ->
  pending_or_completed tasks = true ->
  pending_count tasks = S p ->
  state w = new_state wid request t0 ->
  (2 + 2 * S p <= recursion_limit env)%nat ->
  exists w' tasks' ys t,
    ainvoke env (running w) = (w', Returned tt) /\
    status (state w') = COMPLETED /\
    completed_at (state w') = Some t /\
    errors (state w') = [] /\
    trace w' = trace w ++ [QaIntake; Manager] ++ concat (repeat [Code; Review] (S p)) /\
    plan_with_tasks (plan_data (state w')) tasks' /\
    forallb (task_has_status "completed") tasks' = true /\
    length tasks' = length tasks /\
    implementations_of (implementation_data (state w')) = Some ys /\
    length ys = S p.
Proof.
  intros Hqa Hmgr Hcode Hnext Hplan Hopen Hcount Hfresh Hbudget.
  destruct (recursion_limit env) as [|[|budget]] eqn:Hlimit; [lia | lia |].
  pose (w0 := mkWorld (state (running w)) (agents (running w)) (calls (running w))
                      (ticks (running w)) (trace (running w) ++ [QaIntake])).
  assert (Hreq0 : requirements_data (state w0) = VDict [])
    by (cbn; rewrite Hfresh; reflexivity).
  destruct (qa_intake_node_success w0 Hqa Hreq0)
    as (w1 & r1 & dq & Hnode1 & Hst1 & Htr1 & Hlook1).
  cbn [w0 state trace running] in Hst1, Htr1. rewrite Hfresh in Hst1.
  destruct (manager_node_success
              (mkWorld (state w1) (agents w1) (calls w1) (ticks w1) (trace w1 ++ [Manager]))
              plan Hmgr)
    as (w2 & r2 & Hnode2 & Hst2 & Htr2).
  cbn [state trace] in Hst2, Htr2.
  assert (Hplan2 : plan_data (state w2) = plan) by (rewrite Hst2; reflexivity).
  destruct (implementation_loop env p Hcode budget w2 tasks [])
    as (w3 & tasks' & ys & t & Hrun & Hstatus & Hat & Hplan' & Hall & Hlen & Htr3
        & Hys & Hn & Herr).
  { rewrite Hplan2. exact Hplan. }
  { exact Hopen. }
  { exact Hcount. }
  { rewrite Hst2, Hst1. repeat split. }
  { rewrite Hst2, Hst1. reflexivity. }
  { lia. }
  assert (Hainvoke : ainvoke env (running w) = (w3, Returned tt)).
  { rewrite ainvoke_unfold, Hlimit, run_from_step.
    cbn [node_function]. fold w0. rewrite Hnode1.
    rewrite (qa_route_proceed (state w1) dq);
      [| rewrite Hst1; reflexivity | rewrite Hst1; reflexivity | exact Hlook1].
    rewrite run_from_step. cbn [node_function]. rewrite Hnode2.
    rewrite (manager_route_code (state w2));
      [| rewrite Hst2, Hst1; reflexivity | rewrite Hplan2; exact Hnext].
    exact Hrun. }
  exists w3, tasks', ys, t. split; [exact Hainvoke |].
  split; [exact Hstatus |]. split; [exact Hat |].
  split; [rewrite Herr, Hst2, Hst1; reflexivity |].
  split; [rewrite Htr3, Htr2, Htr1; rewrite <- !app_assoc; reflexivity |].
  split; [exact Hplan' |]. split; [exact Hall |]. split; [exact Hlen |].
  split; [exact Hys | exact Hn].
Qed.

(** X16. A new workflow is completed when its agents succeed. With an intake
    agent that asks to proceed to planning, a planner whose plan asks to
    begin the implementation and lists tasks that are pending or completed,
    [p] of them pending with [p] at least one, a code agent that succeeds,
    and two steps of budget for intake and planning and two for each
    pending task, the graph runs intake, the planner, and then code and
    review [p] times in turn, and returns with the status [COMPLETED] and
    the stamp of the review node, no error, every task of the plan
    completed and one implementation for each task that was pending.
    [_execute_workflow] stores that output in the registry and leaves with
    an [AttributeError]. *)
Theorem workflow_completes_when_agents_succeed :
  forall (w : World) (plan : value) (tasks : list value) (p : nat)
         (wid request : string) (t0 : float),
    intake_proceeds env ->
    planner_returns env plan ->
    code_agent_succeeds env ->
    next_action_is plan "begin_implementation" = Returned true ->
    plan_with_tasks plan tasks ->
    pending_or_completed tasks = true ->
    pending_count tasks = S p ->
    state w = new_state wid request t0 ->
    (2 + 2 * S p <= recursion_limit env)%nat ->
    exists (tasks' ys : list value) (t : float),
      graph_returns env w = true /\
      (exists e, snd (_execute_workflow_on env w) = Raised e /\
                 exc_type e = AttributeError) /\
      status (state (fst (_execute_workflow_on env w))) = COMPLETED /\
      completed_at (state (fst (_execute_workflow_on env w))) = Some t /\
      errors (state (fst (_execute_workflow_on env w))) = [] /\
      trace (fst (_execute_workflow_on env w))
        = trace w ++ [QaIntake; Manager] ++ concat (repeat [Code; Review] (S p)) /\
      plan_with_tasks (plan_data (state (fst (_execute_workflow_on env w)))) tasks' /\
      forallb (task_has_status "completed") tasks' = true /\
      length tasks' = length tasks /\
      implementations_of (implementation_data (state (fst (_execute_workflow_on env w))))
        = Some ys /\
      length ys = S p.
Proof.
  intros w plan tasks p wid request t0 Hqa Hmgr Hcode Hnext Hplan Hopen Hcount Hfresh
         Hbudget.
  destruct (whole_run w plan tasks p wid request t0 Hqa Hmgr Hcode Hnext Hplan Hopen
              Hcount Hfresh Hbudget)
    as (w' & tasks' & ys & t & Hrun & Hrest).
  exists tasks', ys, t.
  split; [exact (graph_returns_true env w w' Hrun) |].
  rewrite (execute_workflow_on_returned env w w' Hrun). cbn [fst snd].
  split; [exists no_status; split; reflexivity | exact Hrest].
Qed.

End WholeRun.

Section Examples.
Import Py Workflow Scenarios.

Lemma registry_stays_within_ceiling_witness :
  within_ceiling five_completed /\
  within_ceiling (fst (_execute_workflow scenario_a five_completed "wf-1")) /\
  dom (active_workflows (fst (_execute_workflow scenario_a five_completed "wf-1")))
    = dom (active_workflows five_completed).
Proof.
  assert (Hwithin : within_ceiling five_completed)
    by (unfold within_ceiling; vm_compute; discriminate).
  split; [exact Hwithin |].
  destruct (registry_stays_within_ceiling scenario_a five_completed "build a parser"
              "wf-6" "wf-1" Hwithin) as (_ & Hexec & _ & Hdom).
  split; [exact Hexec | exact Hdom].
Defined.

Lemma intake_failure_settles_failed_witness :
  status (state (fst (_execute_workflow_on intake_fails fresh_world))) = FAILED /\
  errors (state (fst (_execute_workflow_on intake_fails fresh_world)))
    = ["QA Intake failed: model unavailable"] /\
  trace (fst (_execute_workflow_on intake_fails fresh_world)) = [QaIntake].
Proof.
  destruct (intake_failure_settles_failed intake_fails fresh_world [] "model unavailable"
              24 eq_refl eq_refl (fun _ => eq_refl))
    as (_ & _ & Hstatus & Herrors & Htrace & _).
  split; [exact Hstatus |]. split; [exact Herrors | exact Htrace].
Defined.

Lemma revision_request_never_completes_witness :
  revision_requested (state revising) = true /\
  (snd (run_from scenario_a 6 Code revising) = Returned tt ->
   status (state (fst (run_from scenario_a 6 Code revising))) = FAILED) /\
  exists k, trace (fst (run_from scenario_a 6 Code revising)) = repeat Code k.
Proof.
  split; [reflexivity |].
  destruct (revision_request_never_completes scenario_a 6 revising eq_refl)
    as (Hreturned & Htrace & _).
  split; [exact Hreturned | exact Htrace].
Defined.

Lemma code_node_completes_first_pending_witness :
  snd (_code_node scenario_a planned) = Returned tt /\
  status (state (fst (_code_node scenario_a planned))) = RUNNING /\
  errors (state (fst (_code_node scenario_a planned))) = [].
Proof.
  assert (Hplan : plan_with_tasks (plan_data (state planned))
                    [VDict [("id", VStr "task_1"); ("status", VStr "pending")]])
    by (do 2 eexists; repeat split).
  assert (Hagent : forall input,
            exists r, process scenario_a (calls planned) AgentCode input = Returned r /\
                      Base.success r = true)
    by (intros input; eexists; split; reflexivity).
  destruct (code_node_completes_first_pending scenario_a planned _ [] Hplan (le_n 1)
              eq_refl Hagent)
    as (plan & i & t & r & _ & _ & _ & _ & _ & _ & Hreturned & _ & _ & _ & _ & Hstatus
        & Herrors).
  split; [exact Hreturned |]. split; [exact Hstatus | exact Herrors].
Defined.

Lemma review_approves_completed_plans_witness :
  status (state (fst (_review_node scenario_a exhausted))) = COMPLETED /\
  next_target Review (state (fst (_review_node scenario_a exhausted))) = Returned END.
Proof.
  assert (Hplan : plan_with_tasks (plan_data (state exhausted))
                    [VDict [("id", VStr "task_1"); ("status", VStr "completed")]])
    by (do 2 eexists; repeat split).
  destruct (review_approves_completed_plans scenario_a exhausted _ Hplan)
    as (_ & _ & Happroved & _).
  destruct (Happroved eq_refl) as (Hstatus & _ & Hroute).
  split; [exact Hstatus | exact Hroute].
Defined.

Lemma implementation_loop_completes_witness :
  status (state (fst (run_from scenario_three 4 Code planned_three))) = COMPLETED /\
  trace (fst (run_from scenario_three 4 Code planned_three)) = [Code; Review; Code; Review].
Proof.
  assert (Hcode : code_agent_succeeds scenario_three)
    by (intros n input; eexists; split; reflexivity).
  assert (Hplan : plan_with_tasks (plan_data (state planned_three)) three_tasks)
    by (do 2 eexists; repeat split).
  assert (Himplementing : implementing (state planned_three)) by (repeat split).
  assert (Hbudget : (2 * 2 <= 4)%nat) by (cbn; lia).
  destruct (implementation_loop_completes scenario_three Hcode 1 4 planned_three
              three_tasks [] Hplan eq_refl eq_refl Himplementing eq_refl Hbudget)
    as (tasks' & ys & t & _ & Hstatus & _ & _ & _ & _ & Htrace & _).
  split; [exact Hstatus | exact Htrace].
Defined.

Lemma workflow_completes_when_agents_succeed_witness :
  status (state (fst (_execute_workflow_on scenario_three fresh_world))) = COMPLETED /\
  errors (state (fst (_execute_workflow_on scenario_three fresh_world))) = [] /\
  trace (fst (_execute_workflow_on scenario_three fresh_world))
    = [QaIntake; Manager; Code; Review; Code; Review].
Proof.
  assert (Hintake : intake_proceeds scenario_three)
    by (intros n input; do 2 eexists; repeat split).
  assert (Hplanner : planner_returns scenario_three three_task_plan)
    by (intros n input; eexists; repeat split).
  assert (Hcode : code_agent_succeeds scenario_three)
    by (intros n input; eexists; split; reflexivity).
  assert (Hplan : plan_with_tasks three_task_plan three_tasks)
    by (do 2 eexists; repeat split).
  assert (Hbudget : (2 + 2 * 2 <= recursion_limit scenario_three)%nat) by (cbn; lia).
  destruct (workflow_completes_when_agents_succeed scenario_three fresh_world
              three_task_plan three_tasks 1 "wf-1" "build a calculator" 0%float
              Hintake Hplanner Hcode eq_refl Hplan eq_refl eq_refl eq_refl Hbudget)
    as (tasks' & ys & t & _ & _ & Hstatus & _ & Herrors & Htrace & _).
  split; [exact Hstatus |]. split; [exact Herrors | exact Htrace].
Defined.

End Examples.

(* ===================================================================== *)
(** * From [start_workflow] to the registry *)
(* ===================================================================== *)

Section StartedWorkflow.
Import Py Workflow.
Variable env : Environment.

Lemma execute_workflow_on_identity (w : World) :
  same_identity (state w) (state (fst (_execute_workflow_on env w))).
Proof.
  apply (execute_workflow_on_related env same_identity).
  - intros s. repeat split.
  - intros a b c (H1 & H2 & H3) (H4 & H5 & H6). unfold same_identity.
    repeat split; congruence.
  - apply node_identity.
  - intros; repeat split.
  - intros; repeat split.
Qed.

(** What [_execute_workflow] does with a state object on which the graph
    returns: the output takes the place of the object, and the error of
    reading [.status] on it leaves the function. *)
Lemma execute_workflow_stores_output (self : WorkflowManager) (wid : string)
    (st : WorkflowState) (w1 : World) :
  active_workflows self !! wid = Some (StateObject st) ->
  ainvoke env (running (mkWorld st (manager_agents self) (manager_calls self)
                                (manager_ticks self) []))
    = (w1, Returned tt) ->
  _execute_workflow env self wid
  = (mkManager (<[wid:=OutputDict (state w1)]> (active_workflows self))
               (max_concurrent_workflows self) (agents w1) (calls w1) (ticks w1),
     Raised no_status).
Proof.
  intros Hlook Hrun. unfold _execute_workflow. rewrite Hlook. cbv zeta.
  rewrite (graph_returns_true env _ w1 Hrun).
  rewrite (execute_workflow_on_returned env _ w1 Hrun). reflexivity.
Qed.

Lemma graph_returns_inv (w : World) :
  graph_returns env w = true -> exists w1, ainvoke env (running w) = (w1, Returned tt).
Proof.
  unfold graph_returns.
  destruct (ainvoke env (running w)) as [w1 [[] | e]]; [eauto | discriminate].
Qed.

(** C8 (what the code does). A workflow whose graph run returns can no
    longer be queried. Before [_execute_workflow] runs, the query on the
    registered state object returns its [to_dict]; [_execute_workflow] then
    puts the output of the graph, a dict, in the place of the object (and
    leaves with an [AttributeError]); from then on [get_workflow_status] on
    that identifier calls [to_dict] on a dict and raises [AttributeError]:
    it returns no snapshot. *)
Theorem status_query_raises_on_graph_output :
  forall (self : WorkflowManager) (wid : string) (st : WorkflowState),
    active_workflows self !! wid = Some (StateObject st) ->
    graph_returns env (mkWorld st (manager_agents self) (manager_calls self)
                               (manager_ticks self) []) = true ->
    get_workflow_status self wid = Returned (Some (to_dict st)) /\
    (exists e, snd (_execute_workflow env self wid) = Raised e /\
               exc_type e = AttributeError) /\
    (exists out,
       active_workflows (fst (_execute_workflow env self wid)) !! wid
         = Some (OutputDict out)) /\
    (exists e, get_workflow_status (fst (_execute_workflow env self wid)) wid = Raised e /\
               exc_type e = AttributeError).
Proof.
  intros self wid st Hlook Hreturns.
  destruct (graph_returns_inv _ Hreturns) as [w1 Hrun].
  rewrite (execute_workflow_stores_output self wid st w1 Hlook Hrun).
  unfold get_workflow_status. rewrite Hlook. cbn [fst snd active_workflows].
  rewrite lookup_insert_eq.
  split; [reflexivity |]. split; [exists no_status; split; reflexivity |].
  split; [eexists; reflexivity |]. eexists. split; reflexivity.
Qed.

(** X17. From [start_workflow] to the registry. When the registry has room and
    the intake agent, the planner and the code agent succeed on a plan with
    a pending task, [start_workflow] returns the identifier it drew, and
    [_execute_workflow] on that identifier leaves in the registry, under
    the identifier, the output of the graph: a dict with the fields of the
    workflow that was started, the status [COMPLETED], a stamp and no error.
    [_execute_workflow] itself leaves with an [AttributeError]. *)
Theorem started_workflow_runs_to_completion :
  forall (self : WorkflowManager) (request uuid : string)
         (plan : value) (tasks : list value) (p : nat),
    Z.of_nat (size (active_workflows self)) < max_concurrent_workflows self ->
    intake_proceeds env ->
    planner_returns env plan ->
    code_agent_succeeds env ->
    next_action_is plan "begin_implementation" = Returned true ->
    plan_with_tasks plan tasks ->
    pending_or_completed tasks = true ->
    pending_count tasks = S p ->
    (2 + 2 * S p <= recursion_limit env)%nat ->
    snd (start_workflow env self request uuid) = Returned uuid /\
    (exists e,
       snd (_execute_workflow env (fst (start_workflow env self request uuid)) uuid)
         = Raised e /\
       exc_type e = AttributeError) /\
    exists (st : WorkflowState) (t : float),
      active_workflows
        (fst (_execute_workflow env (fst (start_workflow env self request uuid)) uuid))
        !! uuid = Some (OutputDict st) /\
      status st = COMPLETED /\
      completed_at st = Some t /\
      errors st = [] /\
      workflow_id st = uuid /\
      user_request st = request.
Proof.
  intros self request uuid plan tasks p Hroom Hqa Hmgr Hcode Hnext Hplan Hopen Hcount
         Hbudget.
  unfold start_workflow. apply Z.leb_gt in Hroom. rewrite Hroom. cbn [fst snd].
  split; [reflexivity |].
  set (w := mkWorld (new_state uuid request (clock env (manager_ticks self)))
                    (manager_agents self) (manager_calls self)
                    (S (manager_ticks self)) []).
  destruct (whole_run env w plan tasks p uuid request (clock env (manager_ticks self))
              Hqa Hmgr Hcode Hnext Hplan Hopen Hcount eq_refl Hbudget)
    as (w' & tasks' & ys & t & Hrun & Hstatus & Hat & Herrors & _).
  pose proof (execute_workflow_on_identity w) as (Hid & Hreq & _).
  rewrite (execute_workflow_on_returned env w w' Hrun) in Hid, Hreq.
  cbn [fst state w] in Hid, Hreq.
  rewrite (execute_workflow_stores_output _ uuid
             (new_state uuid request (clock env (manager_ticks self))) w');
    [| cbn [active_workflows]; apply lookup_insert_eq | exact Hrun].
  cbn [fst snd active_workflows].
  split; [exists no_status; split; reflexivity |].
  exists (state w'), t. rewrite lookup_insert_eq.
  repeat split; assumption.
Qed.

End StartedWorkflow.

Section StartedExample.
Import Py Workflow Scenarios.

Lemma status_query_raises_on_graph_output_witness :
  get_workflow_status
    (fst (start_workflow scenario_three new_manager "build a calculator" "wf-1")) "wf-1"
    = Returned (Some (to_dict calculator)) /\
  exists e,
    get_workflow_status
      (fst (_execute_workflow scenario_three
              (fst (start_workflow scenario_three new_manager "build a calculator" "wf-1"))
              "wf-1")) "wf-1" = Raised e /\
    exc_type e = AttributeError.
Proof.
  destruct (status_query_raises_on_graph_output scenario_three
              (fst (start_workflow scenario_three new_manager "build a calculator" "wf-1"))
              "wf-1" calculator)
    as (Hbefore & _ & _ & Hafter).
  - vm_compute. reflexivity.
  - vm_compute. reflexivity.
  - split; [exact Hbefore | exact Hafter].
Defined.

Lemma started_workflow_runs_to_completion_witness :
  snd (start_workflow scenario_three new_manager "build a calculator" "wf-1")
    = Returned "wf-1" /\
  exists st,
    active_workflows
      (fst (_execute_workflow scenario_three
              (fst (start_workflow scenario_three new_manager "build a calculator" "wf-1"))
              "wf-1")) !! "wf-1" = Some (OutputDict st) /\
    status st = COMPLETED.
Proof.
  assert (Hroom : Z.of_nat (size (active_workflows new_manager))
                  < max_concurrent_workflows new_manager) by (vm_compute; reflexivity).
  assert (Hintake : intake_proceeds scenario_three)
    by (intros n input; do 2 eexists; repeat split).
  assert (Hplanner : planner_returns scenario_three three_task_plan)
    by (intros n input; eexists; repeat split).
  assert (Hcode : code_agent_succeeds scenario_three)
    by (intros n input; eexists; split; reflexivity).
  assert (Hplan : plan_with_tasks three_task_plan three_tasks)
    by (do 2 eexists; repeat split).
  assert (Hbudget : (2 + 2 * 2 <= recursion_limit scenario_three)%nat) by (cbn; lia).
  destruct (started_workflow_runs_to_completion scenario_three new_manager
              "build a calculator" "wf-1" three_task_plan three_tasks 1
              Hroom Hintake Hplanner Hcode eq_refl Hplan eq_refl eq_refl Hbudget)
    as (Hstarted & _ & st & t & Hlook & Hstatus & _).
  split; [exact Hstarted |]. exists st. split; [exact Hlook | exact Hstatus].
Defined.

End StartedExample.

(* ===================================================================== *)
(** * A failing planner, a failing code agent *)
(* ===================================================================== *)

Section LaterStageFailures.
Import Py Workflow.
Variable env : Environment.

Lemma execute_failure_without_data (a : Base.BaseAgent) (t0 t1 : float)
    (proc : outcome Base.AgentResult) (msg : string) :
  Base.failure_message proc = Some msg ->
  (forall r, proc = Returned r -> truthy (Base.data r) = false) ->
  exists a' r,
    Base.execute a t0 proc t1 = (a', Returned r) /\
    Base.success r = false /\ fmt_opt (Base.error r) = msg /\
    truthy (Base.data r) = false.
Proof.
  unfold Base.failure_message, Base.execute. destruct proc as [r | e].
  - destruct (Base.success r) eqn:Hs; [discriminate |]. intros [= <-] Hdata.
    cbn. rewrite Hs. eexists; eexists. split; [reflexivity |].
    split; [exact Hs |]. split; [reflexivity | exact (Hdata r eq_refl)].
  - intros Hmsg _. destruct (is_TimeoutError e).
    + injection Hmsg as <-. eexists; eexists. repeat split.
    + destruct (is_Exception e); [| discriminate]. injection Hmsg as <-.
      eexists; eexists. repeat split.
Qed.

Lemma call_agent_failure_without_data (k : agent_key) (input : value) (w : World)
    (msg : string) :
  agent_fails env k msg ->
  exists w' r,
    call_agent env k input w = (w', Returned r) /\
    state w' = state w /\ trace w' = trace w /\
    Base.success r = false /\ fmt_opt (Base.error r) = msg /\
    truthy (Base.data r) = false.
Proof.
  intros Hfails. destruct (Hfails (calls w) input) as [Hmsg Hdata]. unfold call_agent.
  destruct (execute_failure_without_data (get_agent k (agents w)) (clock env (ticks w))
              (clock env (S (ticks w))) _ msg Hmsg Hdata)
    as (a' & r & Hexec & Hs & Herr & Hd).
  rewrite Hexec. eexists; eexists. repeat split; assumption.
Qed.


Lemma code_node_failure (w : World) (tasks : list value) (msg : string) :
  plan_with_tasks (plan_data (state w)) tasks ->
  (0 < pending_count tasks)%nat ->
  agent_fails env AgentCode msg ->
  exists w',
    _code_node env w = (w', Returned tt) /\
    state w' = set_status FAILED
                 (append_error ("Code generation failed: " +:+ msg)
                    (set_current_step "code" (state w))) /\
    trace w' = trace w.
Proof.
  intros Hplan Hpending Hfails.
  destruct (pending_task_of_plan _ _ Hplan) as (plan & _ & _ & Hlook).
  pose proof Hplan as (pd & plan' & Hpd & _ & _ & Hdicts).
  destruct (find_pending_first tasks Hdicts 0)
    as [[_ Hnone] | (i & t & Hfound & Hi & Hp & Hbefore)]; [lia |].
  rewrite Hfound in Hlook. cbn [Nat.add] in Hlook.
  destruct (task_with_status_is_truthy _ _ Hp) as [Htruthy Hdict].
  destruct t as [| | | | | |t]; try discriminate Hdict.
  destruct t as [|kv t]; [discriminate Htruthy |].
  unfold _code_node. unfold_monad. rewrite Hlook. cbn [truthy negb].
  rewrite (completed_tasks_of_dicts tasks Hdicts). cbn.
  lazymatch goal with
  | |- context [call_agent env ?k ?v ?w0] =>
      destruct (call_agent_failure_without_data k v w0 msg Hfails)
        as (w1 & r & Hcall & Hst & Htr & Hs & Herr & Hdata);
      rewrite Hcall
  end.
  cbn. rewrite Hs. cbn. rewrite Hdata. cbn. rewrite Herr, Hst, Htr.
  eexists. repeat split.
Qed.



(** X19. A failure of the code agent that asks for no revision ends the
    workflow. From the code node, with a plan that has a pending task and a
    code agent that fails with the message [msg] and no data, the graph
    runs the code node once and ends: the status is [FAILED], the one new
    error is ["Code generation failed: "] followed by [msg], and the plan,
    the implementations and the token total are as they were, so the task
    is still pending. *)
Theorem code_failure_ends_the_graph :
  forall (w : World) (tasks : list value) (msg : string) (budget : nat),
    plan_with_tasks (plan_data (state w)) tasks ->
    (0 < pending_count tasks)%nat ->
    agent_fails env AgentCode msg ->
    snd (run_from env (S budget) Code w) = Returned tt /\
    status (state (fst (run_from env (S budget) Code w))) = FAILED /\
    errors (state (fst (run_from env (S budget) Code w)))
      = errors (state w) ++ ["Code generation failed: " +:+ msg] /\
    trace (fst (run_from env (S budget) Code w)) = trace w ++ [Code] /\
    plan_data (state (fst (run_from env (S budget) Code w))) = plan_data (state w) /\
    implementation_data (state (fst (run_from env (S budget) Code w)))
      = implementation_data (state w) /\
    total_tokens_used (state (fst (run_from env (S budget) Code w)))
      = total_tokens_used (state w).
Proof.
  intros w tasks msg budget Hplan Hpending Hfails.
  destruct (code_node_failure
              (mkWorld (state w) (agents w) (calls w) (ticks w) (trace w ++ [Code]))
              tasks msg Hplan Hpending Hfails)
    as (w1 & Hnode & Hst & Htr).
  cbn [state trace] in Hst, Htr.
  rewrite run_from_step. cbn [node_function]. rewrite Hnode.
  rewrite failed_routes_to_end; [| discriminate | rewrite Hst; reflexivity].
  cbn [fst snd]. rewrite Hst, Htr. repeat split.
Qed.

End LaterStageFailures.

Section LaterStageFailureExamples.
Import Py Workflow Scenarios.


Lemma code_failure_ends_the_graph_witness :
  status (state (fst (run_from implementer_fails 3 Code planned))) = FAILED /\
  errors (state (fst (run_from implementer_fails 3 Code planned)))
    = ["Code generation failed: model unavailable"] /\
  plan_data (state (fst (run_from implementer_fails 3 Code planned))) = one_task_plan.
Proof.
  assert (Hplan : plan_with_tasks (plan_data (state planned))
                    [VDict [("id", VStr "task_1"); ("status", VStr "pending")]])
    by (do 2 eexists; repeat split).
  assert (Hfails : agent_fails implementer_fails AgentCode "model unavailable")
    by (intros n input; split; [reflexivity | intros r [= <-]; reflexivity]).
  destruct (code_failure_ends_the_graph implementer_fails planned _ "model unavailable" 2
              Hplan (le_n 1) Hfails)
    as (_ & Hstatus & Herrors & _ & Hsame & _).
  split; [exact Hstatus |]. split; [exact Herrors | exact Hsame].
Defined.

End LaterStageFailureExamples.
